(** * Time-windowed aggregation and navigation of the water journal

    Shallow embedding of
      - [src/components/chart/chartUtils.ts]  (the aggregator),
      - [src/app/(tabs)/index.tsx]            (window, boundaries, navigation,
                                               the demo data),
      - [src/lib/logStore.ts]                 (the store, on its mock storage),
      - [src/lib/seed.ts]                     (the seeding),
    over a model of the JavaScript [Date] object.

    A [Date] is its time value: the number of milliseconds since the epoch,
    an integer ([Z]).  The calendar functions follow ECMA-262 (section
    "Date Objects"): [Day], [TimeWithinDay], [DayFromYear], [YearFromTime],
    [MonthFromTime], [DateFromTime], [MakeTime], [MakeDay], [MakeDate].
    Local time is UTC shifted by a fixed offset [tza] (milliseconds): daylight
    saving transitions are outside the model, and so is the range check
    [TimeClip] (every integer is a valid time value here).

    The source copies a [Date] ([new Date(x)]) before each in-place
    [setDate]/[setHours]; the embedding therefore treats these methods as
    functions from the old time value to the new one.  Amounts and fatigue
    levels are JavaScript numbers; they are modelled as exact rationals [Q]. *)

From Stdlib Require Import ZArith QArith List Bool Ascii String Lia Lqa.
From Stdlib Require Import Sorted Permutation Qround.
From stdpp Require Import base list strings pretty gmap.

Local Open Scope Z_scope.

(* ===================================================================== *)
(** ** ECMA-262 calendar arithmetic                                        *)
(* ===================================================================== *)

Module Calendar.

Definition msPerSecond : Z := 1000.
Definition msPerMinute : Z := 60000.
Definition msPerHour : Z := 3600000.
Definition msPerDay : Z := 86400000.

(** [Day(t) = floor(t / msPerDay)], [TimeWithinDay(t) = t modulo msPerDay]. *)
Definition Day (t : Z) : Z := t / msPerDay.
Definition TimeWithinDay (t : Z) : Z := t mod msPerDay.

(** Day number of the first day of year [y]. *)
Definition DayFromYear (y : Z) : Z :=
  365 * (y - 1970) + (y - 1969) / 4 - (y - 1901) / 100 + (y - 1601) / 400.

Definition InLeapYearOf (y : Z) : bool :=
  ((y mod 4 =? 0) && negb (y mod 100 =? 0)) || (y mod 400 =? 0).

Definition DaysInYear (y : Z) : Z := if InLeapYearOf y then 366 else 365.

(** ECMA-262 defines the year of a day as the largest [y] with
    [DayFromYear y <= day].  It is computed here by splitting the day number,
    counted from 1601-01-01, into cycles of 400, 100, 4 and 1 years. *)
Definition YearFromDay (day : Z) : Z :=
  let n := day - DayFromYear 1601 in
  let era := n / 146097 in
  let doe := n mod 146097 in
  let c := Z.min (doe / 36524) 3 in
  let doc := doe - c * 36524 in
  let q := Z.min (doc / 1461) 24 in
  let doq := doc - q * 1461 in
  let yr := Z.min (doq / 365) 3 in
  1601 + 400 * era + 100 * c + 4 * q + yr.

Definition YearFromTime (t : Z) : Z := YearFromDay (Day t).

Definition InLeapYear (t : Z) : bool := InLeapYearOf (YearFromTime t).

Definition DayWithinYear (t : Z) : Z := Day t - DayFromYear (YearFromTime t).

(** Number of days of the year before month [m] (0 = January). *)
Definition daysBeforeMonth (leap : bool) (m : Z) : Z :=
  let l := if leap then 1 else 0 in
  if m <=? 0 then 0
  else if m =? 1 then 31
  else if m =? 2 then 59 + l
  else if m =? 3 then 90 + l
  else if m =? 4 then 120 + l
  else if m =? 5 then 151 + l
  else if m =? 6 then 181 + l
  else if m =? 7 then 212 + l
  else if m =? 8 then 243 + l
  else if m =? 9 then 273 + l
  else if m =? 10 then 304 + l
  else 334 + l.

(** The month table of ECMA-262: 0 = January ... 11 = December. *)
Definition monthOfDayInYear (leap : bool) (d : Z) : Z :=
  let l := if leap then 1 else 0 in
  if d <? 31 then 0
  else if d <? 59 + l then 1
  else if d <? 90 + l then 2
  else if d <? 120 + l then 3
  else if d <? 151 + l then 4
  else if d <? 181 + l then 5
  else if d <? 212 + l then 6
  else if d <? 243 + l then 7
  else if d <? 273 + l then 8
  else if d <? 304 + l then 9
  else if d <? 334 + l then 10
  else 11.

Definition MonthFromTime (t : Z) : Z :=
  monthOfDayInYear (InLeapYear t) (DayWithinYear t).

(** Day of the month, 1-based. *)
Definition DateFromTime (t : Z) : Z :=
  DayWithinYear t - daysBeforeMonth (InLeapYear t) (MonthFromTime t) + 1.

Definition HourFromTime (t : Z) : Z := (t / msPerHour) mod 24.

Definition MakeTime (hour min sec ms : Z) : Z :=
  hour * msPerHour + min * msPerMinute + sec * msPerSecond + ms.

(** [MakeDay(year, month, date)]: the day number of the first day of the
    month, plus [date - 1]; months outside 0..11 carry into the year. *)
Definition MakeDay (year month date : Z) : Z :=
  let ym := year + month / 12 in
  let mn := month mod 12 in
  DayFromYear ym + daysBeforeMonth (InLeapYearOf ym) mn + date - 1.

Definition MakeDate (day time : Z) : Z := day * msPerDay + time.

End Calendar.

(* ===================================================================== *)
(** ** The [Date] object                                                   *)
(* ===================================================================== *)

Section DateObject.

(** Offset of local time from UTC, in milliseconds. *)
Variable tza : Z.

Import Calendar.

Definition LocalTime (t : Z) : Z := t + tza.
Definition UTC (t : Z) : Z := t - tza.

Definition getTime (d : Z) : Z := d.
Definition getHours (d : Z) : Z := HourFromTime (LocalTime d).
Definition getDate (d : Z) : Z := DateFromTime (LocalTime d).
Definition getMonth (d : Z) : Z := MonthFromTime (LocalTime d).

(** [d.setHours(hour, min, sec, ms)]: same local calendar day, new time. *)
Definition setHours (d hour min sec ms : Z) : Z :=
  UTC (MakeDate (Day (LocalTime d)) (MakeTime hour min sec ms)).

(** [d.setDate(date)]: same local year, month and time of day; [date] may
    lie outside the month and then carries into the neighbouring months. *)
Definition setDate (d date : Z) : Z :=
  let t := LocalTime d in
  UTC (MakeDate (MakeDay (YearFromTime t) (MonthFromTime t) date)
                (TimeWithinDay t)).

(* ===================================================================== *)
(** ** components/chart/chartUtils.ts                                      *)
(* ===================================================================== *)

(** The fields of a log entry the computations read ([id] and [userId] are
    never read); [timestamp] is the time value of the entry's [Date]. *)
Record WaterLogEntry : Type := {
  amountCups : Q;
  fatigue : Q;
  timestamp : Z
}.

Record ChartData : Type := {
  labels : list string;
  waterData : list Q;
  fatigueData : list Q
}.

(** The running totals kept per bucket. *)
Record Tally : Type := {
  waterTotal : Q;
  fatigueCount : Z;
  fatigueSum : Q
}.

Definition emptyTally : Tally :=
  {| waterTotal := 0; fatigueCount := 0; fatigueSum := 0 |}.

(** The three [+=] of the aggregation loops. *)
Definition addEntry (entry : WaterLogEntry) (b : Tally) : Tally :=
  {| waterTotal := (waterTotal b + amountCups entry)%Q;
     fatigueCount := fatigueCount b + 1;
     fatigueSum := (fatigueSum b + fatigue entry)%Q |}.

(** [fatigueCount ? fatigueSum / fatigueCount : 0] *)
Definition averageFatigue (b : Tally) : Q :=
  if fatigueCount b =? 0 then 0%Q
  else (fatigueSum b / inject_Z (fatigueCount b))%Q.

(** [`${hour}${ampm}`] with [hour = i % 12 || 12]. *)
Definition hourLabel (i : Z) : string :=
  let hour := if i mod 12 =? 0 then 12 else i mod 12 in
  let ampm := if i <? 12 then "AM" else "PM" in
  pretty hour +:+ ampm.

(** Body of [for (const entry of entries)] in [groupEntriesByHour]. *)
Definition hourStep (buckets : list Tally) (entry : WaterLogEntry)
  : list Tally :=
  let hour := getHours (timestamp entry) in
  alter (addEntry entry) (Z.to_nat hour) buckets.

Definition hourBuckets (entries : list WaterLogEntry) : list Tally :=
  fold_left hourStep entries (replicate 24 emptyTally).

Definition groupEntriesByHour (entries : list WaterLogEntry) : ChartData :=
  let buckets := hourBuckets entries in
  {| labels := hourLabel <$> seqZ 0 24;
     waterData := waterTotal <$> buckets;
     fatigueData := averageFatigue <$> buckets |}.

(** A day bucket carries its calendar day next to the totals. *)
Record DayBucket : Type := {
  tally : Tally;
  date : Z
}.

Definition addEntryDay (entry : WaterLogEntry) (b : DayBucket) : DayBucket :=
  {| tally := addEntry entry (tally b); date := date b |}.

(** [entries.reduce((prev, curr) => prevDate >= currDate ? prev : curr)] *)
Definition latestEntry (e0 : WaterLogEntry) (rest : list WaterLogEntry)
  : WaterLogEntry :=
  fold_left
    (fun prev curr => if timestamp prev >=? timestamp curr then prev else curr)
    rest e0.

(** End of the bucket range: the day of the latest entry, or of the current
    time [now] ([new Date()]) when there is no entry. *)
Definition dayWindowEnd (now : Z) (entries : list WaterLogEntry) : Z :=
  match entries with
  | e0 :: rest => setHours (timestamp (latestEntry e0 rest)) 23 59 59 999
  | [] => setHours now 23 59 59 999
  end.

(** [if (days <= 0) days = 1] *)
Definition effectiveDays (days : Z) : Z := if days <=? 0 then 1 else days.

(** Start of the bucket range: [windowEnd] at 00:00:00.000, moved back by
    [days - 1] days of the month. *)
Definition dayWindowStart (now : Z) (entries : list WaterLogEntry) (days : Z)
  : Z :=
  let windowEnd := dayWindowEnd now entries in
  let start := setHours windowEnd 0 0 0 0 in
  setDate start (getDate windowEnd - (effectiveDays days - 1)).

(** [Array(days).fill(null).map((_, i) => ...)]: bucket [i] is dated
    [windowStart] moved forward by [i] days of the month. *)
Definition emptyDayBuckets (windowStart days : Z) : list DayBucket :=
  (fun i => {| tally := emptyTally;
               date := setDate windowStart (getDate windowStart + i) |})
    <$> seqZ 0 days.

(** [Math.floor((entryDate.getTime() - windowStart.getTime()) / (24 * 60 * 60 * 1000))] *)
Definition bucketIndex (windowStart : Z) (entry : WaterLogEntry) : Z :=
  (getTime (timestamp entry) - getTime windowStart) / (24 * 60 * 60 * 1000).

(** Body of [for (const entry of entries)] in [groupEntriesByDay]. *)
Definition dayStep (windowStart : Z) (buckets : list DayBucket)
  (entry : WaterLogEntry) : list DayBucket :=
  let i := bucketIndex windowStart entry in
  if (i >=? 0) && (i <? Z.of_nat (length buckets))
  then alter (addEntryDay entry) (Z.to_nat i) buckets
  else buckets.

Definition dayBuckets (now : Z) (entries : list WaterLogEntry) (days : Z)
  : list DayBucket :=
  let windowStart := dayWindowStart now entries days in
  fold_left (dayStep windowStart) entries
    (emptyDayBuckets windowStart (effectiveDays days)).

(** [`${d.getMonth() + 1}/${d.getDate()}`] *)
Definition dayLabel (d : Z) : string :=
  pretty (getMonth d + 1) +:+ "/" +:+ pretty (getDate d).

Definition groupEntriesByDay (now : Z) (entries : list WaterLogEntry)
  (days : Z) : ChartData :=
  let buckets := dayBuckets now entries days in
  {| labels := (fun bucket => dayLabel (date bucket)) <$> buckets;
     waterData := (fun b => waterTotal (tally b)) <$> buckets;
     fatigueData := (fun b => averageFatigue (tally b)) <$> buckets |}.

Inductive TimeSpan : Type := day | week | twoweeks | month.

Definition processEntriesForChart (now : Z) (entries : list WaterLogEntry)
  (timespan : TimeSpan) : ChartData :=
  match timespan with
  | day => groupEntriesByHour entries
  | week => groupEntriesByDay now entries 7
  | twoweeks => groupEntriesByDay now entries 14
  | month => groupEntriesByDay now entries 30
  end.

(* ===================================================================== *)
(** ** app/(tabs)/index.tsx                                                *)
(* ===================================================================== *)

Definition getWindowLength (timespan : TimeSpan) : Z :=
  match timespan with
  | day => 1
  | week => 7
  | twoweeks => 14
  | month => 30
  end.

Record Window : Type := {
  windowStart : Z;
  windowEnd : Z
}.

(** The [useMemo] computing [{ windowStart, windowEnd }] from [currentDate]
    and [timespan]. *)
Definition computeWindow (currentDate : Z) (timespan : TimeSpan) : Window :=
  let end_ := setHours currentDate 23 59 59 999 in
  let start := setDate end_ (getDate end_ - (getWindowLength timespan - 1)) in
  let start := setHours start 0 0 0 0 in
  {| windowStart := start; windowEnd := end_ |}.

(** [fullData.filter(e => e.timestamp >= windowStart && e.timestamp <= windowEnd)] *)
Definition entriesInWindow (fullData : list WaterLogEntry) (w : Window)
  : list WaterLogEntry :=
  List.filter
    (fun e => (timestamp e >=? windowStart w) && (timestamp e <=? windowEnd w))
    fullData.

(** [if (entry.timestamp < earliest) earliest = new Date(entry.timestamp)] *)
Definition scanStep (earliest : Z) (entry : WaterLogEntry) : Z :=
  if timestamp entry <? earliest then timestamp entry else earliest.

(** [dataBoundaries.earliest]; [now] is the clock reading of [new Date()]. *)
Definition dataBoundaries (now : Z) (fullData : list WaterLogEntry) : Z :=
  if Z.of_nat (length fullData) =? 0 then now
  else fold_left scanStep fullData now.

(** [canGoBack], as a function of its [useMemo] dependencies
    [windowStart, timespan, dataBoundaries.earliest, fullData.length]. *)
Definition canGoBack (windowStart : Z) (timespan : TimeSpan) (earliest : Z)
  (fullDataLength : nat) : bool :=
  if Z.of_nat fullDataLength =? 0 then false
  else
    let nextStart :=
      setDate windowStart (getDate windowStart - getWindowLength timespan) in
    nextStart >=? earliest.

Definition canGoForward (now : Z) (currentDate : Z) : bool :=
  let now := setHours now 23 59 59 999 in
  currentDate <? now.

(** The state updater of [handleBack]: [prev] is the current [currentDate],
    [earliest] is [dataBoundaries.earliest]. *)
Definition handleBack (earliest : Z) (timespan : TimeSpan) (prev : Z) : Z :=
  let newDate := setDate prev (getDate prev - getWindowLength timespan) in
  let newWindowStart :=
    setDate newDate (getDate newDate - (getWindowLength timespan - 1)) in
  let newWindowStart := setHours newWindowStart 0 0 0 0 in
  if newWindowStart <? earliest then
    let earliestWindowEnd :=
      setDate earliest (getDate earliest + (getWindowLength timespan - 1)) in
    setHours earliestWindowEnd 23 59 59 999
  else newDate.

(** The state updater of [handleForward]. *)
Definition handleForward (now : Z) (timespan : TimeSpan) (prev : Z) : Z :=
  let newDate := setDate prev (getDate prev + getWindowLength timespan) in
  let now := setHours now 23 59 59 999 in
  if newDate >? now then now else newDate.

(** The screen state the navigation reads and writes. *)
Record HomeScreen : Type := {
  fullData : list WaterLogEntry;
  timespan : TimeSpan;
  currentDate : Z
}.

Definition screenWindow (s : HomeScreen) : Window :=
  computeWindow (currentDate s) (timespan s).

Definition screenCanGoBack (now : Z) (s : HomeScreen) : bool :=
  canGoBack (windowStart (screenWindow s)) (timespan s)
    (dataBoundaries now (fullData s)) (length (fullData s)).

(** The back arrow: [onPress={handleBack} disabled={!canGoBack}]. *)
Definition pressBack (now : Z) (s : HomeScreen) : HomeScreen :=
  if screenCanGoBack now s
  then {| fullData := fullData s; timespan := timespan s;
          currentDate :=
            handleBack (dataBoundaries now (fullData s)) (timespan s)
              (currentDate s) |}
  else s.

(** The forward arrow: [onPress={handleForward} disabled={!canGoForward}]. *)
Definition pressForward (now : Z) (s : HomeScreen) : HomeScreen :=
  if canGoForward now (currentDate s)
  then {| fullData := fullData s; timespan := timespan s;
          currentDate := handleForward now (timespan s) (currentDate s) |}
  else s.

(** The chart shown by the screen: placeholder data when the window holds no
    entry, the aggregation otherwise. *)
Definition demoChart : ChartData :=
  {| labels := ["Mon"; "Tue"; "Wed"; "Thu"; "Fri"; "Sat"; "Sun"];
     waterData := [15 # 10; 22 # 10; 18 # 10; 0; 25 # 10; 12 # 10; 2]%Q;
     fatigueData := [3; 2; 4; 5; 2; 1; 3]%Q |}.

Definition chartData (now : Z) (entries : list WaterLogEntry)
  (timespan : TimeSpan) : ChartData :=
  if Z.of_nat (length entries) =? 0 then demoChart
  else processEntriesForChart now entries timespan.

(** [handleTimespanChange]: only the span changes; the anchor stays. *)
Definition handleTimespanChange (newTimespan : TimeSpan) (s : HomeScreen)
  : HomeScreen :=
  {| fullData := fullData s; timespan := newTimespan;
     currentDate := currentDate s |}.

(** The entries the screen charts: those of [fullData] inside its window. *)
Definition screenEntries (s : HomeScreen) : list WaterLogEntry :=
  entriesInWindow (fullData s) (screenWindow s).

(** *** [generateFullDemoData]

    [Math.random()] is read from a stream [rand]: the [i]-th call returns
    [rand i], a number at least 0 and less than 1; [i] counts the calls. *)

(** [x < y] on numbers. *)
Definition Qltb (x y : Q) : bool := negb (Qle_bool y x).

(** [+x.toFixed(1)]: the nearest multiple of one tenth, the larger one of
    two nearest. *)
Definition toFixed1 (x : Q) : Q := (inject_Z (Qfloor (x * 10 + (1 # 2))) / 10)%Q.

(** The inner loop: [count] entries on the day that starts at [dayDate],
    four draws each (hour, minute, amount, fatigue). *)
Fixpoint demoDayEntries (rand : nat -> Q) (dayDate : Z) (count : nat)
  (i : nat) : list WaterLogEntry * nat :=
  match count with
  | O => ([], i)
  | S count' =>
      let hour := Qfloor (rand i * 24) in
      let minute := Qfloor (rand (i + 1)%nat * 60) in
      let ts := setHours dayDate hour minute 0 0 in
      let e := {| amountCups := toFixed1 (rand (i + 2)%nat * (27 # 10) + (3 # 10));
                  fatigue := inject_Z (Qfloor (rand (i + 3)%nat * 5) + 1);
                  timestamp := ts |} in
      let (rest, j) := demoDayEntries rand dayDate count' (i + 4)%nat in
      (e :: rest, j)
  end.

(** The outer loop over [dayOffset], in the order of the pushes. *)
Fixpoint demoDays (rand : nat -> Q) (today : Z) (dayOffsets : list Z)
  (i : nat) : list WaterLogEntry :=
  match dayOffsets with
  | [] => []
  | dayOffset :: rest =>
      let dayDate := setDate today (getDate today - dayOffset) in
      let dayDate := setHours dayDate 0 0 0 0 in
      if Qltb (rand i) (1 # 4) then demoDays rand today rest (i + 1)%nat
      else
        let entriesCount := Qfloor (rand (i + 1)%nat * 9) + 2 in
        let (es, j) :=
          demoDayEntries rand dayDate (Z.to_nat entriesCount) (i + 2)%nat in
        es ++ demoDays rand today rest j
  end.

(** [data.sort((a, b) => a.timestamp.getTime() - b.timestamp.getTime())]:
    the sort is stable. *)
Fixpoint insertAsc (x : WaterLogEntry) (l : list WaterLogEntry)
  : list WaterLogEntry :=
  match l with
  | [] => [x]
  | y :: l' =>
      if timestamp y <? timestamp x then y :: insertAsc x l' else x :: y :: l'
  end.

Definition sortAsc (l : list WaterLogEntry) : list WaterLogEntry :=
  fold_right insertAsc [] l.

Definition generateFullDemoData (rand : nat -> Q) (now : Z)
  : list WaterLogEntry :=
  let today := setHours now 23 59 59 999 in
  sortAsc (demoDays rand today (seqZ 0 60) 0).

(** The screen right after [handleGenerateSampleData] (and at the start):
    fresh data, the anchor at the end of today; [now0] and [now1] are the
    clock readings of the generator and of the reset. *)
Definition handleGenerateSampleData (rand : nat -> Q) (now0 now1 : Z)
  (s : HomeScreen) : HomeScreen :=
  {| fullData := generateFullDemoData rand now0;
     timespan := timespan s;
     currentDate := setHours now1 23 59 59 999 |}.

(* ===================================================================== *)
(** ** [Date] objects in a store                                           *)
(* ===================================================================== *)

(** To speak about mutation, the [Date] objects are placed in a store: a
    location holds the time value of the object.  [new Date(x)] allocates a
    fresh object; [dataBoundaries] is re-read on this store. *)

Record EntryObj : Type := {
  objAmountCups : Q;
  objFatigue : Q;
  objTimestamp : positive
}.

Definition newDate (st : gmap positive Z) (t : Z)
  : positive * gmap positive Z :=
  let l := fresh (dom st) in (l, <[l := t]> st).

Definition readEntry (st : gmap positive Z) (o : EntryObj)
  : option WaterLogEntry :=
  match st !! objTimestamp o with
  | Some t =>
      Some {| amountCups := objAmountCups o; fatigue := objFatigue o;
              timestamp := t |}
  | None => None
  end.

(** One iteration of [for (const entry of fullData)]: the state is the
    variable [earliest] and the store. *)
Definition scanEntry (acc : option (positive * gmap positive Z))
  (entry : EntryObj) : option (positive * gmap positive Z) :=
  match acc with
  | Some (earliest, st) =>
      match st !! objTimestamp entry, st !! earliest with
      | Some te, Some t0 =>
          if te <? t0 then Some (newDate st te) else Some (earliest, st)
      | _, _ => None
      end
  | None => None
  end.

Definition dataBoundariesStore (now : Z) (fullData : list EntryObj)
  (st : gmap positive Z) : option (positive * gmap positive Z) :=
  if Z.of_nat (length fullData) =? 0 then Some (newDate st now)
  else fold_left scanEntry fullData (Some (newDate st now)).

(* ===================================================================== *)
(** ** Vocabulary of the specification                                     *)
(* ===================================================================== *)

(** These definitions follow the words of the specification; they are used
    to state the properties, never inside the embedding of the code. *)

(** Local calendar day (as a day number) and local time of day of an instant. *)
Definition localDay (d : Z) : Z := Day (LocalTime d).
Definition localTimeOfDay (d : Z) : Z := TimeWithinDay (LocalTime d).

(** An instant normalized to 00:00:00.000, and to 23:59:59.999, of its
    local calendar day. *)
Definition startOfDay (d : Z) : Z := localDay d * msPerDay - tza.
Definition endOfDay (d : Z) : Z := localDay d * msPerDay + (msPerDay - 1) - tza.

(** [d] plus [n] whole days. *)
Definition plusDays (d n : Z) : Z := d + n * msPerDay.

(** "The minimum timestamp, or none for an empty collection." *)
Definition earliestOf (observations : list WaterLogEntry) : option Z :=
  match observations with
  | [] => None
  | e :: rest => Some (fold_right Z.min (timestamp e) (timestamp <$> rest))
  end.

(** "The maximum timestamp among the entries", and the current time when
    there is no entry. *)
Definition latestInstant (now : Z) (entries : list WaterLogEntry) (t : Z)
  : Prop :=
  match entries with
  | [] => t = now
  | _ => (exists e, In e entries /\ timestamp e = t) /\
         (forall e, In e entries -> timestamp e <= t)
  end.

(** The bucket an observation belongs to: its local hour for the Day span,
    the number of whole days since the start of the bucket range otherwise. *)
Definition bucketOf (now : Z) (entries : list WaterLogEntry)
  (timespan : TimeSpan) (e : WaterLogEntry) : Z :=
  match timespan with
  | day => getHours (timestamp e)
  | _ => bucketIndex (dayWindowStart now entries (getWindowLength timespan)) e
  end.

(** A sum accumulated as the loops do: from 0, left to right. *)
Definition sumQ (l : list Q) : Q := fold_left Qplus l 0%Q.

(** The average shown for a bucket that received the values [l]. *)
Definition meanOrZero (l : list Q) : Q :=
  if Z.of_nat (length l) =? 0 then 0%Q
  else (sumQ l / inject_Z (Z.of_nat (length l)))%Q.

(** An entry moved by [k] whole days. *)
Definition shiftDays (k : Z) (e : WaterLogEntry) : WaterLogEntry :=
  {| amountCups := amountCups e; fatigue := fatigue e;
     timestamp := plusDays (timestamp e) k |}.

(** [n] presses on an always enabled back arrow. *)
Definition repeatBack (n : nat) (earliest : Z) (timespan : TimeSpan)
  (anchor : Z) : Z :=
  Nat.iter n (handleBack earliest timespan) anchor.

(** What holds of an entry generated for the day that starts at [dayDate]. *)
Definition demoEntryOn (dayDate : Z) (e : WaterLogEntry) : Prop :=
  dayDate <= timestamp e < dayDate + msPerDay /\
  (timestamp e - dayDate) mod msPerMinute = 0 /\
  (exists f : Z, fatigue e = inject_Z f /\ 1 <= f <= 5) /\
  (3 # 10 <= amountCups e)%Q /\ (amountCups e <= 3)%Q.

(** What holds of an entry generated from the clock reading [now]. *)
Definition demoEntryOK (now : Z) (e : WaterLogEntry) : Prop :=
  plusDays (startOfDay now) (- 59) <= timestamp e <= endOfDay now /\
  localTimeOfDay (timestamp e) mod msPerMinute = 0 /\
  (exists f : Z, fatigue e = inject_Z f /\ 1 <= f <= 5) /\
  (3 # 10 <= amountCups e)%Q /\ (amountCups e <= 3)%Q.

(** Whether an entry falls into bucket [i], in either mode. *)
Definition hourHit (entry : WaterLogEntry) (i : nat) : bool :=
  getHours (timestamp entry) =? Z.of_nat i.

Definition dayHit (start : Z) (entry : WaterLogEntry) (i : nat) : bool :=
  bucketIndex start entry =? Z.of_nat i.

End DateObject.

(* ===================================================================== *)
(** ** The log store (logStore.ts), on its in-memory storage               *)
(* ===================================================================== *)

(** The store keeps the entries in [mockStorage], a [Map] from ids to
    entries, when [usingMockFirebase] holds; this is the configuration
    embedded here (the other one calls the Firestore service).  The user is
    then [MOCK_USER_ID].  A [Map] is a list of bindings with distinct keys,
    in insertion order.  The operations are asynchronous functions that run
    to their end without waiting in this configuration: each is a function
    from the world before to the world after and the outcome, a returned
    value or a thrown error.  The clock readings and the generated id
    ([`mock-${Date.now()}-${...}`]) are arguments. *)
Module LogStore.

Record WaterLogEntry : Type := {
  id : option string;
  userId : string;
  amountCups : Q;
  fatigue : Q;
  timestamp : Z
}.

(** [Omit<WaterLogEntry, 'id' | 'userId' | 'timestamp'>] *)
Record EntryInput : Type := {
  inAmountCups : Q;
  inFatigue : Q
}.

(** [Partial<Omit<WaterLogEntry, 'id' | 'userId'>>]: the fields to replace. *)
Record EntryPatch : Type := {
  newAmountCups : option Q;
  newFatigue : option Q;
  newTimestamp : option Z
}.

Record LogState : Type := {
  entries : list WaterLogEntry;
  isLoading : bool;
  error : option string
}.

Record World : Type := {
  mockStorage : list (string * WaterLogEntry);
  store : LogState
}.

Inductive Outcome (A : Type) : Type :=
  | Returned (a : A)
  | Thrown (message : string).
Arguments Returned {A} a.
Arguments Thrown {A} message.

Definition MOCK_USER_ID : string := "dev-user-123456".

(** *** [Map] *)

Fixpoint mapGet {V : Type} (k : string) (m : list (string * V)) : option V :=
  match m with
  | [] => None
  | (k', v) :: m' => if String.eqb k' k then Some v else mapGet k m'
  end.

Definition mapHas {V : Type} (k : string) (m : list (string * V)) : bool :=
  match mapGet k m with Some _ => true | None => false end.

(** [m.set(k, v)]: a present key keeps its place, a new key goes last. *)
Fixpoint mapSet {V : Type} (k : string) (v : V) (m : list (string * V))
  : list (string * V) :=
  match m with
  | [] => [(k, v)]
  | (k', v') :: m' =>
      if String.eqb k' k then (k, v) :: m' else (k', v') :: mapSet k v m'
  end.

Fixpoint mapDelete {V : Type} (k : string) (m : list (string * V))
  : list (string * V) :=
  match m with
  | [] => []
  | (k', v') :: m' =>
      if String.eqb k' k then m' else (k', v') :: mapDelete k m'
  end.

Definition mapValues {V : Type} (m : list (string * V)) : list V := snd <$> m.

(** *** The store *)

Definition initialState : LogState :=
  {| entries := []; isLoading := false; error := None |}.

(** [set({ ... })] of zustand: the listed fields are replaced. *)
Definition setLoading (st : LogState) : LogState :=
  {| entries := entries st; isLoading := true; error := None |}.

Definition setFailed (message : string) (st : LogState) : LogState :=
  {| entries := entries st; isLoading := false; error := Some message |}.

Definition setEntries (l : list WaterLogEntry) (st : LogState) : LogState :=
  {| entries := l; isLoading := false; error := error st |}.

Definition setError (message : string) (st : LogState) : LogState :=
  {| entries := entries st; isLoading := isLoading st; error := Some message |}.

(** [!userId] *)
Definition noUser (user : string) : bool := String.eqb user "".

(** [{ ...e, ...entry }] *)
Definition applyPatch (entry : EntryPatch) (e : WaterLogEntry) : WaterLogEntry :=
  {| id := id e;
     userId := userId e;
     amountCups := match newAmountCups entry with Some a => a | None => amountCups e end;
     fatigue := match newFatigue entry with Some f => f | None => fatigue e end;
     timestamp := match newTimestamp entry with Some t => t | None => timestamp e end |}.

(** [e.id === id] *)
Definition hasId (k : string) (e : WaterLogEntry) : bool :=
  match id e with Some k' => String.eqb k' k | None => false end.

Definition addEntry (now : Z) (entryId : string) (entry : EntryInput)
  (w : World) : World * Outcome string :=
  let user := MOCK_USER_ID in
  if noUser user then
    ({| mockStorage := mockStorage w;
        store := setError "User not authenticated" (store w) |},
     Thrown "User not authenticated")
  else
    let st := setLoading (store w) in
    let newEntry :=
      {| id := Some entryId; userId := user;
         amountCups := inAmountCups entry; fatigue := inFatigue entry;
         timestamp := now |} in
    let storage := mapSet entryId newEntry (mockStorage w) in
    ({| mockStorage := storage;
        store := setEntries (newEntry :: entries st) st |},
     Returned entryId).

Definition notFound (k : string) : string :=
  "Entry with ID " +:+ k +:+ " not found".

Definition updateEntry (k : string) (entry : EntryPatch) (w : World)
  : World * Outcome unit :=
  let user := MOCK_USER_ID in
  if noUser user then
    ({| mockStorage := mockStorage w;
        store := setError "User not authenticated" (store w) |},
     Thrown "User not authenticated")
  else
    let st := setLoading (store w) in
    match mapGet k (mockStorage w) with
    | None =>
        ({| mockStorage := mockStorage w;
            store := setFailed "Failed to update entry" st |},
         Thrown (notFound k))
    | Some existingEntry =>
        let storage := mapSet k (applyPatch entry existingEntry) (mockStorage w) in
        let l := (fun e => if hasId k e then applyPatch entry e else e)
                   <$> entries st in
        ({| mockStorage := storage; store := setEntries l st |}, Returned tt)
    end.

Definition deleteEntry (k : string) (w : World) : World * Outcome unit :=
  let user := MOCK_USER_ID in
  if noUser user then
    ({| mockStorage := mockStorage w;
        store := setError "User not authenticated" (store w) |},
     Thrown "User not authenticated")
  else
    let st := setLoading (store w) in
    if negb (mapHas k (mockStorage w)) then
      ({| mockStorage := mockStorage w;
          store := setFailed "Failed to delete entry" st |},
       Thrown (notFound k))
    else
      let storage := mapDelete k (mockStorage w) in
      let l := List.filter (fun e => negb (hasId k e)) (entries st) in
      ({| mockStorage := storage; store := setEntries l st |}, Returned tt).

(** The timespans of [fetchEntries]. *)
Inductive FetchSpan : Type := day | week | twoweeks | month.

(** [startDate] of [fetchEntries]: [now] and [startDate0] are the two clock
    readings [const now = new Date(); let startDate = new Date()]. *)
Definition fetchStart (tza now startDate0 : Z) (timespan : FetchSpan) : Z :=
  match timespan with
  | day => setHours tza startDate0 0 0 0 0
  | week => setDate tza startDate0 (getDate tza now - 7)
  | twoweeks => setDate tza startDate0 (getDate tza now - 14)
  | month => setDate tza startDate0 (getDate tza now - 30)
  end.

(** [array.sort((a, b) => b.time - a.time)]: the sort is stable; the
    insertion keeps an element before the later ones of the same time. *)
Fixpoint insertDesc (x : WaterLogEntry) (l : list WaterLogEntry)
  : list WaterLogEntry :=
  match l with
  | [] => [x]
  | y :: l' =>
      if timestamp y >? timestamp x then y :: insertDesc x l' else x :: y :: l'
  end.

Definition sortDesc (l : list WaterLogEntry) : list WaterLogEntry :=
  fold_right insertDesc [] l.

Definition fetchEntries (tza now startDate0 : Z) (timespan : FetchSpan)
  (w : World) : World :=
  let user := MOCK_USER_ID in
  if noUser user then
    {| mockStorage := mockStorage w;
       store := setError "User not authenticated" (store w) |}
  else
    let st := setLoading (store w) in
    let startDate := fetchStart tza now startDate0 timespan in
    let mockEntries :=
      List.filter
        (fun entry => String.eqb (userId entry) user
                      && (timestamp entry >=? startDate))
        (mapValues (mockStorage w)) in
    {| mockStorage := mockStorage w;
       store := setEntries (sortDesc mockEntries) st |}.

(** The list shown agrees with the storage: the keys are distinct, an entry
    is stored under its own id, and every entry of the list is the one
    stored under its id. *)
Definition consistent (w : World) : Prop :=
  NoDup (fst <$> mockStorage w) /\
  (forall k v, mapGet k (mockStorage w) = Some v -> id v = Some k) /\
  (forall e, In e (entries (store w)) ->
     exists k, id e = Some k /\ mapGet k (mockStorage w) = Some e).

End LogStore.

(* ===================================================================== *)
(** ** Seeding the store (seed.ts, and [generateSeedData] of logStore.ts)  *)
(* ===================================================================== *)

(** As for the demo data, [Math.random()] is the stream [rand].  Each call
    of [addEntry] reads the clock and generates an id: the [n]-th call gets
    [clock n] and [ids n]; the id takes one draw of [Math.random()]. *)
Module Seed.
Import LogStore.

(** [Math.floor(Math.random() * (max - min + 1) + min)] on the draw [r]. *)
Definition randomInt (r : Q) (min max : Z) : Z :=
  Qfloor (r * inject_Z (max - min + 1) + inject_Z min).

(** Where [seedData] stands: the world, the number of [Math.random()] calls
    and the number of [addEntry] calls made so far. *)
Record Progress : Type := {
  world : World;
  draws : nat;
  calls : nat
}.

(** [d.setHours(hours, minutes, seconds)]: the milliseconds stay. *)
Definition setHours3 (tza d hours minutes seconds : Z) : Z :=
  setHours tza d hours minutes seconds (LocalTime tza d mod 1000).

(** The inner loop of [seedData].  The [timestamp] it computes is not
    passed to [addEntry], which takes the amount and the fatigue only. *)
Fixpoint seedEntries (tza : Z) (rand : nat -> Q) (clock : nat -> Z)
  (ids : nat -> string) (date : Z) (numEntries : nat) (p : Progress)
  : Progress :=
  match numEntries with
  | O => p
  | S numEntries' =>
      let i := draws p in
      let hours := randomInt (rand i) 7 22 in
      let minutes := randomInt (rand (i + 1)%nat) 0 59 in
      let seconds := randomInt (rand (i + 2)%nat) 0 59 in
      let timestamp := setHours3 tza date hours minutes seconds in
      let entry :=
        {| inAmountCups := inject_Z (randomInt (rand (i + 3)%nat) 1 3);
           inFatigue := inject_Z (randomInt (rand (i + 4)%nat) 1 5) |} in
      let w := fst (addEntry (clock (calls p)) (ids (calls p)) entry (world p)) in
      seedEntries tza rand clock ids date numEntries'
        {| world := w; draws := (i + 6)%nat; calls := S (calls p) |}
  end.

(** The outer loop of [seedData] over the day offsets [i]. *)
Fixpoint seedDays (tza : Z) (rand : nat -> Q) (clock : nat -> Z)
  (ids : nat -> string) (today : Z) (offsets : list Z) (p : Progress)
  : Progress :=
  match offsets with
  | [] => p
  | i :: rest =>
      let date := setDate tza today (getDate tza today - i) in
      let d := draws p in
      if Qltb (rand d) (15 # 100) then
        seedDays tza rand clock ids today rest
          {| world := world p; draws := S d; calls := calls p |}
      else
        let r := rand (S d) in
        let p' :=
          if Qltb r (15 # 100) then
            seedEntries tza rand clock ids date 1
              {| world := world p; draws := (d + 2)%nat; calls := calls p |}
          else
            seedEntries tza rand clock ids date
              (Z.to_nat (randomInt (rand (d + 2)%nat) 3 7))
              {| world := world p; draws := (d + 3)%nat; calls := calls p |} in
        seedDays tza rand clock ids today rest p'
  end.

Definition seedData (tza : Z) (rand : nat -> Q) (clock : nat -> Z)
  (ids : nat -> string) (today : Z) (w : World) : World :=
  world (seedDays tza rand clock ids today (seqZ 0 30)
           {| world := w; draws := O; calls := O |}).

(** [checkAndSeedData]: seeds when the list of the store is empty. *)
Definition checkAndSeedData (tza : Z) (rand : nat -> Q) (clock : nat -> Z)
  (ids : nat -> string) (today : Z) (w : World) : World * bool :=
  if Z.of_nat (length (entries (store w))) =? 0
  then (seedData tza rand clock ids today w, true)
  else (w, false).

(** *** [generateSeedData] of the store *)

(** The inner loop: [date] is changed in place by [setHours] and read by
    [Timestamp.fromDate(date)]. *)
Fixpoint genDayEntries (tza : Z) (rand : nat -> Q) (date : Z)
  (entriesPerDay : nat) (i : nat) : list WaterLogEntry * nat :=
  match entriesPerDay with
  | O => ([], i)
  | S n =>
      let hours := Qfloor (rand i * 15) + 7 in
      let minutes := Qfloor (rand (i + 1)%nat * 60) in
      let date := setHours tza date hours minutes 0 0 in
      let e := {| id := None; userId := MOCK_USER_ID;
                  amountCups := toFixed1 (rand (i + 2)%nat * 2 + (1 # 2));
                  fatigue := inject_Z (Qfloor (rand (i + 3)%nat * 5) + 1);
                  timestamp := date |} in
      let (rest, j) := genDayEntries tza rand date n (i + 4)%nat in
      (e :: rest, j)
  end.

Fixpoint genDays (tza : Z) (rand : nat -> Q) (now : Z) (offsets : list Z)
  (i : nat) : list WaterLogEntry :=
  match offsets with
  | [] => []
  | off :: rest =>
      let date := setDate tza now (getDate tza now - off) in
      let entriesPerDay := Qfloor (rand i * 5) in
      let (es, j) :=
        genDayEntries tza rand date (Z.to_nat entriesPerDay) (S i) in
      es ++ genDays tza rand now rest j
  end.

(** [for (const entry of entries) mockStorage.set(entryId, { ...entry, id: entryId })] *)
Fixpoint storeAll (ids : nat -> string) (l : list WaterLogEntry)
  (storage : list (string * WaterLogEntry)) (n : nat)
  : list (string * WaterLogEntry) :=
  match l with
  | [] => storage
  | entry :: rest =>
      let entryId := ids n in
      let stored :=
        {| id := Some entryId; userId := userId entry;
           amountCups := amountCups entry; fatigue := fatigue entry;
           timestamp := timestamp entry |} in
      storeAll ids rest (mapSet entryId stored storage) (S n)
  end.

(** [now] is the clock reading of the generation; [fetchNow] and
    [fetchStart0] are the two readings of the final [fetchEntries('month')]. *)
Definition generateSeedData (tza : Z) (rand : nat -> Q) (ids : nat -> string)
  (now fetchNow fetchStart0 : Z) (w : World) : World :=
  let user := MOCK_USER_ID in
  if noUser user then
    {| mockStorage := mockStorage w;
       store := setError "User not authenticated" (store w) |}
  else
    let st := setLoading (store w) in
    let generated := genDays tza rand now (seqZ 0 30) O in
    let storage := storeAll ids generated [] O in
    let w1 := fetchEntries tza fetchNow fetchStart0 month
                {| mockStorage := storage; store := st |} in
    {| mockStorage := mockStorage w1;
       store := {| entries := entries (store w1); isLoading := false;
                   error := error (store w1) |} |}.

(** The entry of the [n]-th [addEntry] call of [seedData]: stamped by the
    clock of that call, under its id, with a whole amount and level. *)
Definition seeded (clock : nat -> Z) (ids : nat -> string) (n : nat)
  (e : WaterLogEntry) : Prop :=
  timestamp e = clock n /\ id e = Some (ids n) /\
  userId e = MOCK_USER_ID /\
  (exists a : Z, amountCups e = inject_Z a /\ 1 <= a <= 3) /\
  (exists f : Z, fatigue e = inject_Z f /\ 1 <= f <= 5).

(** An entry as [generateSeedData] makes them from the clock reading [now]. *)
Definition generated (tza now : Z) (e : WaterLogEntry) : Prop :=
  (exists k : Z, 0 <= k <= 29 /\
     plusDays (startOfDay tza now) (- k) + 7 * Calendar.msPerHour
     <= timestamp e
     < plusDays (startOfDay tza now) (- k) + 22 * Calendar.msPerHour) /\
  localTimeOfDay tza (timestamp e) mod Calendar.msPerMinute = 0 /\
  userId e = MOCK_USER_ID /\
  (exists f : Z, fatigue e = inject_Z f /\ 1 <= f <= 5) /\
  (1 # 2 <= amountCups e)%Q /\ (amountCups e <= 5 # 2)%Q.

End Seed.

(** Sample instants and entries, for the examples below: [at_ n h] is hour
    [h] (UTC) of day number [n]; day 19732 is 2024-01-10 and day 19800 is
    2024-03-18. *)
Module Sample.

Definition at_ (dayNumber hour : Z) : Z :=
  dayNumber * Calendar.msPerDay + hour * Calendar.msPerHour.

Definition lastMs (dayNumber : Z) : Z := at_ dayNumber 24 - 1.

Definition entry (t : Z) : WaterLogEntry :=
  {| amountCups := 1; fatigue := 3; timestamp := t |}.

Definition threeEntries : list WaterLogEntry :=
  [ {| amountCups := 1; fatigue := 2; timestamp := at_ 19738 10 |};
    {| amountCups := 2; fatigue := 4; timestamp := at_ 19735 10 |};
    {| amountCups := 3 # 2; fatigue := 5; timestamp := at_ 19738 17 |} ].

Definition sampleScreen : HomeScreen :=
  {| fullData := threeEntries ++ [entry (at_ 19700 8)];
     timespan := week; currentDate := lastMs 19738 |}.

Definition stored (k : string) (t : Z) : LogStore.WaterLogEntry :=
  {| LogStore.id := Some k; LogStore.userId := LogStore.MOCK_USER_ID;
     LogStore.amountCups := 1; LogStore.fatigue := 3;
     LogStore.timestamp := t |}.

Definition sampleWorld : LogStore.World :=
  {| LogStore.mockStorage := [("a", stored "a" (at_ 19735 10));
                              ("b", stored "b" (at_ 19738 9))];
     LogStore.store :=
       {| LogStore.entries := [stored "b" (at_ 19738 9)];
          LogStore.isLoading := false; LogStore.error := None |} |}.

Definition samplePatch : LogStore.EntryPatch :=
  {| LogStore.newAmountCups := Some (5 # 2)%Q; LogStore.newFatigue := None;
     LogStore.newTimestamp := None |}.

(** A stream of draws in [0, 1), a clock that advances by one millisecond
    at each reading, and a stream of ids. *)
Definition sampleRand (i : nat) : Q :=
  Qmake ((Z.of_nat i * 37 + 13) mod 100) 100.

Definition sampleClock (n : nat) : Z := at_ 19738 12 + Z.of_nat n.

Definition sampleIds (n : nat) : string := "mock-" +:+ pretty n.

End Sample.

(** A decimal numeral without a leading zero. *)
Definition noLeadingZero (s : string) : bool :=
  match s with
  | EmptyString => false
  | String c _ => negb (Ascii.eqb c "0"%char)
  end.

(* ===================================================================== *)
(** ** Facts about the calendar                                            *)
(* ===================================================================== *)

Module CalendarFacts.
Import Calendar.

Ltac split_eqb :=
  repeat match goal with
         | |- context [?a =? ?b] => destruct (Z.eqb_spec a b)
         | |- context [?a <? ?b] => destruct (Z.ltb_spec a b)
         | |- context [?a <=? ?b] => destruct (Z.leb_spec a b)
         end.

(** The cycle computation finds the year of ECMA-262: the day lies between
    the first day of the year found and the first day of the next one. *)
Lemma YearFromDay_spec (d : Z) :
  DayFromYear (YearFromDay d) <= d
  < DayFromYear (YearFromDay d) + DaysInYear (YearFromDay d).
Proof.
  unfold YearFromDay, DaysInYear, InLeapYearOf.
  replace (DayFromYear 1601) with (-134774) by reflexivity.
  unfold DayFromYear.
  split_eqb; cbn [andb orb negb]; Z.div_mod_to_equations; lia.
Qed.

Lemma DayFromYear_next (y : Z) :
  DayFromYear (y + 1) = DayFromYear y + DaysInYear y.
Proof.
  unfold DaysInYear, InLeapYearOf, DayFromYear.
  split_eqb; cbn [andb orb negb]; Z.div_mod_to_equations; lia.
Qed.

Lemma DayWithinYear_range (t : Z) :
  0 <= DayWithinYear t < (if InLeapYear t then 366 else 365).
Proof.
  unfold DayWithinYear, InLeapYear, YearFromTime.
  pose proof (YearFromDay_spec (Day t)) as H.
  unfold DaysInYear in H. lia.
Qed.

Lemma monthOfDayInYear_range (leap : bool) (d : Z) :
  0 <= monthOfDayInYear leap d <= 11.
Proof. unfold monthOfDayInYear. split_eqb; lia. Qed.

Lemma MonthFromTime_range (t : Z) : 0 <= MonthFromTime t <= 11.
Proof. apply monthOfDayInYear_range. Qed.

Lemma DateFromTime_range (t : Z) : 1 <= DateFromTime t <= 31.
Proof.
  unfold DateFromTime, MonthFromTime.
  pose proof (DayWithinYear_range t) as H.
  destruct (InLeapYear t); unfold monthOfDayInYear, daysBeforeMonth;
    split_eqb; lia.
Qed.

(** The year, month and day of a time value depend on its day number only. *)
Lemma MonthFromTime_Day (t1 t2 : Z) :
  Day t1 = Day t2 -> MonthFromTime t1 = MonthFromTime t2.
Proof.
  unfold MonthFromTime, InLeapYear, DayWithinYear, YearFromTime.
  intros ->. reflexivity.
Qed.

Lemma DateFromTime_Day (t1 t2 : Z) :
  Day t1 = Day t2 -> DateFromTime t1 = DateFromTime t2.
Proof.
  unfold DateFromTime, MonthFromTime, InLeapYear, DayWithinYear, YearFromTime.
  intros ->. reflexivity.
Qed.

(** Setting the day of the month to the current one plus [k] moves the day
    number by [k], across month and year ends. *)
Lemma MakeDay_DateFromTime (t k : Z) :
  MakeDay (YearFromTime t) (MonthFromTime t) (DateFromTime t + k) = Day t + k.
Proof.
  pose proof (MonthFromTime_range t) as Hm.
  unfold MakeDay.
  rewrite (Z.div_small (MonthFromTime t) 12), (Z.mod_small (MonthFromTime t) 12)
    by lia.
  rewrite Z.add_0_r.
  unfold DateFromTime, DayWithinYear, InLeapYear. lia.
Qed.

Lemma Day_MakeDate (d time : Z) :
  0 <= time < msPerDay -> Day (MakeDate d time) = d.
Proof.
  unfold Day, MakeDate, msPerDay. intros H.
  Z.div_mod_to_equations. lia.
Qed.

Lemma TimeWithinDay_MakeDate (d time : Z) :
  0 <= time < msPerDay -> TimeWithinDay (MakeDate d time) = time.
Proof.
  unfold TimeWithinDay, MakeDate, msPerDay. intros H.
  Z.div_mod_to_equations. lia.
Qed.

Lemma MakeDate_Day_TimeWithinDay (t : Z) :
  MakeDate (Day t) (TimeWithinDay t) = t.
Proof.
  unfold MakeDate, Day, TimeWithinDay, msPerDay.
  Z.div_mod_to_equations. lia.
Qed.

Lemma HourFromTime_range (t : Z) : 0 <= HourFromTime t < 24.
Proof. unfold HourFromTime. apply Z.mod_pos_bound. lia. Qed.

End CalendarFacts.

(* ===================================================================== *)
(** ** Facts about the [Date] methods                                      *)
(* ===================================================================== *)

Import Calendar CalendarFacts.

(** Unfolds the vocabulary down to integer division by [msPerDay]. *)
Ltac date_arith :=
  unfold startOfDay, endOfDay, plusDays, localDay, localTimeOfDay, LocalTime,
    UTC, Day, TimeWithinDay, MakeDate, MakeTime, msPerDay, msPerHour,
    msPerMinute, msPerSecond in *;
  Z.div_mod_to_equations; lia.

Section DateFacts.

Variable tza : Z.

Lemma setHours_endOfDay (d : Z) :
  setHours tza d 23 59 59 999 = endOfDay tza d.
Proof. unfold setHours. date_arith. Qed.

Lemma setHours_startOfDay (d : Z) :
  setHours tza d 0 0 0 0 = startOfDay tza d.
Proof. unfold setHours. date_arith. Qed.

Lemma setDate_getDate_of (d d' k : Z) :
  localDay tza d' = localDay tza d ->
  setDate tza d (getDate tza d' + k) = plusDays d k.
Proof.
  intros Hday. unfold setDate, getDate.
  rewrite (DateFromTime_Day (LocalTime tza d') (LocalTime tza d)) by exact Hday.
  rewrite MakeDay_DateFromTime.
  pose proof (MakeDate_Day_TimeWithinDay (LocalTime tza d)) as H.
  unfold UTC, MakeDate, plusDays, LocalTime, msPerDay in *. lia.
Qed.

Lemma setDate_getDate_plus (d k : Z) :
  setDate tza d (getDate tza d + k) = plusDays d k.
Proof. apply setDate_getDate_of. reflexivity. Qed.

Lemma setDate_getDate_minus (d k : Z) :
  setDate tza d (getDate tza d - k) = plusDays d (- k).
Proof. exact (setDate_getDate_plus d (- k)). Qed.

Lemma getHours_range (d : Z) : 0 <= getHours tza d < 24.
Proof. apply HourFromTime_range. Qed.

Lemma getMonth_range (d : Z) : 1 <= getMonth tza d + 1 <= 12.
Proof. unfold getMonth. pose proof (MonthFromTime_range (LocalTime tza d)). lia. Qed.

Lemma getDate_range (d : Z) : 1 <= getDate tza d <= 31.
Proof. apply DateFromTime_range. Qed.

Lemma localDay_startOfDay (d : Z) : localDay tza (startOfDay tza d) = localDay tza d.
Proof. date_arith. Qed.

Lemma localDay_endOfDay (d : Z) : localDay tza (endOfDay tza d) = localDay tza d.
Proof. date_arith. Qed.

Lemma localDay_plusDays (d k : Z) : localDay tza (plusDays d k) = localDay tza d + k.
Proof. date_arith. Qed.

(** *** The functions of the screen, in the vocabulary of the specification *)

Lemma computeWindow_eq (currentDate : Z) (timespan : TimeSpan) :
  computeWindow tza currentDate timespan =
  {| windowStart :=
       startOfDay tza
         (plusDays (endOfDay tza currentDate) (- (getWindowLength timespan - 1)));
     windowEnd := endOfDay tza currentDate |}.
Proof.
  unfold computeWindow.
  rewrite setHours_endOfDay, setDate_getDate_minus, setHours_startOfDay.
  reflexivity.
Qed.

Lemma handleBack_eq (earliest prev : Z) (timespan : TimeSpan) :
  handleBack tza earliest timespan prev =
  let len := getWindowLength timespan in
  let newDate := plusDays prev (- len) in
  if startOfDay tza (plusDays newDate (- (len - 1))) <? earliest
  then endOfDay tza (plusDays earliest (len - 1))
  else newDate.
Proof.
  unfold handleBack.
  rewrite !setDate_getDate_minus, setDate_getDate_plus, setHours_startOfDay,
    setHours_endOfDay.
  reflexivity.
Qed.

Lemma handleForward_eq (now prev : Z) (timespan : TimeSpan) :
  handleForward tza now timespan prev =
  let newDate := plusDays prev (getWindowLength timespan) in
  if newDate >? endOfDay tza now then endOfDay tza now else newDate.
Proof.
  unfold handleForward.
  rewrite setDate_getDate_plus, setHours_endOfDay. reflexivity.
Qed.

Lemma canGoBack_eq (start earliest : Z) (timespan : TimeSpan) (n : nat) :
  canGoBack tza start timespan earliest n =
  if Z.of_nat n =? 0 then false
  else plusDays start (- getWindowLength timespan) >=? earliest.
Proof. unfold canGoBack. rewrite setDate_getDate_minus. reflexivity. Qed.

Lemma getWindowLength_pos (timespan : TimeSpan) : 1 <= getWindowLength timespan.
Proof. destruct timespan; simpl; lia. Qed.

(** The start of the window one step back is the start of the current
    window, one window length earlier. *)
Lemma windowStart_step_back (anchor : Z) (timespan : TimeSpan) :
  windowStart
    (computeWindow tza (plusDays anchor (- getWindowLength timespan)) timespan)
  = plusDays (windowStart (computeWindow tza anchor timespan))
      (- getWindowLength timespan).
Proof.
  rewrite !computeWindow_eq. cbn [windowStart].
  generalize (getWindowLength timespan). intros len. date_arith.
Qed.

(* --------------------------------------------------------------------- *)
(** *** The window                                                          *)
(* --------------------------------------------------------------------- *)

(** C8. For every anchor and span the window ends on the anchor's calendar
    day at local 23:59:59.999, starts [windowLength - 1] days before at local
    00:00:00.000, so that start <= end and the window covers exactly
    [windowLength] calendar days. *)
Theorem computeWindow_spec (anchor : Z) (span : TimeSpan) :
  let w := computeWindow tza anchor span in
  let len := getWindowLength span in
  localDay tza (windowEnd w) = localDay tza anchor /\
  localTimeOfDay tza (windowEnd w) = MakeTime 23 59 59 999 /\
  localDay tza (windowStart w) = localDay tza (windowEnd w) - (len - 1) /\
  localTimeOfDay tza (windowStart w) = 0 /\
  windowStart w <= windowEnd w /\
  localDay tza (windowEnd w) - localDay tza (windowStart w) + 1 = len /\
  windowEnd w - windowStart w + 1 = len * msPerDay.
Proof.
  intros w len. subst w. rewrite computeWindow_eq. cbn [windowStart windowEnd].
  pose proof (getWindowLength_pos span) as Hlen. fold len in Hlen |- *.
  clearbody len. repeat split; date_arith.
Qed.

End DateFacts.

(* ===================================================================== *)
(** ** Navigation                                                          *)
(* ===================================================================== *)

Section Navigation.

Variable tza : Z.

(** C3 (amended). When the window of the candidate anchor (the anchor moved
    back by one window length) would start before the earliest bound,
    [handleBack] returns the earliest bound plus [windowLength - 1] days at
    end of day, and the window of that anchor starts at 00:00:00.000 of the
    calendar day of the earliest bound (at the earliest bound itself exactly
    when that is a local midnight); otherwise it returns the candidate
    anchor. *)
Theorem handleBack_clamp (earliest anchor : Z) (span : TimeSpan) :
  let len := getWindowLength span in
  let candidate := plusDays anchor (- len) in
  let candidateStart := windowStart (computeWindow tza candidate span) in
  let anchor' := handleBack tza earliest span anchor in
  let start' := windowStart (computeWindow tza anchor' span) in
  (candidateStart < earliest ->
     anchor' = endOfDay tza (plusDays earliest (len - 1)) /\
     start' = startOfDay tza earliest /\
     (start' = earliest <-> localTimeOfDay tza earliest = 0)) /\
  (earliest <= candidateStart -> anchor' = candidate).
Proof.
  intros len candidate candidateStart anchor' start'.
  subst anchor' start' candidateStart candidate.
  rewrite handleBack_eq. cbv zeta. fold len.
  rewrite !computeWindow_eq. cbn [windowStart].
  fold len. pose proof (getWindowLength_pos span) as Hlen. fold len in Hlen.
  clearbody len.
  destruct (Z.ltb_spec
    (startOfDay tza (plusDays (plusDays anchor (- len)) (- (len - 1)))) earliest)
    as [Hlt|Hge].
  - split; [intros _ | intros H; exfalso; revert Hlt H; date_arith].
    split; [reflexivity|]. split; [date_arith|]. split; intros H; date_arith.
  - split; [intros H; exfalso; revert Hge H; date_arith | reflexivity].
Qed.

(** Once clamped, a further [handleBack] leaves the anchor where it is. *)
Lemma handleBack_at_bound_again (earliest : Z) (span : TimeSpan) :
  let clamped := endOfDay tza (plusDays earliest (getWindowLength span - 1)) in
  handleBack tza earliest span clamped = clamped.
Proof.
  intros clamped. subst clamped. rewrite handleBack_eq. cbv zeta.
  pose proof (getWindowLength_pos span) as Hlen.
  generalize dependent (getWindowLength span). intros len Hlen.
  destruct (Z.ltb_spec
    (startOfDay tza
       (plusDays (plusDays (endOfDay tza (plusDays earliest (len - 1))) (- len))
          (- (len - 1)))) earliest) as [Hlt|Hge]; [reflexivity|].
  exfalso. revert Hge. date_arith.
Qed.

(** At the bound [canGoBack] is false. *)
Lemma canGoBack_false_at_bound (earliest : Z) (span : TimeSpan) (n : nat) :
  let clamped := endOfDay tza (plusDays earliest (getWindowLength span - 1)) in
  canGoBack tza (windowStart (computeWindow tza clamped span)) span earliest n
  = false.
Proof.
  intros clamped. subst clamped. rewrite canGoBack_eq, computeWindow_eq.
  cbn [windowStart]. destruct (Z.of_nat n =? 0); [reflexivity|].
  pose proof (getWindowLength_pos span) as Hlen.
  generalize dependent (getWindowLength span). intros len Hlen.
  match goal with
  | |- (?a >=? ?b) = false => destruct (Z.geb_spec a b) as [Hge|Hlt]
  end; [|reflexivity].
  exfalso. revert Hge. date_arith.
Qed.

(** While the back arrow is enabled, [handleBack] does not clamp: it moves
    the anchor back by exactly one window length. *)
Lemma handleBack_when_enabled (earliest anchor : Z) (span : TimeSpan)
  (n : nat) :
  canGoBack tza (windowStart (computeWindow tza anchor span)) span earliest n
  = true ->
  handleBack tza earliest span anchor
  = plusDays anchor (- getWindowLength span).
Proof.
  rewrite canGoBack_eq, handleBack_eq, computeWindow_eq. cbn [windowStart].
  cbv zeta. destruct (Z.of_nat n =? 0); [discriminate|].
  pose proof (getWindowLength_pos span) as Hlen.
  generalize dependent (getWindowLength span). intros len Hlen Hcan.
  apply Z.geb_le in Hcan.
  destruct (Z.ltb_spec
    (startOfDay tza (plusDays (plusDays anchor (- len)) (- (len - 1))))
    earliest) as [Hlt|Hge]; [|reflexivity].
  exfalso. revert Hcan Hlt. date_arith.
Qed.

(** C5 (amended). [handleForward] followed by [handleBack] restores the
    anchor when neither step is clamped; when the step back is clamped the
    result is its clamped value, the earliest bound plus [windowLength - 1]
    days at end of day; when only the step forward is clamped the result is
    the end of today moved back by one window length. *)
Theorem advance_then_retreat (now earliest anchor : Z) (span : TimeSpan) :
  let len := getWindowLength span in
  let advanced := handleForward tza now span anchor in
  let final := handleBack tza earliest span advanced in
  let advanceClamped := plusDays anchor len > endOfDay tza now in
  let retreatClamped :=
    windowStart (computeWindow tza (plusDays advanced (- len)) span)
    < earliest in
  (~ advanceClamped -> ~ retreatClamped -> final = anchor) /\
  (retreatClamped -> final = endOfDay tza (plusDays earliest (len - 1))) /\
  (advanceClamped -> ~ retreatClamped ->
     final = plusDays (endOfDay tza now) (- len)).
Proof.
  intros len advanced final advanceClamped retreatClamped.
  subst final retreatClamped advanceClamped.
  rewrite handleBack_eq. cbv zeta. fold len.
  rewrite computeWindow_eq. cbn [windowStart]. fold len.
  assert (Hadv : advanced =
                 if plusDays anchor len >? endOfDay tza now
                 then endOfDay tza now else plusDays anchor len)
    by (subst advanced; rewrite handleForward_eq; reflexivity).
  pose proof (getWindowLength_pos span) as Hlen. fold len in Hlen.
  clearbody advanced len.
  destruct (Z.gtb_spec (plusDays anchor len) (endOfDay tza now)) as [Hc|Hc];
    subst advanced.
  - destruct (Z.ltb_spec
      (startOfDay tza (plusDays (plusDays (endOfDay tza now) (- len)) (- (len - 1))))
      earliest) as [Hlt|Hge].
    + repeat split; try reflexivity; intros; exfalso; revert Hlt; date_arith.
    + repeat split; try reflexivity; intros; exfalso; revert Hge; date_arith.
  - destruct (Z.ltb_spec
      (startOfDay tza (plusDays (plusDays (plusDays anchor len) (- len)) (- (len - 1))))
      earliest) as [Hlt|Hge].
    + repeat split; try reflexivity; intros; exfalso; revert Hlt; date_arith.
    + repeat split; intros; try (unfold plusDays; lia);
        exfalso; revert Hge; date_arith.
Qed.

(** C6 (amended). With an empty snapshot [canGoBack] is false, so the back
    arrow is disabled and pressing it leaves the anchor, and the whole
    screen state, unchanged, for every anchor and span. *)
Theorem pressBack_empty (now anchor : Z) (span : TimeSpan) :
  let s := {| fullData := []; timespan := span; currentDate := anchor |} in
  screenCanGoBack tza now s = false /\ pressBack tza now s = s.
Proof.
  intros s. assert (H : screenCanGoBack tza now s = false) by reflexivity.
  split; [exact H|]. unfold pressBack. rewrite H. reflexivity.
Qed.

(** At the end of today the forward arrow is disabled. *)
Lemma pressForward_at_now (now : Z) (s : HomeScreen) :
  currentDate s = endOfDay tza now -> pressForward tza now s = s.
Proof.
  intros Hnow. unfold pressForward, canGoForward. cbv zeta.
  rewrite setHours_endOfDay, Hnow, Z.ltb_irrefl. reflexivity.
Qed.

(** A window without entries is charted with the seven placeholder bars,
    whatever the span: the aggregation is not called. *)
Lemma chartData_empty (now : Z) (span : TimeSpan) :
  chartData tza now [] span = demoChart.
Proof. reflexivity. Qed.

End Navigation.

(* ===================================================================== *)
(** ** Aggregation                                                         *)
(* ===================================================================== *)

(** A loop that updates the bucket an element hits, read bucket by bucket. *)
Section FoldBuckets.

Context {A B : Type}.
Variable step : list B -> A -> list B.
Variable hit : A -> nat -> bool.
Variable f : A -> B -> B.

Hypothesis step_lookup : forall bs e i,
  step bs e !! i = if hit e i then f e <$> bs !! i else bs !! i.
Hypothesis step_length : forall bs e, length (step bs e) = length bs.

Lemma fold_step_lookup (es : list A) : forall (bs : list B) (i : nat),
  fold_left step es bs !! i =
  (fun b => fold_left (fun b e => f e b) (List.filter (fun e => hit e i) es) b)
    <$> bs !! i.
Proof.
  induction es as [|e es IH]; intros bs i; simpl.
  - destruct (bs !! i); reflexivity.
  - rewrite IH, step_lookup.
    destruct (hit e i); simpl; destruct (bs !! i); reflexivity.
Qed.

Lemma fold_step_length (es : list A) : forall bs : list B,
  length (fold_left step es bs) = length bs.
Proof.
  induction es as [|e es IH]; intros bs; simpl; [reflexivity|].
  rewrite IH. apply step_length.
Qed.

Lemma fold_step_untouched (es : list A) (bs : list B) (i : nat) :
  (forall e, In e es -> hit e i = false) ->
  fold_left step es bs !! i = bs !! i.
Proof.
  intros Hmiss. rewrite fold_step_lookup.
  replace (List.filter (fun e => hit e i) es) with (@nil A).
  - destruct (bs !! i); reflexivity.
  - symmetry. induction es as [|e es IH]; simpl; [reflexivity|].
    rewrite (Hmiss e) by (left; reflexivity).
    apply IH. intros e' He'. apply Hmiss. right. exact He'.
Qed.

End FoldBuckets.

Section Aggregation.

Variable tza : Z.

Lemma hourStep_lookup (bs : list Tally) (e : WaterLogEntry) (i : nat) :
  hourStep tza bs e !! i =
  if hourHit tza e i then addEntry e <$> bs !! i else bs !! i.
Proof.
  unfold hourStep, hourHit. cbv zeta.
  pose proof (getHours_range tza (timestamp e)) as Hh.
  destruct (Z.eqb_spec (getHours tza (timestamp e)) (Z.of_nat i)) as [Heq|Hne].
  - rewrite Heq, Nat2Z.id. apply list_lookup_alter_eq.
  - apply list_lookup_alter_ne. lia.
Qed.

Lemma hourBuckets_length (entries : list WaterLogEntry) :
  length (hourBuckets tza entries) = 24%nat.
Proof.
  unfold hourBuckets.
  rewrite (fold_step_length (hourStep tza)) by (intros; apply length_alter).
  reflexivity.
Qed.

(** Bucket [i] holds the totals of the entries of hour [i], added in order. *)
Lemma hourBuckets_lookup (entries : list WaterLogEntry) (i : nat) :
  (i < 24)%nat ->
  hourBuckets tza entries !! i =
  Some (fold_left (fun b e => addEntry e b)
          (List.filter (fun e => hourHit tza e i) entries) emptyTally).
Proof.
  intros Hi. unfold hourBuckets.
  rewrite (fold_step_lookup (hourStep tza) (hourHit tza) addEntry
             hourStep_lookup).
  rewrite lookup_replicate_2 by exact Hi. reflexivity.
Qed.

Lemma dayStep_lookup (start : Z) (bs : list DayBucket) (e : WaterLogEntry)
  (i : nat) :
  dayStep start bs e !! i =
  if dayHit start e i then addEntryDay e <$> bs !! i else bs !! i.
Proof.
  unfold dayStep, dayHit. cbv zeta.
  destruct (Z.eqb_spec (bucketIndex start e) (Z.of_nat i)) as [Heq|Hne].
  - rewrite Heq, Nat2Z.id.
    replace (Z.of_nat i >=? 0) with true by (symmetry; apply Z.geb_le; lia).
    cbn [andb].
    destruct (Z.ltb_spec (Z.of_nat i) (Z.of_nat (length bs))) as [Hlt|Hge].
    + apply list_lookup_alter_eq.
    + rewrite (lookup_ge_None_2 bs i) by lia. reflexivity.
  - destruct ((bucketIndex start e >=? 0)
              && (bucketIndex start e <? Z.of_nat (length bs))) eqn:Hin;
      [|reflexivity].
    apply andb_true_iff in Hin as [Hge _]. apply Z.geb_le in Hge.
    apply list_lookup_alter_ne. lia.
Qed.

Lemma dayStep_length (start : Z) (bs : list DayBucket) (e : WaterLogEntry) :
  length (dayStep start bs e) = length bs.
Proof.
  unfold dayStep. cbv zeta. case_match; [apply length_alter | reflexivity].
Qed.

Lemma effectiveDays_pos (days : Z) : 1 <= effectiveDays days.
Proof. unfold effectiveDays. destruct (Z.leb_spec days 0); lia. Qed.

Lemma dayBuckets_length (now : Z) (entries : list WaterLogEntry) (days : Z) :
  length (dayBuckets tza now entries days) = Z.to_nat (effectiveDays days).
Proof.
  unfold dayBuckets. cbv zeta.
  rewrite (fold_step_length (dayStep _)) by apply dayStep_length.
  unfold emptyDayBuckets. rewrite length_fmap, length_seqZ. reflexivity.
Qed.

Lemma fold_addEntryDay_date (es : list WaterLogEntry) : forall b : DayBucket,
  date (fold_left (fun b e => addEntryDay e b) es b) = date b.
Proof. induction es as [|e es IH]; intros b; simpl; [|rewrite IH]; reflexivity. Qed.

(** Bucket [i] holds the totals of the entries whose index is [i], added in
    order, and the day [i] days after the start of the range. *)
Lemma dayBuckets_lookup (now : Z) (entries : list WaterLogEntry) (days : Z)
  (i : nat) :
  Z.of_nat i < effectiveDays days ->
  let start := dayWindowStart tza now entries days in
  dayBuckets tza now entries days !! i =
  Some (fold_left (fun b e => addEntryDay e b)
          (List.filter (fun e => dayHit start e i) entries)
          {| tally := emptyTally; date := plusDays start (Z.of_nat i) |}).
Proof.
  intros Hi start. unfold dayBuckets. cbv zeta. fold start.
  rewrite (fold_step_lookup (dayStep start) (dayHit start) addEntryDay
             (dayStep_lookup start)).
  unfold emptyDayBuckets. rewrite list_lookup_fmap, lookup_seqZ_lt by exact Hi.
  cbn [fmap option_fmap option_map]. rewrite setDate_getDate_plus.
  rewrite Z.add_0_l. reflexivity.
Qed.

Lemma dayBuckets_dates (now : Z) (entries : list WaterLogEntry) (days : Z) :
  date <$> dayBuckets tza now entries days =
  plusDays (dayWindowStart tza now entries days) <$> seqZ 0 (effectiveDays days).
Proof.
  apply list_eq. intros i. rewrite !list_lookup_fmap.
  destruct (Z.lt_ge_cases (Z.of_nat i) (effectiveDays days)) as [Hi|Hi].
  - rewrite dayBuckets_lookup, lookup_seqZ_lt by exact Hi.
    cbn [fmap option_fmap option_map]. rewrite fold_addEntryDay_date.
    reflexivity.
  - rewrite lookup_seqZ_ge by lia.
    rewrite (lookup_ge_None_2 (dayBuckets tza now entries days) i);
      [reflexivity|].
    rewrite dayBuckets_length. lia.
Qed.

Lemma groupEntriesByDay_labels (now : Z) (entries : list WaterLogEntry)
  (days : Z) :
  labels (groupEntriesByDay tza now entries days) =
  (fun i => dayLabel tza (plusDays (dayWindowStart tza now entries days) i))
    <$> seqZ 0 (effectiveDays days).
Proof.
  unfold groupEntriesByDay. cbn [labels].
  rewrite (list_fmap_compose date (dayLabel tza)), dayBuckets_dates.
  rewrite <- list_fmap_compose. reflexivity.
Qed.

End Aggregation.

Section AggregationClaims.

Variable tza : Z.

Lemma latestEntry_spec (rest : list WaterLogEntry) : forall e0 : WaterLogEntry,
  In (latestEntry e0 rest) (e0 :: rest) /\
  forall e, In e (e0 :: rest) -> timestamp e <= timestamp (latestEntry e0 rest).
Proof.
  induction rest as [|e1 rest IH]; intros e0.
  - split; [left; reflexivity|]. intros e [<-|[]]. cbn. lia.
  - unfold latestEntry. cbn [fold_left].
    destruct (Z.geb_spec (timestamp e0) (timestamp e1)) as [Hge|Hlt].
    + destruct (IH e0) as [Hin Hmax]. fold (latestEntry e0 rest). split.
      * destruct Hin as [Hin|Hin]; [left | right; right]; exact Hin.
      * intros e [<-|[<-|He]].
        -- apply Hmax. left. reflexivity.
        -- specialize (Hmax e0 (or_introl eq_refl)). lia.
        -- apply Hmax. right. exact He.
    + destruct (IH e1) as [Hin Hmax]. fold (latestEntry e1 rest). split.
      * right. exact Hin.
      * intros e [<-|[<-|He]].
        -- specialize (Hmax e1 (or_introl eq_refl)). lia.
        -- apply Hmax. left. reflexivity.
        -- apply Hmax. right. exact He.
Qed.

(** The bucket range ends on the day of the latest entry, or of the current
    time when there is none. *)
Lemma dayWindowEnd_latest (now latest : Z) (entries : list WaterLogEntry) :
  latestInstant now entries latest ->
  dayWindowEnd tza now entries = endOfDay tza latest.
Proof.
  destruct entries as [|e0 rest]; cbn [latestInstant dayWindowEnd].
  - intros ->. apply setHours_endOfDay.
  - intros [[e [Hin Heq]] Hmax]. rewrite setHours_endOfDay. f_equal.
    destruct (latestEntry_spec rest e0) as [Hin' Hmax'].
    specialize (Hmax _ Hin'). specialize (Hmax' _ Hin). lia.
Qed.

Lemma dayWindowStart_latest (now latest days : Z)
  (entries : list WaterLogEntry) :
  latestInstant now entries latest ->
  dayWindowStart tza now entries days =
  plusDays (startOfDay tza latest) (- (effectiveDays days - 1)).
Proof.
  intros Hl. unfold dayWindowStart. cbv zeta.
  rewrite (dayWindowEnd_latest now latest) by exact Hl.
  rewrite setHours_startOfDay.
  change (getDate tza (endOfDay tza latest) - (effectiveDays days - 1))
    with (getDate tza (endOfDay tza latest) + - (effectiveDays days - 1)).
  rewrite setDate_getDate_of by date_arith.
  generalize (effectiveDays days). intros n. date_arith.
Qed.

Lemma latestInstant_exists (now : Z) (entries : list WaterLogEntry) :
  exists latest, latestInstant now entries latest.
Proof.
  destruct entries as [|e0 rest]; [exists now; reflexivity|].
  exists (timestamp (latestEntry e0 rest)).
  destruct (latestEntry_spec rest e0) as [Hin Hmax].
  split; [exists (latestEntry e0 rest); split; [exact Hin | reflexivity]|].
  exact Hmax.
Qed.

Lemma processEntriesForChart_byDay (now : Z) (entries : list WaterLogEntry)
  (span : TimeSpan) :
  span <> day ->
  processEntriesForChart tza now entries span =
  groupEntriesByDay tza now entries (getWindowLength span) /\
  effectiveDays (getWindowLength span) = getWindowLength span.
Proof. destruct span; [congruence | split; reflexivity ..]. Qed.

Lemma noLeadingZero_small (n : Z) :
  1 <= n <= 31 -> noLeadingZero (pretty n) = true.
Proof.
  intros Hn.
  assert (Hall : forallb (fun k => noLeadingZero (pretty k)) (seqZ 1 31) = true)
    by (vm_compute; reflexivity).
  rewrite forallb_forall in Hall. apply Hall.
  apply list_elem_of_In, elem_of_seqZ. lia.
Qed.

(** An untouched day bucket still holds the empty totals. *)
Lemma dayBuckets_untouched (now : Z) (entries : list WaterLogEntry)
  (days : Z) (i : nat) :
  Z.of_nat i < effectiveDays days ->
  (forall e, In e entries ->
     bucketIndex (dayWindowStart tza now entries days) e <> Z.of_nat i) ->
  tally <$> dayBuckets tza now entries days !! i = Some emptyTally.
Proof.
  intros Hi Hmiss. unfold dayBuckets. cbv zeta.
  rewrite (fold_step_untouched (dayStep _) (dayHit _) addEntryDay
             (dayStep_lookup _)).
  - unfold emptyDayBuckets.
    rewrite list_lookup_fmap, lookup_seqZ_lt by exact Hi. reflexivity.
  - intros e He. unfold dayHit. apply Z.eqb_neq. apply Hmiss. exact He.
Qed.

Lemma hourBuckets_untouched (entries : list WaterLogEntry) (i : nat) :
  (i < 24)%nat ->
  (forall e, In e entries -> getHours tza (timestamp e) <> Z.of_nat i) ->
  hourBuckets tza entries !! i = Some emptyTally.
Proof.
  intros Hi Hmiss. unfold hourBuckets.
  rewrite (fold_step_untouched (hourStep tza) (hourHit tza) addEntry
             (hourStep_lookup tza)).
  - apply lookup_replicate_2. exact Hi.
  - intros e He. unfold hourHit. apply Z.eqb_neq. apply Hmiss. exact He.
Qed.

(** C2. For every collection of entries and every span, the labels and the
    two series have 24 elements for the Day span and [windowLength] elements
    otherwise; a bucket no entry falls into is present, with total 0 and
    average 0. *)
Theorem aggregate_full_length (now : Z) (entries : list WaterLogEntry)
  (span : TimeSpan) :
  let out := processEntriesForChart tza now entries span in
  let n := Z.to_nat (match span with day => 24 | _ => getWindowLength span end) in
  length (labels out) = n /\
  length (waterData out) = n /\
  length (fatigueData out) = n /\
  forall i : nat, (i < n)%nat ->
    (forall e, In e entries -> bucketOf tza now entries span e <> Z.of_nat i) ->
    waterData out !! i = Some 0%Q /\ fatigueData out !! i = Some 0%Q.
Proof.
  intros out n. subst out n.
  assert (Hcase : span = day \/ span <> day)
    by (destruct span; (left; reflexivity) || (right; discriminate)).
  destruct Hcase as [->|Hspan].
  - cbn [processEntriesForChart groupEntriesByHour labels waterData fatigueData].
    rewrite !length_fmap, length_seqZ, hourBuckets_length.
    repeat split; try reflexivity.
    + rewrite list_lookup_fmap, hourBuckets_untouched by (assumption || lia).
      reflexivity.
    + rewrite list_lookup_fmap, hourBuckets_untouched by (assumption || lia).
      reflexivity.
  - destruct (processEntriesForChart_byDay now entries span Hspan) as [-> Heff].
    assert (Hn : (match span with day => 24 | _ => getWindowLength span end)
                 = getWindowLength span)
      by (destruct span; [congruence | reflexivity ..]).
    rewrite Hn.
    assert (Hb : bucketOf tza now entries span =
                 bucketIndex (dayWindowStart tza now entries (getWindowLength span)))
      by (destruct span; [congruence | reflexivity ..]).
    rewrite Hb.
    unfold groupEntriesByDay. cbn [labels waterData fatigueData].
    rewrite !length_fmap, dayBuckets_length, Heff.
    repeat split; try reflexivity.
    + rewrite (list_fmap_compose tally waterTotal), !list_lookup_fmap.
      rewrite dayBuckets_untouched by (assumption || lia). reflexivity.
    + rewrite (list_fmap_compose tally averageFatigue), !list_lookup_fmap.
      rewrite dayBuckets_untouched by (assumption || lia). reflexivity.
Qed.

End AggregationClaims.

Section AggregationRange.

Variable tza : Z.

Lemma dayLabel_numbers (d : Z) :
  1 <= getMonth tza d + 1 <= 12 /\
  1 <= getDate tza d <= 31 /\
  noLeadingZero (pretty (getMonth tza d + 1)) = true /\
  noLeadingZero (pretty (getDate tza d)) = true.
Proof.
  pose proof (getMonth_range tza d) as Hm.
  pose proof (getDate_range tza d) as Hd.
  repeat split; try lia; apply noLeadingZero_small; lia.
Qed.

(** C1 (amended). For every span other than Day the aggregation yields
    exactly [windowLength] buckets, one per calendar day in ascending order;
    the last one is the calendar day of the latest entry passed in (of the
    current time when none is passed); bucket [i] is labelled
    "<month>/<day>" of the first bucket's day plus [i] days, month and day
    counted from 1 and written without leading zeros.  The range is that of
    the navigation window, from [windowStart] to [windowEnd], whenever the
    latest entry lies on the calendar day of the anchor. *)
Theorem calendarDay_buckets (now latest : Z) (entries : list WaterLogEntry)
  (span : TimeSpan) :
  span <> day ->
  latestInstant now entries latest ->
  let len := getWindowLength span in
  let out := processEntriesForChart tza now entries span in
  let dates := date <$> dayBuckets tza now entries len in
  let first := plusDays (startOfDay tza latest) (- (len - 1)) in
  length (labels out) = Z.to_nat len /\
  dates = plusDays first <$> seqZ 0 len /\
  plusDays first (len - 1) = startOfDay tza latest /\
  (forall (i j : nat) (di dj : Z),
     (i < j)%nat -> dates !! i = Some di -> dates !! j = Some dj -> di < dj) /\
  labels out =
    (fun i => pretty (getMonth tza (plusDays first i) + 1) +:+ "/"
              +:+ pretty (getDate tza (plusDays first i))) <$> seqZ 0 len /\
  (forall d, 1 <= getMonth tza d + 1 <= 12 /\ 1 <= getDate tza d <= 31 /\
             noLeadingZero (pretty (getMonth tza d + 1)) = true /\
             noLeadingZero (pretty (getDate tza d)) = true) /\
  (forall anchor,
     localDay tza latest = localDay tza anchor ->
     first = windowStart (computeWindow tza anchor span) /\
     plusDays first (len - 1) =
       startOfDay tza (windowEnd (computeWindow tza anchor span))).
Proof.
  intros Hspan Hlatest len out dates first. subst out dates.
  destruct (processEntriesForChart_byDay tza now entries span Hspan)
    as [-> Heff].
  fold len in Heff |- *.
  assert (Hdates : date <$> dayBuckets tza now entries len
                   = plusDays first <$> seqZ 0 len).
  { rewrite dayBuckets_dates, (dayWindowStart_latest tza now latest) by exact Hlatest.
    rewrite Heff. reflexivity. }
  split; [|split; [exact Hdates|split; [|split; [|split; [|split]]]]].
  - rewrite groupEntriesByDay_labels, length_fmap, length_seqZ, Heff.
    reflexivity.
  - subst first. unfold plusDays. lia.
  - intros i j di dj Hij. rewrite Hdates, !list_lookup_fmap.
    intros Hi Hj.
    destruct (seqZ 0 len !! i) as [zi|] eqn:Ei; [|discriminate].
    destruct (seqZ 0 len !! j) as [zj|] eqn:Ej; [|discriminate].
    apply lookup_seqZ in Ei as [-> _]. apply lookup_seqZ in Ej as [-> _].
    cbn in Hi, Hj. injection Hi as <-. injection Hj as <-.
    unfold plusDays, Calendar.msPerDay. lia.
  - rewrite groupEntriesByDay_labels,
      (dayWindowStart_latest tza now latest) by exact Hlatest.
    rewrite Heff. reflexivity.
  - apply dayLabel_numbers.
  - intros anchor Hday. rewrite computeWindow_eq. cbn [windowStart windowEnd].
    subst first. fold len. clearbody len. split; date_arith.
Qed.

(** C10. [groupEntriesByDay] takes the entries and the number of days, and
    no window.  With [n] the value of [days] after the guard
    [if (days <= 0) days = 1] (so [n = days] for [days >= 1]), it yields [n]
    buckets; the last one is the calendar day of the maximum timestamp among
    the entries, or of the current time when there is no entry, and the
    first one is that day minus [n - 1] days; the labels are those of these
    days.  A window chosen by the caller acts only through the entries it
    selects. *)
Theorem groupEntriesByDay_range (now days latest : Z)
  (entries : list WaterLogEntry) :
  latestInstant now entries latest ->
  let n := effectiveDays days in
  let buckets := dayBuckets tza now entries days in
  let out := groupEntriesByDay tza now entries days in
  (0 < days -> n = days) /\
  length buckets = Z.to_nat n /\
  date <$> last buckets = Some (startOfDay tza latest) /\
  date <$> head buckets = Some (plusDays (startOfDay tza latest) (- (n - 1))) /\
  labels out =
    (fun i => dayLabel tza (plusDays (startOfDay tza latest) (i - (n - 1))))
      <$> seqZ 0 n /\
  (forall (fullData : list WaterLogEntry) (w1 w2 : Window),
     entriesInWindow fullData w1 = entries ->
     entriesInWindow fullData w2 = entries ->
     groupEntriesByDay tza now (entriesInWindow fullData w1) days =
     groupEntriesByDay tza now (entriesInWindow fullData w2) days).
Proof.
  intros Hlatest n buckets out. subst buckets out.
  pose proof (effectiveDays_pos days) as Hn. fold n in Hn.
  pose proof (dayBuckets_dates tza now entries days) as Hdates.
  rewrite (dayWindowStart_latest tza now latest) in Hdates by exact Hlatest.
  pose proof (dayBuckets_length tza now entries days) as Hlen.
  fold n in Hdates, Hlen.
  split; [|split; [exact Hlen|split; [|split; [|split]]]].
  - subst n. unfold effectiveDays. destruct (Z.leb_spec days 0); lia.
  - rewrite last_lookup, <- list_lookup_fmap, Hdates, Hlen.
    rewrite list_lookup_fmap, lookup_seqZ_lt by lia.
    cbn [fmap option_fmap option_map]. f_equal. unfold plusDays.
    rewrite Nat2Z.inj_pred, Z2Nat.id by lia. lia.
  - rewrite head_lookup, <- list_lookup_fmap, Hdates.
    rewrite list_lookup_fmap, lookup_seqZ_lt by lia.
    cbn [fmap option_fmap option_map]. f_equal. unfold plusDays. lia.
  - rewrite groupEntriesByDay_labels,
      (dayWindowStart_latest tza now latest) by exact Hlatest.
    fold n. apply list_fmap_ext. intros _ i _. f_equal. unfold plusDays. lia.
  - intros fullData w1 w2 -> ->. reflexivity.
Qed.

Lemma groupEntriesByDay_clock (now1 now2 days : Z) (e0 : WaterLogEntry)
  (rest : list WaterLogEntry) :
  groupEntriesByDay tza now1 (e0 :: rest) days =
  groupEntriesByDay tza now2 (e0 :: rest) days.
Proof.
  assert (Hend : dayWindowEnd tza now1 (e0 :: rest)
                 = dayWindowEnd tza now2 (e0 :: rest))
    by (cbn [dayWindowEnd]; reflexivity).
  unfold groupEntriesByDay, dayBuckets, dayWindowStart.
  rewrite Hend. reflexivity.
Qed.

(** C9 (amended). The aggregation of a non-empty collection, and the
    hour-of-day aggregation of any collection, do not depend on the time of
    the call; the window is a function of the anchor and the span alone. *)
Theorem aggregate_deterministic (now1 now2 : Z) (entries : list WaterLogEntry)
  (span : TimeSpan) :
  (entries <> [] \/ span = day ->
   processEntriesForChart tza now1 entries span =
   processEntriesForChart tza now2 entries span) /\
  (forall (anchor1 anchor2 : Z) (span1 span2 : TimeSpan),
     anchor1 = anchor2 -> span1 = span2 ->
     computeWindow tza anchor1 span1 = computeWindow tza anchor2 span2).
Proof.
  split; [intros H | intros a1 a2 s1 s2 -> ->; reflexivity].
  destruct H as [H| ->]; [|reflexivity].
  destruct entries as [|e0 rest]; [congruence|].
  destruct span; cbn [processEntriesForChart];
    [reflexivity | apply groupEntriesByDay_clock ..].
Qed.

End AggregationRange.

(* ===================================================================== *)
(** ** The earliest bound                                                  *)
(* ===================================================================== *)

Section Boundaries.

(** The scan returns the least of its start value and the timestamps. *)
Lemma scanStep_fold (l : list WaterLogEntry) : forall a : Z,
  let r := fold_left scanStep l a in
  r <= a /\
  (forall e, In e l -> r <= timestamp e) /\
  (r = a \/ exists e, In e l /\ timestamp e = r).
Proof.
  induction l as [|e l IH]; intros a; cbn [fold_left].
  - repeat split; [lia | intros e [] | left; reflexivity].
  - destruct (IH (scanStep a e)) as (Hle & Hall & Hin).
    assert (Hs : scanStep a e <= a /\ scanStep a e <= timestamp e /\
                 (scanStep a e = a \/ scanStep a e = timestamp e))
      by (unfold scanStep; destruct (Z.ltb_spec (timestamp e) a); lia).
    destruct Hs as (Hsa & Hse & Hsc).
    split; [lia|]. split.
    + intros e' [<-|He']; [lia | apply Hall; exact He'].
    + destruct Hin as [Hr|(e' & He' & Hr)].
      * destruct Hsc as [Hsc|Hsc]; [left; lia|].
        right. exists e. split; [left; reflexivity | lia].
      * right. exists e'. split; [right; exact He' | exact Hr].
Qed.

Lemma earliestOf_min (l : list WaterLogEntry) (m : Z) :
  earliestOf l = Some m ->
  (forall e, In e l -> m <= timestamp e) /\ exists e, In e l /\ timestamp e = m.
Proof.
  destruct l as [|e0 rest]; [discriminate|].
  cbn [earliestOf]. intros [= <-]. revert e0.
  induction rest as [|e1 rest IH]; intros e0.
  - cbn. split; [intros e [<-|[]]; lia | exists e0; split; [left|]; reflexivity].
  - cbn [fmap list_fmap fold_right].
    destruct (IH e0) as (Hall & e & He & Hm).
    set (m := fold_right Z.min (timestamp e0) (timestamp <$> rest)) in *.
    split.
    + intros e' [Heq|[Heq|He']].
      * subst e'. specialize (Hall e0 (or_introl eq_refl)). lia.
      * subst e'. lia.
      * specialize (Hall e' (or_intror He')). lia.
    + destruct (Z.le_ge_cases (timestamp e1) m) as [Hle|Hge].
      * exists e1. split; [right; left; reflexivity | lia].
      * exists e. split; [|lia].
        destruct He as [He|He]; [left | right; right]; exact He.
Qed.

(** The scan over the store allocates, and leaves every object as it was. *)
Lemma scanEntry_fold (st : gmap positive Z) (objs : list EntryObj)
  (entries : list WaterLogEntry) :
  Forall2 (fun o e => readEntry st o = Some e) objs entries ->
  forall (l0 : positive) (st0 : gmap positive Z) (a : Z),
    st ⊆ st0 -> st0 !! l0 = Some a ->
    exists l st',
      fold_left scanEntry objs (Some (l0, st0)) = Some (l, st') /\
      st0 ⊆ st' /\ st' !! l = Some (fold_left scanStep entries a).
Proof.
  induction 1 as [|o e objs entries Hread _ IH]; intros l0 st0 a Hsub Hl0.
  - exists l0, st0. cbn. auto.
  - cbn [fold_left]. unfold readEntry in Hread.
    destruct (st !! objTimestamp o) as [t|] eqn:Ht; [|discriminate].
    injection Hread as <-. cbn [timestamp] in *.
    assert (Ht0 : st0 !! objTimestamp o = Some t)
      by (eapply lookup_weaken; eassumption).
    unfold scanEntry at 2. rewrite Ht0, Hl0. unfold scanStep at 2.
    cbn [timestamp].
    destruct (t <? a).
    + unfold newDate.
      assert (Hfresh : st0 !! fresh (dom st0) = None)
        by (apply not_elem_of_dom, is_fresh).
      destruct (IH (fresh (dom st0)) (<[fresh (dom st0) := t]> st0) t)
        as (l & st' & Hfold & Hsub' & Hl).
      * etrans; [exact Hsub | apply insert_subseteq; exact Hfresh].
      * apply lookup_insert_eq.
      * exists l, st'. split; [exact Hfold|]. split; [|exact Hl].
        etrans; [apply insert_subseteq; exact Hfresh | exact Hsub'].
    + apply IH; assumption.
Qed.

(** C7 (amended). For a snapshot with at least one entry not later than the
    current time, [dataBoundaries] returns exactly the minimum timestamp; for
    the empty snapshot it returns the current time; it changes no [Date]
    object of its input (it only allocates new ones). *)
Theorem dataBoundaries_earliest (now : Z) (fullData : list WaterLogEntry) :
  (Exists (fun e => timestamp e <= now) fullData ->
     earliestOf fullData = Some (dataBoundaries now fullData)) /\
  dataBoundaries now [] = now /\
  (forall (objs : list EntryObj) (st : gmap positive Z),
     mapM (readEntry st) objs = Some fullData ->
     exists l st',
       dataBoundariesStore now objs st = Some (l, st') /\
       st' !! l = Some (dataBoundaries now fullData) /\
       st ⊆ st' /\
       mapM (readEntry st') objs = Some fullData).
Proof.
  split; [|split; [reflexivity|]].
  - intros Hex. apply Exists_exists in Hex as (e & He & Hle).
    apply list_elem_of_In in He.
    destruct fullData as [|e0 rest]; [destruct He|].
    destruct (earliestOf (e0 :: rest)) as [m|] eqn:Hm; [|discriminate].
    f_equal. apply earliestOf_min in Hm as (Hall & em & Hem & Hmeq).
    unfold dataBoundaries.
    replace (Z.of_nat (length (e0 :: rest)) =? 0) with false by reflexivity.
    destruct (scanStep_fold (e0 :: rest) now) as (Hnow & Hlow & Hin).
    cbv zeta in *. set (r := fold_left scanStep (e0 :: rest) now) in *.
    specialize (Hlow em Hem) as Hr1.
    destruct Hin as [Hr|(e' & He' & Hr)].
    + specialize (Hall e He). specialize (Hlow e He). lia.
    + specialize (Hall e' He'). lia.
  - intros objs st Hread. apply mapM_Some in Hread.
    assert (Hfresh : st !! fresh (dom st) = None)
      by (apply not_elem_of_dom, is_fresh).
    assert (Hlen : length objs = length fullData)
      by (eapply Forall2_length; exact Hread).
    assert (Hkeep : forall st' : gmap positive Z, st ⊆ st' ->
              mapM (readEntry st') objs = Some fullData).
    { intros st' Hsub. apply mapM_Some.
      eapply Forall2_impl; [exact Hread|].
      intros o e. unfold readEntry.
      destruct (st !! objTimestamp o) as [t|] eqn:Ht; [|discriminate].
      rewrite (lookup_weaken st st' _ t Ht Hsub). auto. }
    unfold dataBoundariesStore, dataBoundaries. rewrite Hlen.
    destruct (Z.of_nat (length fullData) =? 0).
    + exists (fresh (dom st)), (<[fresh (dom st) := now]> st).
      split; [reflexivity|]. split; [apply lookup_insert_eq|].
      assert (Hsub : st ⊆ <[fresh (dom st) := now]> st)
        by (apply insert_subseteq; exact Hfresh).
      split; [exact Hsub | apply Hkeep; exact Hsub].
    + unfold newDate.
      destruct (scanEntry_fold st objs fullData Hread (fresh (dom st))
                  (<[fresh (dom st) := now]> st) now)
        as (l & st' & Hfold & Hsub' & Hl).
      * apply insert_subseteq; exact Hfresh.
      * apply lookup_insert_eq.
      * exists l, st'. split; [exact Hfold|]. split; [exact Hl|].
        assert (Hsub : st ⊆ st')
          by (etrans; [apply insert_subseteq; exact Hfresh | exact Hsub']).
        split; [exact Hsub | apply Hkeep; exact Hsub].
Qed.

End Boundaries.

(* ===================================================================== *)
(** ** The back arrow and the earliest entry                               *)
(* ===================================================================== *)



(* ===================================================================== *)
(** ** Examples                                                            *)
(* ===================================================================== *)

Import Sample.

(** The calendar on known dates (year, month from 1, day of month). *)
Example calendar_known_dates :
  let ymd n := (Calendar.YearFromTime (at_ n 0),
                Calendar.MonthFromTime (at_ n 0) + 1,
                Calendar.DateFromTime (at_ n 0)) in
  ymd 0 = (1970, 1, 1) /\ ymd (-1) = (1969, 12, 31) /\
  ymd 11016 = (2000, 2, 29) /\ ymd (-25508) = (1900, 3, 1) /\
  ymd 19732 = (2024, 1, 10) /\ ymd 19782 = (2024, 2, 29) /\
  ymd 19800 = (2024, 3, 18).
Proof. vm_compute. repeat split. Qed.

(** The example of the specification: two entries on the last day of a
    seven-day range; that bucket sums to 3 with average 3, the others are 0. *)
Example aggregate_two_entries :
  let e1 := {| amountCups := 1; fatigue := 2; timestamp := at_ 19738 10 |} in
  let e2 := {| amountCups := 2; fatigue := 4;
               timestamp := at_ 19738 10 + 30 * Calendar.msPerMinute |} in
  let out := processEntriesForChart 0 (at_ 19800 3) [e1; e2] week in
  labels out = ["1/10"; "1/11"; "1/12"; "1/13"; "1/14"; "1/15"; "1/16"] /\
  waterData out = [0; 0; 0; 0; 0; 0; 3]%Q /\
  Qred <$> fatigueData out = [0; 0; 0; 0; 0; 0; 3]%Q.
Proof. vm_compute. repeat split. Qed.

(** Local time five hours behind UTC: 02:00 UTC of 2024-01-16 is still the
    evening of 01-15, so the week ends with 01-15 (local), that is at
    04:59:59.999 UTC of 01-16, and starts at 05:00 UTC of 01-09. *)
Example computeWindow_local_time :
  let tza := - 5 * Calendar.msPerHour in
  let w := computeWindow tza (at_ 19738 2) week in
  windowEnd w = at_ 19738 5 - 1 /\ windowStart w = at_ 19731 5 /\
  dayLabel tza (windowStart w) = "1/9" /\ dayLabel tza (windowEnd w) = "1/15".
Proof. vm_compute. repeat split. Qed.

Example hour_labels :
  labels (processEntriesForChart 0 0 [] day) =
  ["12AM"; "1AM"; "2AM"; "3AM"; "4AM"; "5AM"; "6AM"; "7AM"; "8AM"; "9AM";
   "10AM"; "11AM"; "12PM"; "1PM"; "2PM"; "3PM"; "4PM"; "5PM"; "6PM"; "7PM";
   "8PM"; "9PM"; "10PM"; "11PM"].
Proof. vm_compute. reflexivity. Qed.

(** C1, counterexample.  Window of the week ending 2024-01-16, one entry on
    2024-01-12 inside it: the buckets run from 1/6 to 1/12, not from the
    start of the window (1/10) to its end (1/16). *)
Lemma calendarDay_buckets_not_window :
  let fullData := [entry (at_ 19734 10)] in
  let w := computeWindow 0 (at_ 19738 12) week in
  let entries := entriesInWindow fullData w in
  let out := processEntriesForChart 0 (at_ 19738 12) entries week in
  entries = fullData /\
  labels out = ["1/6"; "1/7"; "1/8"; "1/9"; "1/10"; "1/11"; "1/12"] /\
  (fun i => dayLabel 0 (plusDays (windowStart w) i))
    <$> seqZ 0 (getWindowLength week)
  = ["1/10"; "1/11"; "1/12"; "1/13"; "1/14"; "1/15"; "1/16"] /\
  labels out <>
  (fun i => dayLabel 0 (plusDays (windowStart w) i))
    <$> seqZ 0 (getWindowLength week).
Proof.
  vm_compute. repeat split. discriminate.
Qed.

(** C3, counterexample.  Earliest entry on 2024-01-10 at 10:00, anchor at
    the end of 2024-01-23, span Week: the step back is clamped, and the
    window then starts at 2024-01-10 00:00, not at the earliest bound. *)
Lemma handleBack_start_not_earliest :
  let earliest := at_ 19732 10 in
  let anchor := lastMs 19745 in
  let candidate := plusDays anchor (- getWindowLength week) in
  let anchor' := handleBack 0 earliest week anchor in
  windowStart (computeWindow 0 candidate week) < earliest /\
  anchor' = lastMs 19738 /\
  windowStart (computeWindow 0 anchor' week) = at_ 19732 0 /\
  windowStart (computeWindow 0 anchor' week) <> earliest.
Proof.
  vm_compute. repeat split. discriminate.
Qed.

(** C5, counterexample.  Now is 2024-03-18, the anchor is the end of
    2024-03-15, span Week, data from 2023-12-09 on: the step forward is
    clamped to the end of 03-18, the step back is not clamped and ends at
    the end of 03-11, which is neither the anchor nor the clamped value. *)
Lemma advance_then_retreat_neither :
  let now := at_ 19800 3 in
  let anchor := lastMs 19797 in
  let earliest := at_ 19700 5 in
  let advanced := handleForward 0 now week anchor in
  let final := handleBack 0 earliest week advanced in
  plusDays anchor (getWindowLength week) > endOfDay 0 now /\
  advanced = endOfDay 0 now /\
  ~ windowStart
      (computeWindow 0 (plusDays advanced (- getWindowLength week)) week)
    < earliest /\
  final = lastMs 19793 /\
  final <> anchor /\
  final <> endOfDay 0 now.
Proof.
  vm_compute. repeat split; discriminate.
Qed.

(** C6, counterexample.  Empty snapshot, now 2024-03-18 03:00, anchor at
    the end of that day, span Week: [handleBack] moves the anchor to the end
    of 2024-03-24. *)
Lemma handleBack_empty_moves :
  let now := at_ 19800 3 in
  let anchor := lastMs 19800 in
  handleBack 0 (dataBoundaries now []) week anchor = lastMs 19806 /\
  handleBack 0 (dataBoundaries now []) week anchor <> anchor.
Proof.
  vm_compute. split; [reflexivity | discriminate].
Qed.


(** C7, counterexample.  With the single entry at 15:00 and the clock at
    03:00 of the same day, the result is the clock, not the minimum
    timestamp; for the empty snapshot the result is the clock, where the
    minimum is undefined. *)
Lemma dataBoundaries_not_minimum :
  let now := at_ 19800 3 in
  let fullData := [entry (at_ 19800 15)] in
  earliestOf fullData = Some (at_ 19800 15) /\
  dataBoundaries now fullData = now /\
  Some (dataBoundaries now fullData) <> earliestOf fullData /\
  earliestOf [] = None /\
  Some (dataBoundaries now []) <> earliestOf [].
Proof.
  vm_compute. repeat split; discriminate.
Qed.

(** C9, counterexample.  The same (empty) collection and span, aggregated on
    2024-03-18 and on 2024-06-26, give different labels. *)
Lemma aggregate_depends_on_clock :
  labels (processEntriesForChart 0 (at_ 19800 3) [] week)
    = ["3/12"; "3/13"; "3/14"; "3/15"; "3/16"; "3/17"; "3/18"] /\
  labels (processEntriesForChart 0 (at_ 19900 3) [] week)
    = ["6/20"; "6/21"; "6/22"; "6/23"; "6/24"; "6/25"; "6/26"] /\
  processEntriesForChart 0 (at_ 19800 3) [] week <>
  processEntriesForChart 0 (at_ 19900 3) [] week.
Proof.
  vm_compute. repeat split. discriminate.
Qed.

(** *** The theorems at concrete inputs *)

Lemma aggregate_full_length_witness :
  let entries := [entry (at_ 19734 10)] in
  let out := processEntriesForChart 0 (at_ 19738 12) entries week in
  length (labels out) = 7%nat /\
  waterData out !! 0%nat = Some 0%Q /\ fatigueData out !! 0%nat = Some 0%Q.
Proof.
  intros entries out.
  destruct (aggregate_full_length 0 (at_ 19738 12) entries week)
    as (Hlen & _ & _ & Hzero).
  split; [exact Hlen|].
  apply Hzero.
  - vm_compute. lia.
  - intros e [<-|[]]. vm_compute. discriminate.
Defined.

Lemma handleBack_clamp_witness :
  let earliest := at_ 19732 10 in
  let anchor := lastMs 19745 in
  windowStart
    (computeWindow 0 (plusDays anchor (- getWindowLength week)) week)
  < earliest /\
  handleBack 0 earliest week anchor
  = endOfDay 0 (plusDays earliest (getWindowLength week - 1)) /\
  windowStart (computeWindow 0 (handleBack 0 earliest week anchor) week)
  = startOfDay 0 earliest.
Proof.
  intros earliest anchor.
  assert (Hlt : windowStart
                  (computeWindow 0 (plusDays anchor (- getWindowLength week)) week)
                < earliest) by (vm_compute; reflexivity).
  split; [exact Hlt|].
  destruct (handleBack_clamp 0 earliest anchor week) as [Hclamp _].
  destruct (Hclamp Hlt) as (Ha & Hs & _).
  split; [exact Ha | exact Hs].
Defined.


Lemma advance_then_retreat_witness :
  let now := at_ 19800 3 in
  let anchor := lastMs 19790 in
  let earliest := at_ 19700 5 in
  handleBack 0 earliest week (handleForward 0 now week anchor) = anchor.
Proof.
  intros now anchor earliest.
  destruct (advance_then_retreat 0 now earliest anchor week) as [Hfree _].
  apply Hfree; vm_compute; discriminate.
Defined.

Lemma calendarDay_buckets_witness :
  let entries := [entry (at_ 19734 10); entry (at_ 19738 9)] in
  let w := computeWindow 0 (at_ 19738 12) week in
  let out := processEntriesForChart 0 (at_ 19738 12) entries week in
  length (labels out) = 7%nat /\
  labels out =
    (fun i => pretty (getMonth 0 (plusDays (windowStart w) i) + 1) +:+ "/"
              +:+ pretty (getDate 0 (plusDays (windowStart w) i)))
      <$> seqZ 0 7.
Proof.
  intros entries w out.
  assert (Hspan : week <> day) by discriminate.
  assert (Hlatest : latestInstant (at_ 19738 12) entries (at_ 19738 9)).
  { split.
    - exists (entry (at_ 19738 9)). split; [right; left|]; reflexivity.
    - intros e [<-|[<-|[]]]; vm_compute; discriminate. }
  destruct (calendarDay_buckets 0 (at_ 19738 12) (at_ 19738 9) entries week
              Hspan Hlatest) as (Hlen & _ & _ & _ & Hlabels & _ & Hwin).
  split; [exact Hlen|].
  destruct (Hwin (at_ 19738 12)) as [Hfirst _]; [vm_compute; reflexivity|].
  subst w. rewrite <- Hfirst. exact Hlabels.
Defined.

Lemma groupEntriesByDay_range_witness :
  let entries := [entry (at_ 19734 10)] in
  let buckets := dayBuckets 0 (at_ 19800 3) entries 7 in
  date <$> last buckets = Some (startOfDay 0 (at_ 19734 10)) /\
  date <$> head buckets = Some (plusDays (startOfDay 0 (at_ 19734 10)) (- 6)).
Proof.
  intros entries buckets.
  assert (Hlatest : latestInstant (at_ 19800 3) entries (at_ 19734 10)).
  { split.
    - exists (entry (at_ 19734 10)). split; [left|]; reflexivity.
    - intros e [<-|[]]. vm_compute. discriminate. }
  destruct (groupEntriesByDay_range 0 (at_ 19800 3) 7 (at_ 19734 10) entries
              Hlatest) as (_ & _ & Hlast & Hhead & _).
  split; [exact Hlast | exact Hhead].
Defined.

Lemma aggregate_deterministic_witness :
  processEntriesForChart 0 (at_ 19800 3) [entry (at_ 19734 10)] week =
  processEntriesForChart 0 (at_ 19900 3) [entry (at_ 19734 10)] week.
Proof.
  apply (proj1 (aggregate_deterministic 0 (at_ 19800 3) (at_ 19900 3)
                  [entry (at_ 19734 10)] week)).
  left. discriminate.
Defined.

Lemma dataBoundaries_earliest_witness :
  let fullData := [entry (at_ 19740 8); entry (at_ 19732 10)] in
  earliestOf fullData = Some (dataBoundaries (at_ 19800 3) fullData) /\
  dataBoundaries (at_ 19800 3) fullData = at_ 19732 10.
Proof.
  intros fullData.
  destruct (dataBoundaries_earliest (at_ 19800 3) fullData) as [Hmin _].
  split; [|vm_compute; reflexivity].
  apply Hmin. apply Exists_cons_hd. vm_compute. discriminate.
Defined.

(* ===================================================================== *)
(** ** Further properties of the aggregation                               *)
(* ===================================================================== *)

Section BucketContents.

Variable tza : Z.

Lemma fold_addEntry (es : list WaterLogEntry) : forall b : Tally,
  fold_left (fun b e => addEntry e b) es b =
  {| waterTotal := fold_left Qplus (amountCups <$> es) (waterTotal b);
     fatigueCount := fatigueCount b + Z.of_nat (length es);
     fatigueSum := fold_left Qplus (fatigue <$> es) (fatigueSum b) |}.
Proof.
  induction es as [|e es IH]; intros b.
  - destruct b as [w c f]. cbn. rewrite Z.add_0_r. reflexivity.
  - cbn [fold_left]. rewrite IH. cbn [addEntry waterTotal fatigueCount fatigueSum].
    cbn [fmap list_fmap fold_left length]. f_equal. lia.
Qed.

Lemma fold_addEntryDay (es : list WaterLogEntry) : forall b : DayBucket,
  fold_left (fun b e => addEntryDay e b) es b =
  {| tally := fold_left (fun b e => addEntry e b) es (tally b);
     date := date b |}.
Proof.
  induction es as [|e es IH]; intros b.
  - destruct b; reflexivity.
  - cbn [fold_left]. rewrite IH. reflexivity.
Qed.

Lemma emptyTally_received (es : list WaterLogEntry) :
  let b := fold_left (fun b e => addEntry e b) es emptyTally in
  waterTotal b = sumQ (amountCups <$> es) /\
  averageFatigue b = meanOrZero (fatigue <$> es).
Proof.
  cbv zeta. rewrite fold_addEntry. unfold averageFatigue, meanOrZero, sumQ.
  cbn [waterTotal fatigueCount fatigueSum emptyTally].
  rewrite length_fmap, Z.add_0_l. split; reflexivity.
Qed.

(** X1. The buckets of the Day span: bucket [i] sums, in the order of the input,
    the amounts of the entries whose local hour is [i], whatever their date,
    and averages their fatigue levels. *)
Theorem hour_bucket_content (now : Z) (entries : list WaterLogEntry) (i : nat) :
  (i < 24)%nat ->
  let same :=
    List.filter (fun e => getHours tza (timestamp e) =? Z.of_nat i) entries in
  let out := processEntriesForChart tza now entries day in
  waterData out !! i = Some (sumQ (amountCups <$> same)) /\
  fatigueData out !! i = Some (meanOrZero (fatigue <$> same)).
Proof.
  intros Hi same out. subst out.
  cbn [processEntriesForChart groupEntriesByHour waterData fatigueData].
  rewrite !list_lookup_fmap, hourBuckets_lookup by exact Hi.
  cbn [fmap option_fmap option_map].
  destruct (emptyTally_received
              (List.filter (fun e => hourHit tza e i) entries)) as [-> ->].
  split; reflexivity.
Qed.

(** X2. The buckets of the other spans are stretches of 24 hours counted
    from the start of the range: bucket [i] sums, in the order of the input,
    the amounts of the entries at or after the start plus [i] times 24 hours
    and before the start plus [i + 1] times 24 hours, and averages their
    fatigue levels. *)
Theorem day_bucket_content (now days : Z) (entries : list WaterLogEntry)
  (i : nat) :
  Z.of_nat i < effectiveDays days ->
  let start := dayWindowStart tza now entries days in
  let same :=
    List.filter
      (fun e => (start + Z.of_nat i * msPerDay <=? timestamp e)
                && (timestamp e <? start + (Z.of_nat i + 1) * msPerDay))
      entries in
  let out := groupEntriesByDay tza now entries days in
  waterData out !! i = Some (sumQ (amountCups <$> same)) /\
  fatigueData out !! i = Some (meanOrZero (fatigue <$> same)).
Proof.
  intros Hi start same out. subst out same.
  unfold groupEntriesByDay. cbn [waterData fatigueData].
  rewrite !list_lookup_fmap, dayBuckets_lookup by exact Hi.
  cbn [fmap option_fmap option_map]. rewrite fold_addEntryDay. cbn [tally].
  fold start. clearbody start.
  assert (Hsame : List.filter (fun e => dayHit start e i) entries =
                  List.filter
                    (fun e => (start + Z.of_nat i * msPerDay <=? timestamp e)
                              && (timestamp e
                                  <? start + (Z.of_nat i + 1) * msPerDay))
                    entries).
  { apply filter_ext. intros e. unfold dayHit, bucketIndex, getTime.
    change (24 * 60 * 60 * 1000) with 86400000. unfold msPerDay.
    generalize (timestamp e), (Z.of_nat i). intros t k.
    destruct (Z.eqb_spec ((t - start) / 86400000) k);
      destruct (Z.leb_spec (start + k * 86400000) t);
      destruct (Z.ltb_spec t (start + (k + 1) * 86400000));
      cbn [andb]; try reflexivity; exfalso;
      Z.div_mod_to_equations; lia. }
  rewrite Hsame.
  match goal with
  | |- context [fold_left _ ?l emptyTally] =>
      destruct (emptyTally_received l) as [-> ->]
  end.
  split; reflexivity.
Qed.

End BucketContents.

Section BucketRanges.

Variable tza : Z.

Lemma getHours_plusDays (t k : Z) :
  getHours tza (plusDays t k) = getHours tza t.
Proof.
  unfold getHours, Calendar.HourFromTime, LocalTime, plusDays,
    Calendar.msPerHour, Calendar.msPerDay.
  Z.div_mod_to_equations. lia.
Qed.

Lemma hourStep_shiftDays (bs : list Tally) (e : WaterLogEntry) (k : Z) :
  hourStep tza bs (shiftDays k e) = hourStep tza bs e.
Proof.
  unfold hourStep. cbn [shiftDays timestamp]. cbv zeta.
  rewrite getHours_plusDays. reflexivity.
Qed.

(** X4. The Day span looks at the hour only: moving entries by whole days, each
    by its own number of days, changes nothing in the output. *)
Theorem hour_mode_ignores_date (now : Z) (entries : list WaterLogEntry)
  (k : WaterLogEntry -> Z) :
  processEntriesForChart tza now ((fun e => shiftDays (k e) e) <$> entries) day
  = processEntriesForChart tza now entries day.
Proof.
  cbn [processEntriesForChart]. unfold groupEntriesByHour.
  assert (H : forall bs : list Tally,
            fold_left (hourStep tza) ((fun e => shiftDays (k e) e) <$> entries) bs
            = fold_left (hourStep tza) entries bs).
  { induction entries as [|e es IH]; intros bs; [reflexivity|].
    cbn [fmap list_fmap fold_left]. rewrite hourStep_shiftDays. apply IH. }
  unfold hourBuckets. rewrite H. reflexivity.
Qed.

Lemma fold_Qplus_bounds (lo hi : Q) (l : list Q) :
  Forall (fun q => lo <= q /\ q <= hi)%Q l ->
  forall a : Q,
    (a + inject_Z (Z.of_nat (length l)) * lo <= fold_left Qplus l a /\
     fold_left Qplus l a <= a + inject_Z (Z.of_nat (length l)) * hi)%Q.
Proof.
  induction 1 as [|q l [Hlo Hhi] _ IH]; intros a.
  - cbn [fold_left length]. change (inject_Z (Z.of_nat 0)) with 0%Q.
    split; nra.
  - cbn [fold_left length]. destruct (IH (a + q)%Q) as [IHlo IHhi].
    rewrite Nat2Z.inj_succ, <- Z.add_1_r, inject_Z_plus.
    change (inject_Z 1) with 1%Q.
    set (n := inject_Z (Z.of_nat (length l))) in *.
    split; nra.
Qed.

Lemma meanOrZero_bounds (lo hi : Q) (l : list Q) :
  Forall (fun q => lo <= q /\ q <= hi)%Q l ->
  meanOrZero l = 0%Q \/ (lo <= meanOrZero l /\ meanOrZero l <= hi)%Q.
Proof.
  intros Hl. unfold meanOrZero.
  destruct (Z.eqb_spec (Z.of_nat (length l)) 0) as [|Hn]; [left; reflexivity|].
  right. destruct (fold_Qplus_bounds lo hi l Hl 0%Q) as [Hlo Hhi].
  assert (Hpos : (0 < inject_Z (Z.of_nat (length l)))%Q).
  { change 0%Q with (inject_Z 0). rewrite <- Zlt_Qlt. lia. }
  unfold sumQ. split.
  - apply Qle_shift_div_l; [exact Hpos|]. lra.
  - apply Qle_shift_div_r; [exact Hpos|]. lra.
Qed.

Lemma sumQ_nonneg (l : list Q) :
  Forall (fun q => 0 <= q)%Q l -> (0 <= sumQ l)%Q.
Proof.
  intros Hl. unfold sumQ.
  assert (H : forall a : Q, (0 <= a)%Q -> (0 <= fold_left Qplus l a)%Q).
  { induction Hl as [|q l Hq _ IH]; intros a Ha; [exact Ha|].
    cbn [fold_left]. apply IH. lra. }
  apply H. lra.
Qed.

Lemma Forall_fmap_filter (P : Q -> Prop) (g : WaterLogEntry -> Q)
  (f : WaterLogEntry -> bool) (l : list WaterLogEntry) :
  (forall e, In e l -> P (g e)) -> Forall P (g <$> List.filter f l).
Proof.
  intros H. apply Forall_fmap, Forall_forall. intros e He.
  apply list_elem_of_In, filter_In in He. apply H, He.
Qed.

(** What a bucket received, in either mode: the entries selected by some
    test, summed and averaged in the order of the input. *)
Lemma bucket_received (now : Z) (entries : list WaterLogEntry)
  (span : TimeSpan) (i : nat) :
  let out := processEntriesForChart tza now entries span in
  (i < length (waterData out))%nat ->
  exists f : WaterLogEntry -> bool,
    waterData out !! i = Some (sumQ (amountCups <$> List.filter f entries)) /\
    fatigueData out !! i
    = Some (meanOrZero (fatigue <$> List.filter f entries)).
Proof.
  intros out Hi. subst out.
  assert (Hday : forall days,
            (i < length (waterData (groupEntriesByDay tza now entries days)))%nat ->
            exists f : WaterLogEntry -> bool,
              waterData (groupEntriesByDay tza now entries days) !! i
              = Some (sumQ (amountCups <$> List.filter f entries)) /\
              fatigueData (groupEntriesByDay tza now entries days) !! i
              = Some (meanOrZero (fatigue <$> List.filter f entries))).
  { intros days. unfold groupEntriesByDay. cbn [waterData fatigueData].
    rewrite length_fmap, dayBuckets_length. intros Hlt.
    exists (fun e => dayHit (dayWindowStart tza now entries days) e i).
    rewrite !list_lookup_fmap, dayBuckets_lookup by lia.
    cbn [fmap option_fmap option_map]. rewrite fold_addEntryDay. cbn [tally].
    match goal with
    | |- context [fold_left _ ?l emptyTally] =>
        destruct (emptyTally_received l) as [-> ->]
    end.
    split; reflexivity. }
  destruct span; cbn [processEntriesForChart] in *; try (apply Hday; exact Hi).
  unfold groupEntriesByHour in *. cbn [waterData fatigueData] in *.
  rewrite length_fmap, hourBuckets_length in Hi.
  exists (fun e => hourHit tza e i).
  rewrite !list_lookup_fmap, hourBuckets_lookup by exact Hi.
  cbn [fmap option_fmap option_map].
  match goal with
  | |- context [fold_left _ ?l emptyTally] =>
      destruct (emptyTally_received l) as [-> ->]
  end.
  split; reflexivity.
Qed.

(** X5. With amounts that are not negative and fatigue levels between 1 and 5,
    every water value is not negative and every fatigue value is either 0
    (a bucket without entry) or between 1 and 5: it fits the fatigue axis. *)
Theorem chart_values_in_range (now : Z) (entries : list WaterLogEntry)
  (span : TimeSpan) :
  (forall e, In e entries ->
     (0 <= amountCups e)%Q /\ (1 <= fatigue e)%Q /\ (fatigue e <= 5)%Q) ->
  let out := processEntriesForChart tza now entries span in
  (forall i w, waterData out !! i = Some w -> (0 <= w)%Q) /\
  (forall i v, fatigueData out !! i = Some v ->
     v = 0%Q \/ ((1 <= v)%Q /\ (v <= 5)%Q)).
Proof.
  intros Hin out. subst out.
  set (out := processEntriesForChart tza now entries span).
  assert (Hlen : length (fatigueData out) = length (waterData out)).
  { subst out. destruct span; cbn [processEntriesForChart];
      unfold groupEntriesByHour, groupEntriesByDay;
      cbn [waterData fatigueData]; rewrite !length_fmap; reflexivity. }
  split.
  - intros i w Hw.
    destruct (bucket_received now entries span i) as (f & Hwater & _);
      [eapply lookup_lt_Some; exact Hw|]. fold out in Hwater.
    rewrite Hwater in Hw. injection Hw as <-.
    apply sumQ_nonneg, Forall_fmap_filter. intros e He. apply Hin, He.
  - intros i v Hv.
    destruct (bucket_received now entries span i) as (f & _ & Hfat).
    { fold out. rewrite <- Hlen. eapply lookup_lt_Some; exact Hv. }
    fold out in Hfat.
    rewrite Hfat in Hv. injection Hv as <-.
    apply meanOrZero_bounds, Forall_fmap_filter. intros e He.
    destruct (Hin e He) as (_ & H1 & H5). split; assumption.
Qed.

End BucketRanges.

(* ===================================================================== *)
(** ** Further properties of the screen                                    *)
(* ===================================================================== *)

Section ScreenProperties.

Variable tza : Z.

Lemma entriesInWindow_In (fd : list WaterLogEntry) (w : Window)
  (e : WaterLogEntry) :
  In e (entriesInWindow fd w) <->
  In e fd /\ windowStart w <= timestamp e <= windowEnd w.
Proof.
  unfold entriesInWindow. rewrite filter_In, andb_true_iff, Z.geb_le, Z.leb_le.
  reflexivity.
Qed.

(** X7. [handleForward] never leaves the anchor after the end of today, and
    moves an anchor that is before the end of today strictly forward. *)
Theorem handleForward_bounded (now prev : Z) (span : TimeSpan) :
  handleForward tza now span prev <= endOfDay tza now /\
  (prev < endOfDay tza now -> prev < handleForward tza now span prev).
Proof.
  rewrite handleForward_eq. cbv zeta.
  pose proof (getWindowLength_pos span) as Hlen.
  generalize dependent (getWindowLength span). intros len Hlen.
  destruct (Z.gtb_spec (plusDays prev len) (endOfDay tza now)) as [Hc|Hc].
  - split; [lia | intros H; exact H].
  - split; [exact Hc | intros _; unfold plusDays, Calendar.msPerDay; lia].
Qed.

(** X8. An anchor at 23:59:59.999 local (as the initial one) stays at
    23:59:59.999 under [handleBack] and [handleForward], and is then the end
    of its own window. *)
Theorem anchor_stays_end_of_day (now earliest prev : Z) (span : TimeSpan) :
  localTimeOfDay tza prev = Calendar.msPerDay - 1 ->
  localTimeOfDay tza (handleBack tza earliest span prev)
  = Calendar.msPerDay - 1 /\
  localTimeOfDay tza (handleForward tza now span prev)
  = Calendar.msPerDay - 1 /\
  windowEnd (computeWindow tza prev span) = prev.
Proof.
  intros Hprev. rewrite handleBack_eq, handleForward_eq, computeWindow_eq.
  cbv zeta. cbn [windowEnd].
  generalize (getWindowLength span). intros len.
  repeat split.
  - destruct (_ <? _); date_arith.
  - destruct (_ >? _); date_arith.
  - date_arith.
Qed.

(** X9. Whatever the anchor, the window after [handleBack] does not start
    before the calendar day of the earliest bound. *)
Theorem handleBack_not_before_earliest (earliest anchor : Z)
  (span : TimeSpan) :
  startOfDay tza earliest
  <= windowStart (computeWindow tza (handleBack tza earliest span anchor) span).
Proof.
  rewrite handleBack_eq, !computeWindow_eq. cbv zeta. cbn [windowStart].
  pose proof (getWindowLength_pos span) as Hlen.
  generalize dependent (getWindowLength span). intros len Hlen.
  match goal with
  | |- context [?a <? ?b] => destruct (Z.ltb_spec a b) as [Hlt|Hge]
  end.
  - date_arith.
  - revert Hge. date_arith.
Qed.

(** X10. A press on the enabled back arrow shows the window just before the
    current one: it ends one millisecond before the current window starts,
    has the same length, does not start before the earliest bound, and
    leaves the data and the span alone. *)
Theorem pressBack_previous_window (now : Z) (s : HomeScreen) :
  screenCanGoBack tza now s = true ->
  let s' := pressBack tza now s in
  windowEnd (screenWindow tza s') + 1 = windowStart (screenWindow tza s) /\
  windowEnd (screenWindow tza s') - windowStart (screenWindow tza s')
  = windowEnd (screenWindow tza s) - windowStart (screenWindow tza s) /\
  dataBoundaries now (fullData s) <= windowStart (screenWindow tza s') /\
  fullData s' = fullData s /\ timespan s' = timespan s.
Proof.
  intros Hcan. cbv zeta. unfold pressBack. rewrite Hcan.
  unfold screenCanGoBack in Hcan.
  rewrite (handleBack_when_enabled tza _ _ _ _ Hcan).
  unfold screenWindow in *. cbn [fullData timespan currentDate].
  rewrite canGoBack_eq in Hcan.
  destruct (Z.of_nat (length (fullData s)) =? 0); [discriminate|].
  apply Z.geb_le in Hcan. revert Hcan. rewrite !computeWindow_eq.
  cbn [windowStart windowEnd].
  pose proof (getWindowLength_pos (timespan s)) as Hlen.
  generalize dependent (getWindowLength (timespan s)). intros len Hlen.
  generalize (dataBoundaries now (fullData s)). intros earliest Hcan.
  repeat split; try reflexivity; revert Hcan; date_arith.
Qed.

(** X11. A press on the enabled forward arrow moves the anchor strictly forward
    and not beyond the end of today; when a whole window fits before the end
    of today, the new window starts one millisecond after the current one
    ends. *)
Theorem pressForward_next_window (now : Z) (s : HomeScreen) :
  canGoForward tza now (currentDate s) = true ->
  let s' := pressForward tza now s in
  currentDate s < currentDate s' <= endOfDay tza now /\
  (plusDays (currentDate s) (getWindowLength (timespan s)) <= endOfDay tza now ->
   windowStart (screenWindow tza s') = windowEnd (screenWindow tza s) + 1) /\
  fullData s' = fullData s /\ timespan s' = timespan s.
Proof.
  intros Hcan. cbv zeta. unfold pressForward. rewrite Hcan.
  unfold canGoForward in Hcan. cbv zeta in Hcan.
  rewrite setHours_endOfDay in Hcan. apply Z.ltb_lt in Hcan.
  unfold screenWindow. cbn [fullData timespan currentDate].
  rewrite handleForward_eq, !computeWindow_eq. cbv zeta.
  cbn [windowStart windowEnd].
  pose proof (getWindowLength_pos (timespan s)) as Hlen.
  generalize dependent (getWindowLength (timespan s)). intros len Hlen.
  generalize dependent (currentDate s). intros anchor Hcan.
  destruct (Z.gtb_spec (plusDays anchor len) (endOfDay tza now)) as [Hc|Hc].
  - repeat split; intros; lia.
  - repeat split; intros; revert Hcan Hc; date_arith.
Qed.

(** X12. Back and then forward returns to the same screen state, for an anchor
    that is not after the end of today. *)
Theorem pressBack_pressForward (now : Z) (s : HomeScreen) :
  screenCanGoBack tza now s = true ->
  currentDate s <= endOfDay tza now ->
  pressForward tza now (pressBack tza now s) = s.
Proof.
  intros Hcan Hnow. unfold pressBack. rewrite Hcan.
  unfold screenCanGoBack in Hcan.
  rewrite (handleBack_when_enabled tza _ _ _ _ Hcan).
  unfold pressForward. cbn [fullData timespan currentDate].
  unfold canGoForward. cbv zeta. rewrite setHours_endOfDay, handleForward_eq.
  cbv zeta. destruct s as [fd span anchor]. cbn [fullData timespan currentDate] in *.
  pose proof (getWindowLength_pos span) as Hlen.
  clear Hcan. generalize dependent (getWindowLength span). intros len Hlen.
  replace (plusDays (plusDays anchor (- len)) len) with anchor
    by (unfold plusDays; lia).
  replace (plusDays anchor (- len) <? endOfDay tza now) with true
    by (symmetry; apply Z.ltb_lt; unfold plusDays, Calendar.msPerDay; lia).
  replace (anchor >? endOfDay tza now) with false
    by (symmetry; destruct (Z.gtb_spec anchor (endOfDay tza now)); [lia|reflexivity]).
  reflexivity.
Qed.

(** X13. Changing to a span that is not shorter sets the span and keeps the
    anchor and the data; it keeps the end of the window, moves its start
    back or leaves it, and keeps every entry that was shown. *)
Theorem timespan_change_nests (newSpan : TimeSpan) (s : HomeScreen) :
  getWindowLength (timespan s) <= getWindowLength newSpan ->
  let s' := handleTimespanChange newSpan s in
  timespan s' = newSpan /\
  currentDate s' = currentDate s /\
  fullData s' = fullData s /\
  windowEnd (screenWindow tza s') = windowEnd (screenWindow tza s) /\
  windowStart (screenWindow tza s') <= windowStart (screenWindow tza s) /\
  forall e, In e (screenEntries tza s) -> In e (screenEntries tza s').
Proof.
  intros Hlen. cbv zeta.
  split; [reflexivity|]. split; [reflexivity|]. split; [reflexivity|].
  assert (Hstart : windowStart (screenWindow tza (handleTimespanChange newSpan s))
                   <= windowStart (screenWindow tza s)).
  { unfold screenWindow, handleTimespanChange. cbn [timespan currentDate].
    rewrite !computeWindow_eq. cbn [windowStart]. revert Hlen.
    generalize (getWindowLength (timespan s)), (getWindowLength newSpan).
    intros l1 l2 Hlen. date_arith. }
  assert (Hend : windowEnd (screenWindow tza (handleTimespanChange newSpan s))
                 = windowEnd (screenWindow tza s)).
  { unfold screenWindow, handleTimespanChange. cbn [timespan currentDate].
    rewrite !computeWindow_eq. reflexivity. }
  split; [exact Hend|]. split; [exact Hstart|].
  intros e. unfold screenEntries. rewrite !entriesInWindow_In.
  change (fullData (handleTimespanChange newSpan s)) with (fullData s).
  rewrite Hend. intros [Hin Hwin]. split; [exact Hin | lia].
Qed.

(** X14. The earliest bound is the least of the clock and the timestamps: it is
    not after the clock, not after any entry, and it is the clock or the
    timestamp of an entry. *)
Theorem dataBoundaries_least (now : Z) (fullData : list WaterLogEntry) :
  dataBoundaries now fullData <= now /\
  (forall e, In e fullData -> dataBoundaries now fullData <= timestamp e) /\
  (dataBoundaries now fullData = now \/
   exists e, In e fullData /\ timestamp e = dataBoundaries now fullData).
Proof.
  unfold dataBoundaries.
  destruct fullData as [|e0 rest].
  - replace (Z.of_nat (length (@nil WaterLogEntry)) =? 0) with true
      by reflexivity.
    split; [lia | split; [intros e [] | left; reflexivity]].
  - replace (Z.of_nat (length (e0 :: rest)) =? 0) with false by reflexivity.
    apply (scanStep_fold (e0 :: rest) now).
Qed.

Lemma repeatBack_at_bound (n : nat) (earliest : Z) (span : TimeSpan) :
  let clamped := endOfDay tza (plusDays earliest (getWindowLength span - 1)) in
  repeatBack tza n earliest span clamped = clamped.
Proof.
  cbv zeta. unfold repeatBack. induction n as [|n IH]; [reflexivity|].
  rewrite Nat.iter_succ, IH. apply handleBack_at_bound_again.
Qed.

(** X15. Going back again and again ends at the bound: after more steps than
    there are days between the earliest bound and the anchor, the anchor is
    the earliest bound plus [windowLength - 1] days at end of day, and it
    stays there. *)
Theorem repeatBack_settles (n : nat) (earliest anchor : Z) (span : TimeSpan) :
  (Z.to_nat ((anchor - earliest) / Calendar.msPerDay + 1) < n)%nat ->
  repeatBack tza n earliest span anchor
  = endOfDay tza (plusDays earliest (getWindowLength span - 1)).
Proof.
  revert anchor. induction n as [|n IH]; intros anchor Hn; [lia|].
  unfold repeatBack in *. rewrite Nat.iter_succ_r, handleBack_eq. cbv zeta.
  pose proof (getWindowLength_pos span) as Hlen.
  match goal with
  | |- context [?a <? ?b] => destruct (Z.ltb_spec a b) as [Hlt|Hge]
  end.
  - apply (repeatBack_at_bound n).
  - apply IH. revert Hn Hge Hlen. generalize (getWindowLength span).
    intros len Hn Hge Hlen.
    unfold startOfDay, plusDays, localDay, LocalTime, Calendar.Day,
      Calendar.msPerDay in *.
    Z.div_mod_to_equations. lia.
Qed.

End ScreenProperties.

(* ===================================================================== *)
(** ** Properties of the log store                                         *)
(* ===================================================================== *)

Module LogStoreFacts.
Import LogStore.

Section MapFacts.

Context {V : Type}.
Implicit Types (m : list (string * V)) (k : string) (v : V).

Lemma mapGet_mapSet_eq m k v : mapGet k (mapSet k v m) = Some v.
Proof.
  induction m as [|[k' v'] m IH]; cbn.
  - rewrite String.eqb_refl. reflexivity.
  - destruct (String.eqb k' k) eqn:E; cbn; rewrite ?String.eqb_refl, ?E; auto.
Qed.

Lemma mapGet_mapSet_ne m k k' v :
  k <> k' -> mapGet k' (mapSet k v m) = mapGet k' m.
Proof.
  intros Hne. induction m as [|[k0 v0] m IH]; cbn.
  - apply String.eqb_neq in Hne. rewrite Hne. reflexivity.
  - destruct (String.eqb_spec k0 k) as [->|Hk0]; cbn.
    + apply String.eqb_neq in Hne. rewrite Hne. reflexivity.
    + rewrite IH. reflexivity.
Qed.

Lemma mapGet_None_keys m k : mapGet k m = None <-> ~ In k (fst <$> m).
Proof.
  induction m as [|[k' v'] m IH]; cbn; [tauto|].
  destruct (String.eqb_spec k' k) as [->|Hne].
  - split; [discriminate | intros H; exfalso; apply H; left; reflexivity].
  - rewrite IH. tauto.
Qed.

Lemma mapGet_In m k v : mapGet k m = Some v -> In (k, v) m.
Proof.
  induction m as [|[k' v'] m IH]; cbn; [discriminate|].
  destruct (String.eqb_spec k' k) as [->|Hne].
  - intros [= ->]. left. reflexivity.
  - intros H. right. apply IH, H.
Qed.

Lemma In_mapGet m k v :
  NoDup (fst <$> m) -> In (k, v) m -> mapGet k m = Some v.
Proof.
  induction m as [|[k' v'] m IH]; cbn; [intros _ []|].
  intros Hnd [Heq|Hin].
  - injection Heq as -> ->. rewrite String.eqb_refl. reflexivity.
  - apply NoDup_cons in Hnd as [Hk' Hnd].
    destruct (String.eqb_spec k' k) as [->|Hne].
    + exfalso. apply Hk'. apply list_elem_of_In.
      change k with (fst (k, v)). apply in_map. exact Hin.
    + apply IH; assumption.
Qed.

Lemma keys_mapSet_present m k v v0 :
  mapGet k m = Some v0 -> fst <$> mapSet k v m = fst <$> m.
Proof.
  induction m as [|[k' v'] m IH]; cbn; [discriminate|].
  destruct (String.eqb_spec k' k) as [->|Hne]; cbn; [reflexivity|].
  intros H. rewrite IH by exact H. reflexivity.
Qed.

Lemma keys_mapSet_fresh m k v :
  mapGet k m = None -> fst <$> mapSet k v m = (fst <$> m) ++ [k].
Proof.
  induction m as [|[k' v'] m IH]; cbn; [reflexivity|].
  destruct (String.eqb_spec k' k) as [->|Hne]; cbn; [discriminate|].
  intros H. rewrite IH by exact H. reflexivity.
Qed.

Lemma NoDup_mapSet m k v : NoDup (fst <$> m) -> NoDup (fst <$> mapSet k v m).
Proof.
  intros Hnd. destruct (mapGet k m) as [v0|] eqn:E.
  - rewrite (keys_mapSet_present m k v v0 E). exact Hnd.
  - rewrite (keys_mapSet_fresh m k v E).
    apply NoDup_app. split; [exact Hnd|]. split; [|apply NoDup_singleton].
    intros x Hx Hk. apply list_elem_of_singleton in Hk as ->.
    apply mapGet_None_keys in E. apply E, list_elem_of_In, Hx.
Qed.

Lemma mapDelete_fresh m k : mapGet k m = None -> mapDelete k m = m.
Proof.
  induction m as [|[k' v'] m IH]; cbn; [reflexivity|].
  destruct (String.eqb_spec k' k) as [->|Hne]; [discriminate|].
  intros H. rewrite IH by exact H. reflexivity.
Qed.

Lemma mapDelete_mapSet_fresh m k v :
  mapGet k m = None -> mapDelete k (mapSet k v m) = m.
Proof.
  induction m as [|[k' v'] m IH]; cbn.
  - rewrite String.eqb_refl. reflexivity.
  - destruct (String.eqb_spec k' k) as [->|Hne]; [discriminate|].
    cbn. apply String.eqb_neq in Hne. rewrite Hne.
    intros H. rewrite IH by exact H. reflexivity.
Qed.

Lemma mapGet_mapDelete_ne m k k' :
  k <> k' -> mapGet k' (mapDelete k m) = mapGet k' m.
Proof.
  intros Hne. induction m as [|[k0 v0] m IH]; cbn; [reflexivity|].
  destruct (String.eqb_spec k0 k) as [->|Hk0]; cbn.
  - apply String.eqb_neq in Hne. rewrite Hne. reflexivity.
  - rewrite IH. reflexivity.
Qed.

Lemma mapGet_mapDelete_eq m k :
  NoDup (fst <$> m) -> mapGet k (mapDelete k m) = None.
Proof.
  induction m as [|[k0 v0] m IH]; cbn; [reflexivity|].
  intros Hnd. apply NoDup_cons in Hnd as [Hk0 Hnd].
  destruct (String.eqb_spec k0 k) as [->|Hne]; cbn.
  - apply mapGet_None_keys. intros H. apply Hk0, list_elem_of_In, H.
  - apply String.eqb_neq in Hne. rewrite Hne. apply IH, Hnd.
Qed.

Lemma NoDup_mapDelete m k : NoDup (fst <$> m) -> NoDup (fst <$> mapDelete k m).
Proof.
  induction m as [|[k0 v0] m IH]; cbn; [auto|].
  intros Hnd. apply NoDup_cons in Hnd as [Hk0 Hnd].
  destruct (String.eqb_spec k0 k) as [->|Hne]; cbn; [exact Hnd|].
  apply NoDup_cons. split; [|apply IH, Hnd].
  intros Hin. apply Hk0. apply list_elem_of_In in Hin. apply list_elem_of_In.
  destruct (mapGet k0 m) as [v|] eqn:E.
  - change k0 with (fst (k0, v)). apply in_map, mapGet_In, E.
  - exfalso. apply mapGet_None_keys in E.
    assert (Hd : mapGet k0 (mapDelete k m) = None)
      by (rewrite mapGet_mapDelete_ne by congruence;
          apply mapGet_None_keys, E).
    apply mapGet_None_keys in Hd. apply Hd, Hin.
Qed.

End MapFacts.

Lemma noUser_mock : noUser MOCK_USER_ID = false.
Proof. reflexivity. Qed.

Lemma hasId_true (k : string) (e : WaterLogEntry) :
  hasId k e = true <-> id e = Some k.
Proof.
  unfold hasId. destruct (id e) as [k'|]; [|split; discriminate].
  rewrite String.eqb_eq. split; [intros ->; reflexivity | intros [= ->]; reflexivity].
Qed.

Lemma hasId_false (k : string) (e : WaterLogEntry) :
  hasId k e = false <-> id e <> Some k.
Proof.
  rewrite <- hasId_true. destruct (hasId k e); split; congruence.
Qed.

Lemma filter_all (A : Type) (f : A -> bool) (l : list A) :
  (forall x, In x l -> f x = true) -> List.filter f l = l.
Proof.
  induction l as [|x l IH]; intros H; cbn; [reflexivity|].
  rewrite (H x) by (left; reflexivity). f_equal. apply IH.
  intros y Hy. apply H. right. exact Hy.
Qed.

Lemma insertDesc_perm (x : WaterLogEntry) (l : list WaterLogEntry) :
  Permutation (insertDesc x l) (x :: l).
Proof.
  induction l as [|y l IH]; cbn; [reflexivity|].
  destruct (timestamp y >? timestamp x); [|reflexivity].
  rewrite IH. apply perm_swap.
Qed.

Lemma sortDesc_perm (l : list WaterLogEntry) : Permutation (sortDesc l) l.
Proof.
  induction l as [|x l IH]; cbn; [reflexivity|].
  rewrite insertDesc_perm, IH. reflexivity.
Qed.

Lemma insertDesc_sorted (x : WaterLogEntry) (l : list WaterLogEntry) :
  StronglySorted (fun a b => timestamp b <= timestamp a) l ->
  StronglySorted (fun a b => timestamp b <= timestamp a) (insertDesc x l).
Proof.
  induction 1 as [|y l Hs IH Hy]; cbn.
  - constructor; constructor.
  - destruct (Z.gtb_spec (timestamp y) (timestamp x)) as [Hgt|Hle].
    + constructor; [exact IH|].
      apply Forall_forall. intros z Hz. apply list_elem_of_In in Hz.
      apply (Permutation_in _ (insertDesc_perm x l)) in Hz.
      destruct Hz as [<-|Hz]; [lia|].
      rewrite Forall_forall in Hy. apply Hy, list_elem_of_In, Hz.
    + constructor; [constructor; assumption|].
      constructor; [exact Hle|].
      rewrite Forall_forall in Hy |- *. intros z Hz.
      specialize (Hy z Hz). cbn in Hy. lia.
Qed.

Lemma sortDesc_sorted (l : list WaterLogEntry) :
  StronglySorted (fun a b => timestamp b <= timestamp a) (sortDesc l).
Proof.
  induction l as [|x l IH]; cbn; [constructor|].
  apply insertDesc_sorted, IH.
Qed.

(** X16. An id that is not stored: [updateEntry] and [deleteEntry] throw
    "Entry with ID ... not found", record their failure message, end the
    loading state, and change neither the storage nor the list. *)
Theorem update_delete_missing (k : string) (entry : EntryPatch) (w : World) :
  mapGet k (mockStorage w) = None ->
  updateEntry k entry w
  = ({| mockStorage := mockStorage w;
        store := {| entries := entries (store w); isLoading := false;
                    error := Some "Failed to update entry" |} |},
     Thrown ("Entry with ID " +:+ k +:+ " not found")) /\
  deleteEntry k w
  = ({| mockStorage := mockStorage w;
        store := {| entries := entries (store w); isLoading := false;
                    error := Some "Failed to delete entry" |} |},
     Thrown ("Entry with ID " +:+ k +:+ " not found")).
Proof.
  intros Hk. unfold updateEntry, deleteEntry, mapHas. cbv zeta.
  rewrite noUser_mock, Hk. split; reflexivity.
Qed.

(** X17. [addEntry] returns the id; the new entry, stamped with the user and the
    current time, can be read back under that id and is the first of the
    list; the other bindings and the rest of the list are as before; the
    error is cleared. *)
Theorem addEntry_stores (now : Z) (entryId : string) (entry : EntryInput)
  (w : World) :
  let e := {| id := Some entryId; userId := MOCK_USER_ID;
              amountCups := inAmountCups entry; fatigue := inFatigue entry;
              timestamp := now |} in
  let w' := fst (addEntry now entryId entry w) in
  snd (addEntry now entryId entry w) = Returned entryId /\
  mapGet entryId (mockStorage w') = Some e /\
  (forall k, k <> entryId ->
     mapGet k (mockStorage w') = mapGet k (mockStorage w)) /\
  entries (store w') = e :: entries (store w) /\
  isLoading (store w') = false /\ error (store w') = None.
Proof.
  cbv zeta. unfold addEntry. cbv zeta. rewrite noUser_mock.
  cbn [fst snd mockStorage store entries isLoading error setEntries setLoading].
  split; [reflexivity|]. split; [apply mapGet_mapSet_eq|].
  split; [|auto]. intros k Hk. apply mapGet_mapSet_ne. congruence.
Qed.

(** X18. Adding an entry under an id that is new to the storage and to the list,
    and deleting that id, gives back the storage and the list as they
    were. *)
Theorem add_then_delete (now : Z) (entryId : string) (entry : EntryInput)
  (w : World) :
  mapGet entryId (mockStorage w) = None ->
  (forall e, In e (entries (store w)) -> id e <> Some entryId) ->
  deleteEntry entryId (fst (addEntry now entryId entry w))
  = ({| mockStorage := mockStorage w;
        store := {| entries := entries (store w); isLoading := false;
                    error := None |} |},
     Returned tt).
Proof.
  intros Hfresh Hids. unfold addEntry, deleteEntry, mapHas. cbv zeta.
  rewrite noUser_mock.
  cbn [fst mockStorage store entries isLoading error setEntries setLoading].
  rewrite mapGet_mapSet_eq. cbn [negb].
  rewrite mapDelete_mapSet_fresh by exact Hfresh.
  cbn [List.filter]. unfold hasId at 1. cbn [id].
  rewrite String.eqb_refl. cbn [negb].
  rewrite filter_all; [reflexivity|].
  intros e He. apply negb_true_iff, hasId_false, Hids, He.
Qed.

(** X19. [updateEntry] on a stored id replaces the given fields of that
    entry, in the storage and in every entry of the list with that id; the
    keys and their order, the other bindings, the ids and owners of the
    list and the list entries with another id stay as they were. *)
Theorem updateEntry_patches (k : string) (entry : EntryPatch)
  (existing : WaterLogEntry) (w : World) :
  mapGet k (mockStorage w) = Some existing ->
  let w' := fst (updateEntry k entry w) in
  snd (updateEntry k entry w) = Returned tt /\
  mapGet k (mockStorage w') = Some (applyPatch entry existing) /\
  (forall k', k' <> k ->
     mapGet k' (mockStorage w') = mapGet k' (mockStorage w)) /\
  fst <$> mockStorage w' = fst <$> mockStorage w /\
  (forall i e, entries (store w) !! i = Some e -> id e = Some k ->
     entries (store w') !! i = Some (applyPatch entry e)) /\
  (forall i e, entries (store w) !! i = Some e -> id e <> Some k ->
     entries (store w') !! i = Some e) /\
  length (entries (store w')) = length (entries (store w)) /\
  id <$> entries (store w') = id <$> entries (store w) /\
  userId <$> entries (store w') = userId <$> entries (store w).
Proof.
  intros Hk. cbv zeta. unfold updateEntry. cbv zeta.
  rewrite noUser_mock, Hk.
  cbn [fst snd mockStorage store entries setEntries setLoading].
  split; [reflexivity|]. split; [apply mapGet_mapSet_eq|].
  split; [intros k' Hk'; apply mapGet_mapSet_ne; congruence|].
  split; [apply (keys_mapSet_present _ _ _ existing), Hk|].
  split; [|split; [|split; [|split]]].
  - intros i e He Hid. rewrite list_lookup_fmap, He. cbn.
    apply hasId_true in Hid. rewrite Hid. reflexivity.
  - intros i e He Hid. rewrite list_lookup_fmap, He. cbn.
    apply hasId_false in Hid. rewrite Hid. reflexivity.
  - apply length_fmap.
  - rewrite <- list_fmap_compose. apply list_fmap_ext.
    intros _ e _. cbn. destruct (hasId k e); reflexivity.
  - rewrite <- list_fmap_compose. apply list_fmap_ext.
    intros _ e _. cbn. destruct (hasId k e); reflexivity.
Qed.

Lemma consistent_initial :
  consistent {| mockStorage := []; store := initialState |}.
Proof.
  split; [constructor|]. split; [intros k v; discriminate | intros e []].
Qed.

(** X20. The list and the storage stay in agreement: [updateEntry],
    [deleteEntry] and [fetchEntries] keep a consistent world consistent,
    whether they succeed or fail, and so does [addEntry] when the generated
    id is not stored yet. *)
Theorem consistent_preserved (tza now startDate0 : Z) (span : FetchSpan)
  (k entryId : string) (entry : EntryInput) (patch : EntryPatch) (w : World) :
  consistent w ->
  (mapGet entryId (mockStorage w) = None ->
   consistent (fst (addEntry now entryId entry w))) /\
  consistent (fst (updateEntry k patch w)) /\
  consistent (fst (deleteEntry k w)) /\
  consistent (fetchEntries tza now startDate0 span w).
Proof.
  intros (Hnd & Hids & Hlist). repeat split.
  - apply NoDup_mapSet, Hnd.
  - unfold addEntry. cbv zeta. rewrite noUser_mock. cbn [fst mockStorage].
    intros k0 v. destruct (String.eqb_spec entryId k0) as [<-|Hne].
    + rewrite mapGet_mapSet_eq. intros [= <-]. reflexivity.
    + rewrite mapGet_mapSet_ne by exact Hne. apply Hids.
  - unfold addEntry. cbv zeta. rewrite noUser_mock.
    cbn [fst mockStorage store entries setEntries setLoading].
    intros e [<-|He].
    + exists entryId. split; [reflexivity | apply mapGet_mapSet_eq].
    + destruct (Hlist e He) as (k0 & Hid & Hget). exists k0.
      split; [exact Hid|]. rewrite mapGet_mapSet_ne; [exact Hget|].
      intros ->. congruence.
  - unfold updateEntry. cbv zeta. rewrite noUser_mock.
    destruct (mapGet k (mockStorage w)); cbn [fst mockStorage];
      [apply NoDup_mapSet|]; exact Hnd.
  - unfold updateEntry. cbv zeta. rewrite noUser_mock.
    destruct (mapGet k (mockStorage w)) as [existing|] eqn:Hk;
      cbn [fst mockStorage]; [|exact Hids].
    intros k0 v. destruct (String.eqb_spec k k0) as [<-|Hne].
    + rewrite mapGet_mapSet_eq. intros [= <-]. cbn [applyPatch id].
      apply Hids, Hk.
    + rewrite mapGet_mapSet_ne by exact Hne. apply Hids.
  - unfold updateEntry. cbv zeta. rewrite noUser_mock.
    destruct (mapGet k (mockStorage w)) as [existing|] eqn:Hk;
      cbn [fst mockStorage store entries setEntries setLoading setFailed];
      [|exact Hlist].
    intros e' He'. apply list_elem_of_In, list_elem_of_fmap in He'.
    destruct He' as (e & -> & He). apply list_elem_of_In in He.
    destruct (Hlist e He) as (k0 & Hid & Hget).
    destruct (hasId k e) eqn:Hhas.
    + apply hasId_true in Hhas. assert (k0 = k) by congruence. subst k0.
      assert (e = existing) by congruence. subst e.
      exists k. split; [exact Hid | apply mapGet_mapSet_eq].
    + apply hasId_false in Hhas. exists k0. split; [exact Hid|].
      rewrite mapGet_mapSet_ne; [exact Hget | congruence].
  - unfold deleteEntry. cbv zeta. rewrite noUser_mock.
    destruct (negb (mapHas k (mockStorage w))); cbn [fst mockStorage];
      [|apply NoDup_mapDelete]; exact Hnd.
  - unfold deleteEntry. cbv zeta. rewrite noUser_mock.
    destruct (negb (mapHas k (mockStorage w))); cbn [fst mockStorage];
      [exact Hids|].
    intros k0 v. destruct (String.eqb_spec k k0) as [<-|Hne].
    + rewrite mapGet_mapDelete_eq by exact Hnd. discriminate.
    + rewrite mapGet_mapDelete_ne by exact Hne. apply Hids.
  - unfold deleteEntry. cbv zeta. rewrite noUser_mock.
    destruct (negb (mapHas k (mockStorage w)));
      cbn [fst mockStorage store entries setEntries setLoading setFailed];
      [exact Hlist|].
    intros e He. apply filter_In in He as [He Hhas].
    apply negb_true_iff, hasId_false in Hhas.
    destruct (Hlist e He) as (k0 & Hid & Hget). exists k0.
    split; [exact Hid|]. rewrite mapGet_mapDelete_ne; [exact Hget | congruence].
  - unfold fetchEntries. cbv zeta. rewrite noUser_mock. exact Hnd.
  - unfold fetchEntries. cbv zeta. rewrite noUser_mock. exact Hids.
  - unfold fetchEntries. cbv zeta. rewrite noUser_mock.
    cbn [mockStorage store entries setEntries setLoading].
    intros e He. apply (Permutation_in _ (sortDesc_perm _)) in He.
    apply filter_In in He as [He _]. unfold mapValues in He.
    apply in_map_iff in He as ([k0 e0] & Heq & Hin). cbn in Heq. subst e0.
    pose proof (In_mapGet _ _ _ Hnd Hin) as Hget.
    exists k0. split; [apply Hids, Hget | exact Hget].
Qed.

(** X21. [fetchEntries] in the vocabulary of days: with both clock readings on
    the same local day, the list becomes the stored entries of the user that
    are not older than the start (the local midnight of today for Day, the
    current time minus 7, 14 or 30 days otherwise), the newest first; the
    storage is not changed and the error is cleared. *)
Theorem fetchEntries_spec (tza now startDate0 : Z) (span : FetchSpan)
  (w : World) :
  localDay tza startDate0 = localDay tza now ->
  let start :=
    match span with
    | day => startOfDay tza startDate0
    | week => plusDays startDate0 (- 7)
    | twoweeks => plusDays startDate0 (- 14)
    | month => plusDays startDate0 (- 30)
    end in
  let w' := fetchEntries tza now startDate0 span w in
  mockStorage w' = mockStorage w /\
  isLoading (store w') = false /\ error (store w') = None /\
  Permutation (entries (store w'))
    (List.filter
       (fun e => String.eqb (userId e) MOCK_USER_ID && (start <=? timestamp e))
       (mapValues (mockStorage w))) /\
  StronglySorted (fun a b => timestamp b <= timestamp a) (entries (store w')).
Proof.
  intros Hday. cbv zeta. unfold fetchEntries. cbv zeta. rewrite noUser_mock.
  cbn [mockStorage store entries isLoading error setEntries setLoading].
  repeat split; [|apply sortDesc_sorted].
  rewrite sortDesc_perm.
  assert (Hstart : fetchStart tza now startDate0 span =
                   match span with
                   | day => startOfDay tza startDate0
                   | week => plusDays startDate0 (- 7)
                   | twoweeks => plusDays startDate0 (- 14)
                   | month => plusDays startDate0 (- 30)
                   end).
  { destruct span; cbn [fetchStart].
    - apply setHours_startOfDay.
    - apply (setDate_getDate_of tza startDate0 now (- 7)). congruence.
    - apply (setDate_getDate_of tza startDate0 now (- 14)). congruence.
    - apply (setDate_getDate_of tza startDate0 now (- 30)). congruence. }
  rewrite Hstart.
  erewrite filter_ext; [reflexivity|].
  intros e. cbn. f_equal. apply Z.geb_leb.
Qed.

(** *** The properties of the store at concrete inputs *)

Import Sample.

Lemma sampleWorld_consistent : consistent sampleWorld.
Proof.
  split; [|split].
  - cbn. apply NoDup_cons. split; [|apply NoDup_singleton].
    intros H. apply list_elem_of_singleton in H. discriminate.
  - intros k v H. unfold sampleWorld in H. cbn [mockStorage mapGet] in H.
    destruct (String.eqb_spec "a" k) as [<-|_];
      [injection H as <-; reflexivity|].
    destruct (String.eqb_spec "b" k) as [<-|_];
      [injection H as <-; reflexivity|].
    discriminate H.
  - intros e [<-|[]]. exists "b"%string. split; reflexivity.
Qed.

Lemma update_delete_missing_witness :
  snd (updateEntry "zz" samplePatch sampleWorld)
  = Thrown "Entry with ID zz not found" /\
  fst (deleteEntry "zz" sampleWorld)
  = {| mockStorage := mockStorage sampleWorld;
       store := {| entries := entries (store sampleWorld); isLoading := false;
                   error := Some "Failed to delete entry" |} |}.
Proof.
  assert (H : mapGet "zz" (mockStorage sampleWorld) = None) by reflexivity.
  destruct (update_delete_missing "zz" samplePatch sampleWorld H) as [Hu Hd].
  rewrite Hu, Hd. split; reflexivity.
Defined.

Lemma addEntry_stores_witness :
  mapGet "a"
    (mockStorage
       (fst (addEntry 5 "c" {| inAmountCups := 2; inFatigue := 4 |}
               sampleWorld)))
  = mapGet "a" (mockStorage sampleWorld).
Proof.
  destruct (addEntry_stores 5 "c" {| inAmountCups := 2; inFatigue := 4 |}
              sampleWorld) as (_ & _ & Hother & _).
  apply Hother. discriminate.
Defined.

Lemma add_then_delete_witness :
  deleteEntry "c"
    (fst (addEntry 5 "c" {| inAmountCups := 2; inFatigue := 4 |} sampleWorld))
  = ({| mockStorage := mockStorage sampleWorld;
        store := {| entries := entries (store sampleWorld);
                    isLoading := false; error := None |} |},
     Returned tt).
Proof.
  assert (H : mapGet "c" (mockStorage sampleWorld) = None) by reflexivity.
  assert (Hids : forall e, In e (entries (store sampleWorld)) ->
                   id e <> Some "c"%string)
    by (intros e [<-|[]]; discriminate).
  exact (add_then_delete 5 "c" _ sampleWorld H Hids).
Defined.

Lemma updateEntry_patches_witness :
  mapGet "b" (mockStorage (fst (updateEntry "b" samplePatch sampleWorld)))
  = Some (applyPatch samplePatch (stored "b" (at_ 19738 9))) /\
  entries (store (fst (updateEntry "b" samplePatch sampleWorld))) !! 0%nat
  = Some (applyPatch samplePatch (stored "b" (at_ 19738 9))).
Proof.
  assert (H : mapGet "b" (mockStorage sampleWorld)
              = Some (stored "b" (at_ 19738 9))) by reflexivity.
  destruct (updateEntry_patches "b" samplePatch _ sampleWorld H)
    as (_ & Hstored & _ & _ & Hlist & _).
  split; [exact Hstored|].
  apply (Hlist 0%nat (stored "b" (at_ 19738 9))); reflexivity.
Defined.

Lemma consistent_preserved_witness :
  consistent (fst (updateEntry "b" samplePatch sampleWorld)) /\
  consistent (fst (deleteEntry "b" sampleWorld)).
Proof.
  destruct (consistent_preserved 0 0 0 week "b" "c"
              {| inAmountCups := 2; inFatigue := 4 |} samplePatch sampleWorld
              sampleWorld_consistent) as (_ & Hu & Hd & _).
  split; [exact Hu | exact Hd].
Defined.

Lemma fetchEntries_spec_witness :
  StronglySorted (fun a b => timestamp b <= timestamp a)
    (entries (store (fetchEntries 0 (at_ 19738 12) (at_ 19738 12) week
                       sampleWorld))).
Proof.
  assert (H : localDay 0 (at_ 19738 12) = localDay 0 (at_ 19738 12))
    by reflexivity.
  exact (proj2 (proj2 (proj2 (proj2
    (fetchEntries_spec 0 (at_ 19738 12) (at_ 19738 12) week sampleWorld H))))).
Defined.

End LogStoreFacts.

(* ===================================================================== *)
(** ** The further properties at concrete inputs                           *)
(* ===================================================================== *)

Lemma hour_bucket_content_witness :
  waterData (processEntriesForChart 0 0 threeEntries day) !! 10%nat
  = Some (sumQ [1; 2]%Q) /\
  fatigueData (processEntriesForChart 0 0 threeEntries day) !! 10%nat
  = Some (meanOrZero [2; 4]%Q).
Proof.
  assert (H : (10 < 24)%nat) by lia.
  exact (hour_bucket_content 0 0 threeEntries 10 H).
Defined.

Lemma day_bucket_content_witness :
  waterData (groupEntriesByDay 0 0 threeEntries 7) !! 6%nat
  = Some (sumQ [1; 3 # 2]%Q) /\
  fatigueData (groupEntriesByDay 0 0 threeEntries 7) !! 6%nat
  = Some (meanOrZero [2; 5]%Q).
Proof.
  assert (H : Z.of_nat 6 < effectiveDays 7) by (vm_compute; reflexivity).
  exact (day_bucket_content 0 0 7 threeEntries 6 H).
Defined.

Lemma chart_values_in_range_witness :
  exists v : Q,
    fatigueData (processEntriesForChart 0 0 threeEntries week) !! 6%nat = Some v /\
    (v = 0%Q \/ ((1 <= v)%Q /\ (v <= 5)%Q)).
Proof.
  assert (H : forall e, In e threeEntries ->
                (0 <= amountCups e)%Q /\ (1 <= fatigue e)%Q /\ (fatigue e <= 5)%Q).
  { intros e [<-|[<-|[<-|[]]]]; cbn; repeat split; discriminate. }
  eexists. split; [vm_compute; reflexivity|].
  apply (proj2 (chart_values_in_range 0 0 threeEntries week H) 6%nat).
  vm_compute. reflexivity.
Defined.

Lemma handleForward_bounded_witness :
  lastMs 19790 < handleForward 0 (at_ 19800 3) week (lastMs 19790)
  <= endOfDay 0 (at_ 19800 3).
Proof.
  destruct (handleForward_bounded 0 (at_ 19800 3) (lastMs 19790) week)
    as [Hle Hlt].
  split; [apply Hlt; vm_compute; reflexivity | exact Hle].
Defined.

Lemma anchor_stays_end_of_day_witness :
  localTimeOfDay 0 (handleBack 0 (at_ 19732 10) week (lastMs 19745))
  = Calendar.msPerDay - 1 /\
  localTimeOfDay 0 (handleForward 0 (at_ 19800 3) week (lastMs 19745))
  = Calendar.msPerDay - 1 /\
  windowEnd (computeWindow 0 (lastMs 19745) week) = lastMs 19745.
Proof.
  assert (H : localTimeOfDay 0 (lastMs 19745) = Calendar.msPerDay - 1)
    by (vm_compute; reflexivity).
  exact (anchor_stays_end_of_day 0 (at_ 19800 3) (at_ 19732 10)
           (lastMs 19745) week H).
Defined.

Lemma pressBack_previous_window_witness :
  windowEnd (screenWindow 0 (pressBack 0 (at_ 19738 12) sampleScreen)) + 1
  = windowStart (screenWindow 0 sampleScreen).
Proof.
  assert (H : screenCanGoBack 0 (at_ 19738 12) sampleScreen = true)
    by (vm_compute; reflexivity).
  exact (proj1 (pressBack_previous_window 0 (at_ 19738 12) sampleScreen H)).
Defined.

Lemma pressForward_next_window_witness :
  let s := {| fullData := threeEntries; timespan := week;
              currentDate := lastMs 19730 |} in
  windowStart (screenWindow 0 (pressForward 0 (at_ 19738 12) s))
  = windowEnd (screenWindow 0 s) + 1.
Proof.
  intros s.
  assert (H : canGoForward 0 (at_ 19738 12) (currentDate s) = true)
    by (vm_compute; reflexivity).
  destruct (pressForward_next_window 0 (at_ 19738 12) s H) as (_ & Hnext & _).
  apply Hnext. vm_compute. discriminate.
Defined.

Lemma pressBack_pressForward_witness :
  pressForward 0 (at_ 19738 12) (pressBack 0 (at_ 19738 12) sampleScreen)
  = sampleScreen.
Proof.
  assert (H : screenCanGoBack 0 (at_ 19738 12) sampleScreen = true)
    by (vm_compute; reflexivity).
  assert (Hnow : currentDate sampleScreen <= endOfDay 0 (at_ 19738 12))
    by (vm_compute; discriminate).
  exact (pressBack_pressForward 0 (at_ 19738 12) sampleScreen H Hnow).
Defined.

Lemma timespan_change_nests_witness :
  currentDate (handleTimespanChange month sampleScreen)
  = currentDate sampleScreen /\
  windowStart (screenWindow 0 (handleTimespanChange month sampleScreen))
  <= windowStart (screenWindow 0 sampleScreen).
Proof.
  assert (H : getWindowLength (timespan sampleScreen) <= getWindowLength month)
    by (vm_compute; discriminate).
  destruct (timespan_change_nests 0 month sampleScreen H)
    as (_ & Hanchor & _ & _ & Hstart & _).
  split; [exact Hanchor | exact Hstart].
Defined.

Lemma dataBoundaries_least_witness :
  dataBoundaries (at_ 19800 3) threeEntries <= at_ 19735 10.
Proof.
  destruct (dataBoundaries_least (at_ 19800 3) threeEntries) as (_ & Hall & _).
  apply (Hall {| amountCups := 2; fatigue := 4; timestamp := at_ 19735 10 |}).
  right. left. reflexivity.
Defined.

Lemma repeatBack_settles_witness :
  repeatBack 0 5 (at_ 19732 10) week (lastMs 19735) = lastMs 19738.
Proof.
  assert (H : (Z.to_nat ((lastMs 19735 - at_ 19732 10) / Calendar.msPerDay + 1)
               < 5)%nat) by (vm_compute; lia).
  rewrite (repeatBack_settles 0 5 (at_ 19732 10) (lastMs 19735) week H).
  vm_compute. reflexivity.
Defined.

(* ===================================================================== *)
(** ** Properties of the generated data                                    *)
(* ===================================================================== *)

Section DemoData.

Variable tza : Z.
Variable rand : nat -> Q.
Hypothesis rand_range : forall i, (0 <= rand i)%Q /\ (rand i < 1)%Q.

Lemma Qfloor_scaled (r : Q) (k : Z) :
  (0 <= r)%Q -> (r < 1)%Q -> 0 < k ->
  0 <= Qfloor (r * inject_Z k) < k.
Proof.
  intros H0 H1 Hk.
  assert (Hk' : (0 < inject_Z k)%Q)
    by (change 0%Q with (inject_Z 0); rewrite <- Zlt_Qlt; exact Hk).
  split.
  - change 0 with (Qfloor 0). apply Qfloor_resp_le. nra.
  - rewrite Zlt_Qlt. eapply Qle_lt_trans; [apply Qfloor_le|]. nra.
Qed.

Lemma toFixed1_range (r : Q) :
  (0 <= r)%Q -> (r < 1)%Q ->
  (3 # 10 <= toFixed1 (r * (27 # 10) + (3 # 10)))%Q /\
  (toFixed1 (r * (27 # 10) + (3 # 10)) <= 3)%Q.
Proof.
  intros H0 H1. unfold toFixed1.
  set (y := ((r * (27 # 10) + (3 # 10)) * 10 + (1 # 2))%Q).
  assert (Hlo : 3 <= Qfloor y).
  { change 3 with (Qfloor (7 # 2)). apply Qfloor_resp_le. subst y. lra. }
  assert (Hhi : Qfloor y <= 30).
  { change 30 with (Qfloor (61 # 2)). apply Qfloor_resp_le. subst y. lra. }
  rewrite Zle_Qle in Hlo, Hhi.
  change (inject_Z 3) with 3%Q in Hlo. change (inject_Z 30) with 30%Q in Hhi.
  split.
  - apply Qle_shift_div_l; [reflexivity|]. lra.
  - apply Qle_shift_div_r; [reflexivity|]. lra.
Qed.

Lemma demoDayEntries_ok (dayDate : Z) (count : nat) : forall i : nat,
  localTimeOfDay tza dayDate = 0 ->
  Forall (demoEntryOn dayDate) (fst (demoDayEntries tza rand dayDate count i))
  /\ length (fst (demoDayEntries tza rand dayDate count i)) = count.
Proof.
  induction count as [|count IH]; intros i Hmid; cbn [demoDayEntries].
  - split; [constructor | reflexivity].
  - destruct (IH (i + 4)%nat Hmid) as [IHok IHlen].
    destruct (demoDayEntries tza rand dayDate count (i + 4)) as [rest j].
    cbn [fst] in *. split; [|cbn [length]; rewrite IHlen; reflexivity].
    constructor; [|exact IHok].
    destruct (rand_range i) as [Ha0 Ha1].
    destruct (rand_range (i + 1)) as [Hb0 Hb1].
    destruct (rand_range (i + 2)) as [Hc0 Hc1].
    destruct (rand_range (i + 3)) as [Hd0 Hd1].
    pose proof (Qfloor_scaled (rand i) 24 Ha0 Ha1 eq_refl) as Hh.
    pose proof (Qfloor_scaled (rand (i + 1)) 60 Hb0 Hb1 eq_refl) as Hm.
    pose proof (Qfloor_scaled (rand (i + 3)) 5 Hd0 Hd1 eq_refl) as Hf.
    change (inject_Z 24) with 24%Q in Hh. change (inject_Z 60) with 60%Q in Hm.
    change (inject_Z 5) with 5%Q in Hf.
    unfold demoEntryOn. cbn [timestamp fatigue amountCups].
    set (h := Qfloor (rand i * 24)) in *.
    set (m := Qfloor (rand (i + 1)%nat * 60)) in *.
    assert (Hts : setHours tza dayDate h m 0 0
                  = dayDate + h * Calendar.msPerHour + m * Calendar.msPerMinute).
    { unfold setHours. clearbody h m. date_arith. }
    rewrite Hts. clearbody h m.
    split; [unfold Calendar.msPerHour, Calendar.msPerMinute, Calendar.msPerDay; lia|].
    split.
    { unfold Calendar.msPerHour, Calendar.msPerMinute.
      Z.div_mod_to_equations. lia. }
    split.
    { eexists. split; [reflexivity | lia]. }
    apply toFixed1_range; assumption.
Qed.

Lemma demoDayEntries_count (r : Q) :
  (0 <= r)%Q -> (r < 1)%Q -> (2 <= Z.to_nat (Qfloor (r * 9) + 2) <= 10)%nat.
Proof.
  intros H0 H1. pose proof (Qfloor_scaled r 9 H0 H1 eq_refl) as H.
  change (inject_Z 9) with 9%Q in H. lia.
Qed.

Lemma demoDays_ok (now : Z) (dayOffsets : list Z) : forall i : nat,
  Forall (fun dayOffset => 0 <= dayOffset <= 59) dayOffsets ->
  Forall (demoEntryOK tza now)
    (demoDays tza rand (endOfDay tza now) dayOffsets i) /\
  (length (demoDays tza rand (endOfDay tza now) dayOffsets i)
   <= 10 * length dayOffsets)%nat.
Proof.
  induction dayOffsets as [|dayOffset rest IH]; intros i Hoff;
    cbn [demoDays].
  - split; [constructor | cbn; lia].
  - apply Forall_cons in Hoff as [Hd Hrest].
    destruct (Qltb (rand i) (1 # 4)).
    + destruct (IH (i + 1)%nat Hrest) as [IHok IHlen].
      split; [exact IHok | cbn [length]; lia].
    + rewrite setDate_getDate_minus, setHours_startOfDay.
      set (dayDate := startOfDay tza (plusDays (endOfDay tza now) (- dayOffset))).
      assert (Hmid : localTimeOfDay tza dayDate = 0)
        by (subst dayDate; date_arith).
      destruct (rand_range (i + 1)) as [H0 H1].
      pose proof (demoDayEntries_count _ H0 H1) as Hcount.
      destruct (demoDayEntries_ok dayDate
                  (Z.to_nat (Qfloor (rand (i + 1)%nat * 9) + 2))
                  (i + 2)%nat Hmid) as [Hok Hlen].
      destruct (demoDayEntries tza rand dayDate
                  (Z.to_nat (Qfloor (rand (i + 1)%nat * 9) + 2)) (i + 2))
        as [es j].
      cbn [fst] in Hok, Hlen.
      destruct (IH j Hrest) as [IHok IHlen].
      split; [|rewrite length_app; cbn [length]; lia].
      apply Forall_app. split; [|exact IHok].
      eapply Forall_impl; [exact Hok|].
      intros e (Hts & Hmin & Hfat & Hamt). split; [|split; [|split]];
        [| |exact Hfat|exact Hamt].
      * subst dayDate. revert Hts Hd. date_arith.
      * revert Hmin Hts Hmid. generalize dayDate. intros dd.
        unfold localTimeOfDay, LocalTime, Calendar.TimeWithinDay,
          Calendar.msPerDay, Calendar.msPerMinute.
        intros Hmin Hts Hmid. Z.div_mod_to_equations. lia.
Qed.

Lemma insertAsc_perm (x : WaterLogEntry) (l : list WaterLogEntry) :
  Permutation (insertAsc x l) (x :: l).
Proof.
  induction l as [|y l IH]; cbn; [reflexivity|].
  destruct (timestamp y <? timestamp x); [|reflexivity].
  rewrite IH. apply perm_swap.
Qed.

Lemma sortAsc_perm (l : list WaterLogEntry) : Permutation (sortAsc l) l.
Proof.
  induction l as [|x l IH]; cbn; [reflexivity|].
  rewrite insertAsc_perm, IH. reflexivity.
Qed.

Lemma insertAsc_sorted (x : WaterLogEntry) (l : list WaterLogEntry) :
  StronglySorted (fun a b => timestamp a <= timestamp b) l ->
  StronglySorted (fun a b => timestamp a <= timestamp b) (insertAsc x l).
Proof.
  induction 1 as [|y l Hs IH Hy]; cbn.
  - constructor; constructor.
  - destruct (Z.ltb_spec (timestamp y) (timestamp x)) as [Hlt|Hge].
    + constructor; [exact IH|].
      apply Forall_forall. intros z Hz. apply list_elem_of_In in Hz.
      apply (Permutation_in _ (insertAsc_perm x l)) in Hz.
      destruct Hz as [<-|Hz]; [lia|].
      rewrite Forall_forall in Hy. apply Hy, list_elem_of_In, Hz.
    + constructor; [constructor; assumption|].
      constructor; [exact Hge|].
      rewrite Forall_forall in Hy |- *. intros z Hz.
      specialize (Hy z Hz). cbn in Hy. lia.
Qed.

Lemma sortAsc_sorted (l : list WaterLogEntry) :
  StronglySorted (fun a b => timestamp a <= timestamp b) (sortAsc l).
Proof.
  induction l as [|x l IH]; cbn; [constructor|].
  apply insertAsc_sorted, IH.
Qed.

Lemma generateFullDemoData_ok (now : Z) :
  Forall (demoEntryOK tza now) (generateFullDemoData tza rand now) /\
  (length (generateFullDemoData tza rand now) <= 600)%nat.
Proof.
  unfold generateFullDemoData. cbv zeta. rewrite setHours_endOfDay.
  destruct (demoDays_ok now (seqZ 0 60) 0) as [Hok Hlen].
  { apply Forall_forall. intros d Hd. apply elem_of_seqZ in Hd. lia. }
  rewrite length_seqZ in Hlen. split.
  - rewrite sortAsc_perm. exact Hok.
  - rewrite (Permutation_length (sortAsc_perm _)). lia.
Qed.

(** X22. Whatever the random draws, [generateFullDemoData] returns at most 600
    entries in ascending order of time; each lies on a whole minute between
    the local midnight 59 days before today and the end of today, with a
    whole fatigue level from 1 to 5 and an amount from 0.3 to 3. *)
Theorem generateFullDemoData_entries (now : Z) :
  let data := generateFullDemoData tza rand now in
  (length data <= 600)%nat /\
  StronglySorted (fun a b => timestamp a <= timestamp b) data /\
  forall e, In e data ->
    plusDays (startOfDay tza now) (- 59) <= timestamp e <= endOfDay tza now /\
    localTimeOfDay tza (timestamp e) mod Calendar.msPerMinute = 0 /\
    (exists f : Z, fatigue e = inject_Z f /\ 1 <= f <= 5) /\
    (3 # 10 <= amountCups e)%Q /\ (amountCups e <= 3)%Q.
Proof.
  cbv zeta. destruct (generateFullDemoData_ok now) as [Hok Hlen].
  split; [exact Hlen|]. split; [apply sortAsc_sorted|].
  intros e He. rewrite Forall_forall in Hok.
  apply (Hok e), list_elem_of_In, He.
Qed.

(** X23. How far back the generated data lets one go ([nowB], the clock
    reading of [dataBoundaries], is not before [now], the one of the
    generation): whenever the back arrow is enabled, the window shown after
    the press does not start before the local midnight 59 days before the
    day of generation; and with the anchor [j] whole windows before the end
    of that day, the back arrow is enabled only if [j + 2] windows fit into
    60 days. *)
Theorem demo_navigation_depth (now nowB : Z) (s : HomeScreen) :
  now <= nowB ->
  fullData s = generateFullDemoData tza rand now ->
  screenCanGoBack tza nowB s = true ->
  plusDays (startOfDay tza now) (- 59)
  <= windowStart (screenWindow tza (pressBack tza nowB s)) /\
  forall j : Z,
    0 <= j ->
    currentDate s
    = plusDays (endOfDay tza now) (- (j * getWindowLength (timespan s))) ->
    (j + 2) * getWindowLength (timespan s) <= 60.
Proof.
  intros Hclock Hdata Hcan.
  assert (Hearliest : plusDays (startOfDay tza now) (- 59)
                      <= dataBoundaries nowB (fullData s)).
  { rewrite Hdata. unfold dataBoundaries.
    destruct (Z.of_nat (length (generateFullDemoData tza rand now)) =? 0);
      [revert Hclock; date_arith|].
    destruct (scanStep_fold (generateFullDemoData tza rand now) nowB)
      as (_ & _ & [->|(e & He & <-)]); [revert Hclock; date_arith|].
    destruct (generateFullDemoData_ok now) as [Hok _].
    rewrite Forall_forall in Hok.
    apply (Hok e), list_elem_of_In, He. }
  unfold pressBack. rewrite Hcan. unfold screenCanGoBack in Hcan.
  rewrite (handleBack_when_enabled tza _ _ _ _ Hcan).
  unfold screenWindow in *. cbn [fullData timespan currentDate].
  rewrite canGoBack_eq in Hcan.
  destruct (Z.of_nat (length (fullData s)) =? 0); [discriminate|].
  apply Z.geb_le in Hcan. revert Hcan Hearliest. rewrite !computeWindow_eq.
  cbn [windowStart].
  pose proof (getWindowLength_pos (timespan s)) as Hlen. revert Hlen.
  generalize (getWindowLength (timespan s)), (currentDate s),
    (dataBoundaries nowB (fullData s)).
  intros len anchor earliest Hlen Hcan Hearliest. split.
  - revert Hcan Hearliest Hlen. date_arith.
  - intros j Hj ->. revert Hcan Hearliest Hlen Hj. date_arith.
Qed.

(** X24. After [handleGenerateSampleData], the generator having read the clock
    no later than the reset: the span is kept, the window ends with today,
    no generated entry lies after the window, and as long as the clock stays
    on that day the forward arrow is disabled and does nothing. *)
Theorem handleGenerateSampleData_view (now0 now1 nowF : Z) (s : HomeScreen) :
  now0 <= now1 -> localDay tza nowF = localDay tza now1 ->
  let s' := handleGenerateSampleData tza rand now0 now1 s in
  timespan s' = timespan s /\
  windowEnd (screenWindow tza s') = endOfDay tza now1 /\
  (forall e, In e (fullData s') ->
     timestamp e <= windowEnd (screenWindow tza s')) /\
  canGoForward tza nowF (currentDate s') = false /\
  pressForward tza nowF s' = s'.
Proof.
  intros Hclock Hday. cbv zeta.
  unfold handleGenerateSampleData, screenWindow, pressForward, canGoForward.
  cbv zeta. cbn [fullData timespan currentDate].
  rewrite computeWindow_eq, !setHours_endOfDay. cbn [windowEnd].
  assert (Hend : endOfDay tza (endOfDay tza now1) = endOfDay tza now1)
    by date_arith.
  assert (Hsame : endOfDay tza nowF = endOfDay tza now1)
    by (revert Hday; date_arith).
  rewrite Hend, Hsame, Z.ltb_irrefl.
  split; [reflexivity|]. split; [reflexivity|].
  split; [|split; reflexivity].
  intros e He. destruct (generateFullDemoData_ok now0) as [Hok _].
  rewrite Forall_forall in Hok.
  destruct (Hok e (proj2 (list_elem_of_In _ _) He)) as ((_ & Hle) & _).
  revert Hle Hclock. generalize (timestamp e). intros t. date_arith.
Qed.

End DemoData.

Lemma sampleRand_range (i : nat) :
  (0 <= Sample.sampleRand i)%Q /\ (Sample.sampleRand i < 1)%Q.
Proof.
  unfold Sample.sampleRand, Qle, Qlt. cbn [Qnum Qden].
  pose proof (Z.mod_pos_bound (Z.of_nat i * 37 + 13) 100 eq_refl). lia.
Qed.

Lemma generateFullDemoData_entries_witness :
  (length (generateFullDemoData 0 Sample.sampleRand (Sample.at_ 19738 12))
   <= 600)%nat.
Proof.
  exact (proj1 (generateFullDemoData_entries 0 Sample.sampleRand
                  sampleRand_range (Sample.at_ 19738 12))).
Defined.

Lemma handleGenerateSampleData_view_witness :
  pressForward 0 (Sample.at_ 19738 20)
    (handleGenerateSampleData 0 Sample.sampleRand (Sample.at_ 19738 12)
       (Sample.at_ 19738 12) Sample.sampleScreen)
  = handleGenerateSampleData 0 Sample.sampleRand (Sample.at_ 19738 12)
      (Sample.at_ 19738 12) Sample.sampleScreen.
Proof.
  assert (Hclock : Sample.at_ 19738 12 <= Sample.at_ 19738 12) by lia.
  assert (Hday : localDay 0 (Sample.at_ 19738 20)
                 = localDay 0 (Sample.at_ 19738 12)) by reflexivity.
  exact (proj2 (proj2 (proj2 (proj2
    (handleGenerateSampleData_view 0 Sample.sampleRand sampleRand_range
       (Sample.at_ 19738 12) (Sample.at_ 19738 12) (Sample.at_ 19738 20)
       Sample.sampleScreen Hclock Hday))))).
Defined.

Lemma demo_navigation_depth_witness :
  (3 + 2) * getWindowLength week <= 60.
Proof.
  pose (s := {| fullData := generateFullDemoData 0 Sample.sampleRand
                              (Sample.at_ 19738 12);
                timespan := week;
                currentDate :=
                  plusDays (endOfDay 0 (Sample.at_ 19738 12))
                    (- (3 * getWindowLength week)) |}).
  assert (Hclock : Sample.at_ 19738 12 <= Sample.at_ 19738 15)
    by (vm_compute; discriminate).
  assert (Hdata : fullData s
                  = generateFullDemoData 0 Sample.sampleRand
                      (Sample.at_ 19738 12)) by reflexivity.
  assert (Hcan : screenCanGoBack 0 (Sample.at_ 19738 15) s = true)
    by (vm_compute; reflexivity).
  assert (Hj : 0 <= 3) by lia.
  assert (Hanchor : currentDate s
                    = plusDays (endOfDay 0 (Sample.at_ 19738 12))
                        (- (3 * getWindowLength (timespan s))))
    by reflexivity.
  exact (proj2
           (demo_navigation_depth 0 Sample.sampleRand sampleRand_range
              (Sample.at_ 19738 12) (Sample.at_ 19738 15) s Hclock Hdata
              Hcan) 3 Hj Hanchor).
Defined.

(* ===================================================================== *)
(** ** Properties of the seeding                                           *)
(* ===================================================================== *)

Module SeedFacts.
Import LogStore Seed.

Lemma randomInt_range (r : Q) (min max : Z) :
  (0 <= r)%Q -> (r < 1)%Q -> min <= max ->
  min <= randomInt r min max <= max.
Proof.
  intros H0 H1 Hmm. unfold randomInt.
  assert (Hn : (0 < inject_Z (max - min + 1))%Q)
    by (change 0%Q with (inject_Z 0); rewrite <- Zlt_Qlt; lia).
  split.
  - rewrite <- (Qfloor_Z min) at 1. apply Qfloor_resp_le. nra.
  - apply Z.lt_succ_r. rewrite Zlt_Qlt.
    eapply Qle_lt_trans; [apply Qfloor_le|].
    replace (Z.succ max) with (max - min + 1 + min) by lia.
    rewrite (inject_Z_plus (max - min + 1) min). nra.
Qed.

Lemma addEntry_entries (now : Z) (entryId : string) (entry : EntryInput)
  (w : World) :
  entries (store (fst (addEntry now entryId entry w)))
  = {| id := Some entryId; userId := MOCK_USER_ID;
       amountCups := inAmountCups entry; fatigue := inFatigue entry;
       timestamp := now |} :: entries (store w).
Proof. unfold addEntry. cbv zeta. rewrite LogStoreFacts.noUser_mock. reflexivity. Qed.

Section Streams.

Variable tza : Z.
Variable rand : nat -> Q.
Hypothesis rand_range : forall i, (0 <= rand i)%Q /\ (rand i < 1)%Q.
Variable clock : nat -> Z.
Variable ids : nat -> string.

Lemma seedEntries_adds (date : Z) (numEntries : nat) : forall p : Progress,
  let p' := seedEntries tza rand clock ids date numEntries p in
  exists new,
    entries (store (world p')) = new ++ entries (store (world p)) /\
    length new = numEntries /\
    calls p' = (calls p + numEntries)%nat /\
    forall j e, rev new !! j = Some e -> seeded clock ids (calls p + j) e.
Proof.
  induction numEntries as [|n IH]; intros p; cbv zeta; cbn [seedEntries].
  - exists []. split; [reflexivity|]. split; [reflexivity|]. split; [lia|].
    intros j e. cbn [rev]. rewrite lookup_nil. discriminate.
  - cbv zeta.
    match goal with
    | |- context [seedEntries tza rand clock ids date n ?q] =>
        destruct (IH q) as (new & Hent & Hlen & Hcalls & Hst);
        cbv zeta in Hent, Hcalls
    end.
    cbn [world calls] in Hent, Hcalls, Hst.
    rewrite addEntry_entries in Hent.
    eexists (new ++ [_]). split; [rewrite Hent, <- app_assoc; reflexivity|].
    split; [rewrite length_app; cbn [length]; lia|].
    split; [rewrite Hcalls; lia|].
    intros j e. rewrite rev_app_distr. cbn [rev app].
    destruct j as [|j]; cbn [lookup list_lookup].
    + intros [= <-]. unfold seeded. cbn [timestamp id userId amountCups fatigue
                                          inAmountCups inFatigue].
      rewrite Nat.add_0_r.
      split; [reflexivity|]. split; [reflexivity|]. split; [reflexivity|].
      split.
      * eexists. split; [reflexivity|].
        apply randomInt_range; [apply rand_range .. | lia].
      * eexists. split; [reflexivity|].
        apply randomInt_range; [apply rand_range .. | lia].
    + intros Hj. specialize (Hst j e Hj).
      replace (calls p + S j)%nat with (S (calls p) + j)%nat by lia. exact Hst.
Qed.

Lemma seedDays_adds (today : Z) (offsets : list Z) : forall p : Progress,
  let p' := seedDays tza rand clock ids today offsets p in
  exists new,
    entries (store (world p')) = new ++ entries (store (world p)) /\
    (length new <= 7 * length offsets)%nat /\
    calls p' = (calls p + length new)%nat /\
    forall j e, rev new !! j = Some e -> seeded clock ids (calls p + j) e.
Proof.
  induction offsets as [|i rest IH]; intros p; cbv zeta; cbn [seedDays].
  - exists []. split; [reflexivity|]. split; [cbn; lia|]. split; [cbn; lia|].
    intros j e. cbn [rev]. rewrite lookup_nil. discriminate.
  - cbv zeta.
    assert (Hstep : forall (m : nat) (q : Progress),
              (m <= 7)%nat -> world q = world p -> calls q = calls p ->
              let p' := seedDays tza rand clock ids today rest
                          (seedEntries tza rand clock ids
                             (setDate tza today (getDate tza today - i)) m q) in
              exists new,
                entries (store (world p')) = new ++ entries (store (world p)) /\
                (length new <= 7 * length (i :: rest))%nat /\
                calls p' = (calls p + length new)%nat /\
                forall j e, rev new !! j = Some e ->
                            seeded clock ids (calls p + j) e).
    { intros m q Hm Hw Hc. cbv zeta.
      destruct (seedEntries_adds (setDate tza today (getDate tza today - i)) m q)
        as (new1 & Hent1 & Hlen1 & Hcalls1 & Hst1). cbv zeta in Hent1, Hcalls1.
      destruct (IH (seedEntries tza rand clock ids
                      (setDate tza today (getDate tza today - i)) m q))
        as (new2 & Hent2 & Hlen2 & Hcalls2 & Hst2). cbv zeta in Hent2, Hcalls2.
      exists (new2 ++ new1).
      split; [rewrite Hent2, Hent1, Hw, app_assoc; reflexivity|].
      split; [rewrite length_app; cbn [length]; lia|].
      split; [rewrite Hcalls2, Hcalls1, length_app; lia|].
      intros j e. rewrite rev_app_distr. intros Hj.
      apply lookup_app_Some in Hj as [Hj|[Hge Hj]].
      - rewrite <- Hc. apply Hst1, Hj.
      - rewrite length_rev in Hge, Hj. specialize (Hst2 _ _ Hj).
        replace (calls p + j)%nat
          with (calls (seedEntries tza rand clock ids
                         (setDate tza today (getDate tza today - i)) m q)
                + (j - length new1))%nat by lia.
        exact Hst2. }
    destruct (Qltb (rand (draws p)) (15 # 100)).
    + destruct (IH {| world := world p; draws := S (draws p); calls := calls p |})
        as (new & Hent & Hlen & Hcalls & Hst). cbv zeta in Hent, Hcalls.
      cbn [world calls] in Hent, Hcalls, Hst.
      exists new. split; [exact Hent|]. split; [cbn [length]; lia|].
      split; [exact Hcalls | exact Hst].
    + destruct (Qltb (rand (S (draws p))) (15 # 100)).
      * apply Hstep; [lia | reflexivity ..].
      * apply Hstep; [|reflexivity ..].
        destruct (rand_range (draws p + 2)) as [H0 H1].
        pose proof (randomInt_range _ 3 7 H0 H1 ltac:(lia)). lia.
Qed.

(** X25. Whatever the random draws, [seedData] puts at most 210 new entries in
    front of the list, the latest call first; the entry of the [j]-th
    [addEntry] call carries the clock reading and the id of that call, so no
    entry is dated on one of the 30 past days the loop runs over; amounts are
    whole numbers from 1 to 3 and levels from 1 to 5. *)
Theorem seedData_stamps_clock (today : Z) (w : World) :
  exists new,
    entries (store (seedData tza rand clock ids today w))
    = new ++ entries (store w) /\
    (length new <= 210)%nat /\
    forall j e, rev new !! j = Some e -> seeded clock ids j e.
Proof.
  unfold seedData.
  destruct (seedDays_adds today (seqZ 0 30)
              {| world := w; draws := O; calls := O |})
    as (new & Hent & Hlen & _ & Hst). cbv zeta in Hent.
  cbn [world calls] in Hent, Hst. rewrite length_seqZ in Hlen.
  exists new. split; [exact Hent|]. split; [lia | exact Hst].
Qed.

End Streams.

Section Generated.

Variable tza : Z.
Variable rand : nat -> Q.
Hypothesis rand_range : forall i, (0 <= rand i)%Q /\ (rand i < 1)%Q.

Lemma toFixed1_half_range (r : Q) :
  (0 <= r)%Q -> (r < 1)%Q ->
  (1 # 2 <= toFixed1 (r * 2 + (1 # 2)))%Q /\
  (toFixed1 (r * 2 + (1 # 2)) <= 5 # 2)%Q.
Proof.
  intros H0 H1. unfold toFixed1.
  set (y := ((r * 2 + (1 # 2)) * 10 + (1 # 2))%Q).
  assert (Hlo : 5 <= Qfloor y).
  { change 5 with (Qfloor (11 # 2)). apply Qfloor_resp_le. subst y. lra. }
  assert (Hhi : Qfloor y <= 25).
  { change 25 with (Qfloor (51 # 2)). apply Qfloor_resp_le. subst y. lra. }
  rewrite Zle_Qle in Hlo, Hhi.
  change (inject_Z 5) with 5%Q in Hlo. change (inject_Z 25) with 25%Q in Hhi.
  split.
  - apply Qle_shift_div_l; [reflexivity|]. lra.
  - apply Qle_shift_div_r; [reflexivity|]. lra.
Qed.

Lemma genDayEntries_ok (D : Z) (n : nat) : forall (date : Z) (i : nat),
  startOfDay tza date = D ->
  Forall (fun e =>
            D + 7 * Calendar.msPerHour <= timestamp e
            < D + 22 * Calendar.msPerHour /\
            localTimeOfDay tza (timestamp e) mod Calendar.msPerMinute = 0 /\
            userId e = MOCK_USER_ID /\
            (exists f : Z, fatigue e = inject_Z f /\ 1 <= f <= 5) /\
            (1 # 2 <= amountCups e)%Q /\ (amountCups e <= 5 # 2)%Q)
    (fst (genDayEntries tza rand date n i)) /\
  length (fst (genDayEntries tza rand date n i)) = n.
Proof.
  induction n as [|n IH]; intros date i HD; cbn [genDayEntries].
  - split; [constructor | reflexivity].
  - destruct (rand_range i) as [Ha0 Ha1].
    destruct (rand_range (i + 1)) as [Hb0 Hb1].
    destruct (rand_range (i + 2)) as [Hc0 Hc1].
    destruct (rand_range (i + 3)) as [Hd0 Hd1].
    pose proof (Qfloor_scaled (rand i) 15 Ha0 Ha1 eq_refl) as Hh.
    pose proof (Qfloor_scaled (rand (i + 1)) 60 Hb0 Hb1 eq_refl) as Hm.
    pose proof (Qfloor_scaled (rand (i + 3)) 5 Hd0 Hd1 eq_refl) as Hf.
    change (inject_Z 15) with 15%Q in Hh. change (inject_Z 60) with 60%Q in Hm.
    change (inject_Z 5) with 5%Q in Hf.
    set (h := Qfloor (rand i * 15)) in *.
    set (m := Qfloor (rand (i + 1)%nat * 60)) in *.
    assert (Hts : setHours tza date (h + 7) m 0 0
                  = D + (h + 7) * Calendar.msPerHour + m * Calendar.msPerMinute).
    { subst D. unfold setHours. clearbody h m. date_arith. }
    assert (Hday : startOfDay tza (setHours tza date (h + 7) m 0 0) = D).
    { rewrite Hts. subst D. clearbody h m. date_arith. }
    assert (Hmin : localTimeOfDay tza (setHours tza date (h + 7) m 0 0)
                   mod Calendar.msPerMinute = 0).
    { rewrite Hts. subst D. clearbody h m.
      assert (Hl : localTimeOfDay tza
                     (startOfDay tza date + (h + 7) * Calendar.msPerHour
                      + m * Calendar.msPerMinute)
                   = (h + 7) * Calendar.msPerHour + m * Calendar.msPerMinute)
        by date_arith.
      rewrite Hl. unfold Calendar.msPerHour, Calendar.msPerMinute.
      Z.div_mod_to_equations. lia. }
    destruct (IH (setHours tza date (h + 7) m 0 0) (i + 4)%nat Hday)
      as [IHok IHlen].
    destruct (genDayEntries tza rand (setHours tza date (h + 7) m 0 0) n (i + 4))
      as [rest j].
    cbn [fst] in *. split; [|cbn [length]; rewrite IHlen; reflexivity].
    constructor; [|exact IHok].
    cbn [timestamp fatigue amountCups userId].
    split; [rewrite Hts; clearbody h m;
            unfold Calendar.msPerHour, Calendar.msPerMinute; lia|].
    split; [exact Hmin|]. split; [reflexivity|].
    split; [eexists; split; [reflexivity | lia]|].
    apply toFixed1_half_range; assumption.
Qed.

Lemma genDays_ok (now : Z) (offsets : list Z) : forall i : nat,
  Forall (fun off => 0 <= off <= 29) offsets ->
  Forall (generated tza now) (genDays tza rand now offsets i) /\
  (length (genDays tza rand now offsets i) <= 4 * length offsets)%nat.
Proof.
  induction offsets as [|off rest IH]; intros i Hoff; cbn [genDays].
  - split; [constructor | cbn; lia].
  - apply Forall_cons in Hoff as [Hd Hrest].
    rewrite setDate_getDate_minus.
    destruct (rand_range i) as [H0 H1].
    pose proof (Qfloor_scaled (rand i) 5 H0 H1 eq_refl) as Hcount.
    change (inject_Z 5) with 5%Q in Hcount.
    destruct (genDayEntries_ok (plusDays (startOfDay tza now) (- off))
                (Z.to_nat (Qfloor (rand i * 5))) (plusDays now (- off)) (S i))
      as [Hok Hlen]; [date_arith|].
    destruct (genDayEntries tza rand (plusDays now (- off))
                (Z.to_nat (Qfloor (rand i * 5))) (S i)) as [es j].
    cbn [fst] in Hok, Hlen.
    destruct (IH j Hrest) as [IHok IHlen].
    split; [|rewrite length_app; cbn [length]; lia].
    apply Forall_app. split; [|exact IHok].
    eapply Forall_impl; [exact Hok|].
    intros e (Hts & Hrest'). split; [|exact Hrest'].
    exists off. split; [exact Hd | exact Hts].
Qed.

Lemma length_mapSet (V : Type) (k : string) (v : V) (m : list (string * V)) :
  (length (mapSet k v m) <= S (length m))%nat.
Proof.
  induction m as [|[k' v'] m IH]; cbn; [lia|].
  destruct (String.eqb k' k); cbn; lia.
Qed.

Lemma storeAll_ok (ids : nat -> string) (now : Z) (l : list WaterLogEntry) :
  forall (storage : list (string * WaterLogEntry)) (n : nat),
  NoDup (fst <$> storage) ->
  (forall k v, mapGet k storage = Some v ->
               id v = Some k /\ generated tza now v) ->
  Forall (generated tza now) l ->
  NoDup (fst <$> storeAll ids l storage n) /\
  (forall k v, mapGet k (storeAll ids l storage n) = Some v ->
               id v = Some k /\ generated tza now v) /\
  (length (storeAll ids l storage n) <= length storage + length l)%nat.
Proof.
  induction l as [|e l IH]; intros storage n Hnd Hall Hl; cbn [storeAll].
  - split; [exact Hnd|]. split; [exact Hall | cbn; lia].
  - apply Forall_cons in Hl as [He Hl]. cbv zeta.
    destruct (IH (mapSet (ids n)
                    {| id := Some (ids n); userId := userId e;
                       amountCups := amountCups e; fatigue := fatigue e;
                       timestamp := timestamp e |} storage) (S n))
      as (Hnd' & Hall' & Hlen'); [apply LogStoreFacts.NoDup_mapSet, Hnd | | exact Hl |].
    + intros k v. destruct (String.eqb_spec (ids n) k) as [<-|Hne].
      * rewrite LogStoreFacts.mapGet_mapSet_eq. intros [= <-].
        split; [reflexivity | exact He].
      * rewrite LogStoreFacts.mapGet_mapSet_ne by exact Hne. apply Hall.
    + split; [exact Hnd'|]. split; [exact Hall'|].
      pose proof (length_mapSet _ (ids n)
                    {| id := Some (ids n); userId := userId e;
                       amountCups := amountCups e; fatigue := fatigue e;
                       timestamp := timestamp e |} storage).
      cbn [length]. lia.
Qed.

(** X26. Whatever was stored and listed before, and whatever the random draws:
    after [generateSeedData], with its three clock readings on one local
    day, the storage holds at most 120 entries, each generated for one of
    the last 30 days between 07:00 and 22:00 on a whole minute, with a level
    from 1 to 5 and an amount from 0.5 to 2.5; the list shows all of them,
    the newest first; list and storage agree, and the loading state and the
    error are cleared. *)
Theorem generateSeedData_replaces (ids : nat -> string)
  (now fetchNow fetchStart0 : Z) (w : World) :
  localDay tza fetchNow = localDay tza now ->
  localDay tza fetchStart0 = localDay tza now ->
  let w' := generateSeedData tza rand ids now fetchNow fetchStart0 w in
  consistent w' /\
  (length (mockStorage w') <= 120)%nat /\
  (forall k v, mapGet k (mockStorage w') = Some v -> generated tza now v) /\
  Permutation (entries (store w')) (mapValues (mockStorage w')) /\
  StronglySorted (fun a b => timestamp b <= timestamp a) (entries (store w')) /\
  isLoading (store w') = false /\ error (store w') = None.
Proof.
  intros HdayN HdayS. cbv zeta. unfold generateSeedData, fetchEntries.
  cbv zeta. rewrite LogStoreFacts.noUser_mock.
  cbn [mockStorage store entries isLoading error setEntries setLoading
       fetchStart].
  change (getDate tza fetchNow - 30) with (getDate tza fetchNow + - 30).
  rewrite (setDate_getDate_of tza fetchStart0 fetchNow (- 30)) by congruence.
  destruct (genDays_ok now (seqZ 0 30) 0) as [Hgen Hlen].
  { apply Forall_forall. intros d Hd. apply elem_of_seqZ in Hd. lia. }
  rewrite length_seqZ in Hlen.
  destruct (storeAll_ok ids now (genDays tza rand now (seqZ 0 30) 0) [] 0)
    as (Hnd & Hall & Hslen);
    [constructor | intros k v; discriminate | exact Hgen |].
  cbn [length] in Hslen.
  set (storage := storeAll ids (genDays tza rand now (seqZ 0 30) 0) [] 0) in *.
  assert (Hkeep :
            List.filter
              (fun entry => String.eqb (userId entry) MOCK_USER_ID
                            && (timestamp entry >=? plusDays fetchStart0 (- 30)))
              (mapValues storage) = mapValues storage).
  { apply LogStoreFacts.filter_all. intros v Hv. unfold mapValues in Hv.
    apply in_map_iff in Hv as ([k v0] & Heq & Hin). cbn in Heq. subst v0.
    destruct (Hall k v (LogStoreFacts.In_mapGet _ _ _ Hnd Hin))
      as (_ & (d & Hd & Hts) & _ & Hu & _).
    rewrite Hu, String.eqb_refl. cbn [andb]. apply Z.geb_le.
    revert Hts Hd HdayS. clear. generalize (timestamp v). intros t. date_arith. }
  rewrite Hkeep.
  split; [|split; [lia|]; split; [intros k v Hk; apply (Hall k v Hk)|];
           split; [apply LogStoreFacts.sortDesc_perm|];
           split; [apply LogStoreFacts.sortDesc_sorted|]; split; reflexivity].
  split; [exact Hnd|]. split; [intros k v Hk; apply (Hall k v Hk)|].
  cbn [mockStorage store entries].
  intros e He. apply (Permutation_in _ (LogStoreFacts.sortDesc_perm _)) in He.
  unfold mapValues in He.
  apply in_map_iff in He as ([k e0] & Heq & Hin). cbn in Heq. subst e0.
  pose proof (LogStoreFacts.In_mapGet _ _ _ Hnd Hin) as Hget.
  exists k. split; [apply (Hall k e Hget) | exact Hget].
Qed.

End Generated.

(** *** The seeding at concrete inputs *)

Lemma seedData_stamps_clock_witness :
  exists new,
    entries (store (seedData 0 Sample.sampleRand Sample.sampleClock
                      Sample.sampleIds (Sample.at_ 19738 12)
                      Sample.sampleWorld))
    = new ++ entries (store Sample.sampleWorld) /\
    (length new <= 210)%nat /\
    forall j e, rev new !! j = Some e ->
                seeded Sample.sampleClock Sample.sampleIds j e.
Proof.
  exact (seedData_stamps_clock 0 Sample.sampleRand sampleRand_range
           Sample.sampleClock Sample.sampleIds (Sample.at_ 19738 12)
           Sample.sampleWorld).
Defined.

Lemma generateSeedData_replaces_witness :
  (length (mockStorage
             (generateSeedData 0 Sample.sampleRand Sample.sampleIds
                (Sample.at_ 19738 12) (Sample.at_ 19738 12)
                (Sample.at_ 19738 12) Sample.sampleWorld)) <= 120)%nat.
Proof.
  assert (H : localDay 0 (Sample.at_ 19738 12) = localDay 0 (Sample.at_ 19738 12))
    by reflexivity.
  exact (proj1 (proj2
    (generateSeedData_replaces 0 Sample.sampleRand sampleRand_range
       Sample.sampleIds (Sample.at_ 19738 12) (Sample.at_ 19738 12)
       (Sample.at_ 19738 12) Sample.sampleWorld H H))).
Defined.

End SeedFacts.
